(** * Latte: the session, render and persistence engine of [src/main.js]

    A shallow embedding of the editor's core: the document collection kept
    in [files], the id of the open document, the two [localStorage] records,
    the debounced render and auto-save timers, the asynchronous LaTeX
    render, the file tree, and the [openFile] / [createFile] actions.

    JavaScript strings are modelled by [string]: one [ascii] per UTF-16
    code unit, for code units below 256.  The only character of the source
    outside that range that the model carries is the dash of [DEFAULT_DOC]
    and the two icons of the file tree, kept as their UTF-8 bytes; nothing
    inspects them. *)

From Stdlib Require Import String Ascii NArith List Bool.
From stdpp Require Import base option list gmap strings sorting.

Local Open Scope string_scope.

(** ** JavaScript strings *)

Module JsString.

(** [s ? a : b] on a string: the empty string is the only falsy one. *)
Definition truthy (s : string) : bool := negb (String.eqb s "").

(** White space and line terminators that [String.prototype.trim] strips,
    among the code units below 256: TAB, LF, VT, FF, CR, SP and NBSP. *)
Definition isWhiteSpace (c : ascii) : bool :=
  let n := N_of_ascii c in
  (N.leb 9 n && N.leb n 13) || N.eqb n 32 || N.eqb n 160.

Fixpoint trimStart (s : string) : string :=
  match s with
  | EmptyString => EmptyString
  | String c r => if isWhiteSpace c then trimStart r else s
  end.

(** [trimEnd] drops the white space that is followed by white space only. *)
Fixpoint trimEnd (s : string) : string :=
  match s with
  | EmptyString => EmptyString
  | String c r =>
      match trimEnd r with
      | EmptyString => if isWhiteSpace c then EmptyString else String c EmptyString
      | r' => String c r'
      end
  end.

Definition trim (s : string) : string := trimEnd (trimStart s).

(** The text as the editor holds it: CodeMirror splits what is inserted
    into lines at [\r\n], [\r] and [\n], and [doc.toString()] joins the
    lines with a line feed: [s.split(/\r\n?|\n/).join("\n")]. *)
Fixpoint normalise (s : string) : string :=
  match s with
  | EmptyString => EmptyString
  | String c r =>
      if Ascii.eqb c "013"%char
      then String "010"%char
             match r with
             | String c' r' => if Ascii.eqb c' "010"%char then normalise r' else normalise r
             | EmptyString => EmptyString
             end
      else String c (normalise r)
  end.
Arguments normalise : simpl never.

(** The digit of [Number.prototype.toString(36)] for a value below 36. *)
Definition digit36 (d : N) : ascii :=
  if N.ltb d 10 then ascii_of_N (48 + d) else ascii_of_N (87 + d).

Fixpoint toString36_aux (fuel : nat) (n : N) (acc : string) : string :=
  match fuel with
  | O => acc
  | S fuel' =>
      let acc' := String (digit36 (N.modulo n 36)) acc in
      if N.ltb n 36 then acc' else toString36_aux fuel' (N.div n 36) acc'
  end.

(** [n.toString(36)] for a non-negative integer [n]. *)
Definition toString36 (n : N) : string :=
  toString36_aux (S (N.to_nat (N.log2 n))) n "".

(** A string is blank when every code unit of it is white space. *)
Fixpoint blank (s : string) : bool :=
  match s with
  | EmptyString => true
  | String c r => isWhiteSpace c && blank r
  end.

End JsString.

(** ** Documents, errors and the platform *)

(** A document of the collection, as [JSON.parse] or [createFile] builds
    it.  [folder] is absent on a record that was stored without one. *)
Module File.
Record t := mk { id : string; name : string; folder : option string; content : string }.
End File.

(** [err.message] as the [catch] block of [renderLatex] reads it: a
    string; a falsy value that is no string ([undefined] when there is no
    such property, [null], [0], [NaN], [false]); or any other value, of
    which [shown] is the string form [textContent] then holds. *)
Inductive Message :=
  | Text (s : string)
  | Falsy
  | Truthy (shown : string).

(** A thrown value: [null] or [undefined], of which no property can be
    read, or a value with its [message] and its string form
    [String(err)]. *)
Inductive JsError :=
  | Nullish
  | mkError (message : Message) (toStr : string).

Definition SecurityError : JsError :=
  mkError (Text "The operation is insecure.") "SecurityError: The operation is insecure.".
Definition QuotaExceededError : JsError :=
  mkError (Text "The quota has been exceeded.") "QuotaExceededError: The quota has been exceeded.".
Definition SyntaxError : JsError :=
  mkError (Text "JSON.parse: unexpected character") "SyntaxError: JSON.parse: unexpected character".
(** What reading [err.message] throws when [err] is [null] or
    [undefined]. *)
Definition TypeError_message : JsError :=
  mkError (Text "Cannot read properties of null (reading 'message')")
          "TypeError: Cannot read properties of null (reading 'message')".
Definition TypeError_push : JsError :=
  mkError (Text "folders[folder].push is not a function")
          "TypeError: folders[folder].push is not a function".

(** What [files.find] throws when [files] holds a value without such a
    method ([null], a number, a string, an object); the message is the
    engine's. *)
Definition TypeError_find : JsError :=
  mkError (Text "files.find is not a function") "TypeError: files.find is not a function".

(** What [JSON.parse] makes of a text: it throws a [SyntaxError], or it
    returns an array of documents, or it returns another value, of which
    [array] tells whether it is an array. *)
Inductive Parsed :=
  | Thrown
  | Documents (fs : list File.t)
  | Foreign (array : bool).

(** What the variable [files] holds: the collection, which is the
    [files] of the world, or a value that is no array of documents, of
    which the world has no picture. *)
Inductive Held :=
  | Collection
  | Alien (array : bool).

(** How the startup code ends, when it does not throw: it has run to its
    end, or [files] holds a foreign value and what the code does next
    depends on that value, where the model follows it no further. *)
Inductive Ending :=
  | Ready
  | Beyond.

(** [localStorage]: the stored items, whether the medium can be reached
    at all, and which writes it takes (a quota, for instance). *)
Record Storage := mkStorage {
  items : gmap string string;
  available : bool;
  accepts : gmap string string -> string -> string -> bool
}.

(** A pending [setTimeout]: when it is due and the source it will pass. *)
Record Timer := mkTimer { due : N; arg : string }.

(** A [renderLatex] call suspended at [await getLatex()].  [origin] is
    instrumentation: the document that was current when the call was made
    (the code itself keeps no such record). *)
Record Suspended := mkSuspended { src : string; origin : option string }.

Record ErrorBox := mkErrorBox { textContent : string; hidden : bool }.

(** What [renderFileTree] leaves in the [file-tree] container. *)
Record FileItem := mkFileItem { fileId : string; label : string; active : bool }.
Record FolderItem := mkFolderItem { header : string; children : list FileItem }.
Inductive TreeView :=
  | NoSavedFiles
  | FileTreeList (rootItems : list FileItem) (folderItems : list FolderItem).

(** Instrumentation: the calls of [renderLatex] (with the time of the
    call) and the sources handed to the compiler's [parse]. *)
Inductive Observation :=
  | RenderLatexCalled (t : N) (source : string)
  | Compiled (source : string).

Record World := mkWorld {
  files : list File.t;
  currentFileId : option string;
  localStorage : Storage;
  doc : string;
  renderTimer : option Timer;
  autoSaveTimer : option Timer;
  latexModule : bool;
  suspended : list Suspended;
  frame_srcdoc : string;
  errorBox : ErrorBox;
  fileTree : TreeView;
  clock : N;
  observed : list Observation
}.

Definition with_files v (w : World) : World :=
  mkWorld v (currentFileId w) (localStorage w) (doc w) (renderTimer w) (autoSaveTimer w)
    (latexModule w) (suspended w) (frame_srcdoc w) (errorBox w) (fileTree w) (clock w) (observed w).
Definition with_currentFileId v (w : World) : World :=
  mkWorld (files w) v (localStorage w) (doc w) (renderTimer w) (autoSaveTimer w)
    (latexModule w) (suspended w) (frame_srcdoc w) (errorBox w) (fileTree w) (clock w) (observed w).
Definition with_localStorage v (w : World) : World :=
  mkWorld (files w) (currentFileId w) v (doc w) (renderTimer w) (autoSaveTimer w)
    (latexModule w) (suspended w) (frame_srcdoc w) (errorBox w) (fileTree w) (clock w) (observed w).
Definition with_doc v (w : World) : World :=
  mkWorld (files w) (currentFileId w) (localStorage w) v (renderTimer w) (autoSaveTimer w)
    (latexModule w) (suspended w) (frame_srcdoc w) (errorBox w) (fileTree w) (clock w) (observed w).
Definition with_renderTimer v (w : World) : World :=
  mkWorld (files w) (currentFileId w) (localStorage w) (doc w) v (autoSaveTimer w)
    (latexModule w) (suspended w) (frame_srcdoc w) (errorBox w) (fileTree w) (clock w) (observed w).
Definition with_autoSaveTimer v (w : World) : World :=
  mkWorld (files w) (currentFileId w) (localStorage w) (doc w) (renderTimer w) v
    (latexModule w) (suspended w) (frame_srcdoc w) (errorBox w) (fileTree w) (clock w) (observed w).
Definition with_latexModule v (w : World) : World :=
  mkWorld (files w) (currentFileId w) (localStorage w) (doc w) (renderTimer w) (autoSaveTimer w)
    v (suspended w) (frame_srcdoc w) (errorBox w) (fileTree w) (clock w) (observed w).
Definition with_suspended v (w : World) : World :=
  mkWorld (files w) (currentFileId w) (localStorage w) (doc w) (renderTimer w) (autoSaveTimer w)
    (latexModule w) v (frame_srcdoc w) (errorBox w) (fileTree w) (clock w) (observed w).
Definition with_frame_srcdoc v (w : World) : World :=
  mkWorld (files w) (currentFileId w) (localStorage w) (doc w) (renderTimer w) (autoSaveTimer w)
    (latexModule w) (suspended w) v (errorBox w) (fileTree w) (clock w) (observed w).
Definition with_errorBox v (w : World) : World :=
  mkWorld (files w) (currentFileId w) (localStorage w) (doc w) (renderTimer w) (autoSaveTimer w)
    (latexModule w) (suspended w) (frame_srcdoc w) v (fileTree w) (clock w) (observed w).
Definition with_fileTree v (w : World) : World :=
  mkWorld (files w) (currentFileId w) (localStorage w) (doc w) (renderTimer w) (autoSaveTimer w)
    (latexModule w) (suspended w) (frame_srcdoc w) (errorBox w) v (clock w) (observed w).
Definition with_clock v (w : World) : World :=
  mkWorld (files w) (currentFileId w) (localStorage w) (doc w) (renderTimer w) (autoSaveTimer w)
    (latexModule w) (suspended w) (frame_srcdoc w) (errorBox w) (fileTree w) v (observed w).
Definition with_observed v (w : World) : World :=
  mkWorld (files w) (currentFileId w) (localStorage w) (doc w) (renderTimer w) (autoSaveTimer w)
    (latexModule w) (suspended w) (frame_srcdoc w) (errorBox w) (fileTree w) (clock w) v.

(** ** Statements that may throw: a state and exception monad *)

Inductive Completion (A : Type) : Type :=
  | Normal (a : A)
  | Throw (e : JsError).
Arguments Normal {A} a.
Arguments Throw {A} e.

Definition Js (A : Type) : Type := World -> Completion A * World.

#[export] Instance Js_ret : MRet Js := fun A a w => (Normal a, w).
#[export] Instance Js_bind : MBind Js := fun A B k m w =>
  match m w with
  | (Normal a, w') => k a w'
  | (Throw e, w') => (Throw e, w')
  end.

Definition throw {A} (e : JsError) : Js A := fun w => (Throw e, w).

(** [try { body } catch (err) { handler }]: effects of [body] made before
    the throw stay. *)
Definition tryCatch {A} (body : Js A) (handler : JsError -> Js A) : Js A := fun w =>
  match body w with
  | (Normal a, w') => (Normal a, w')
  | (Throw e, w') => handler e w'
  end.

Definition read {A} (f : World -> A) : Js A := fun w => (Normal (f w), w).
Definition update (f : World -> World) : Js unit := fun w => (Normal tt, f w).

(** The world an event handler leaves: an exception that escapes it is
    reported on the console and changes nothing more. *)
Definition after {A} (m : Js A) (w : World) : World := snd (m w).

(** ** [localStorage] *)

Definition STORAGE_KEY : string := "latte_files_v1".
Definition CURRENT_KEY : string := "latte_current_v1".

Definition getItem (k : string) : Js (option string) := fun w =>
  let st := localStorage w in
  if available st then (Normal (items st !! k), w) else (Throw SecurityError, w).

Definition setItem (k v : string) : Js unit := fun w =>
  let st := localStorage w in
  if available st then
    if accepts st (items st) k v
    then (Normal tt, with_localStorage (mkStorage (<[k:=v]> (items st)) (available st) (accepts st)) w)
    else (Throw QuotaExceededError, w)
  else (Throw SecurityError, w).

Definition removeItem (k : string) : Js unit := fun w =>
  let st := localStorage w in
  if available st
  then (Normal tt, with_localStorage (mkStorage (delete k (items st)) (available st) (accepts st)) w)
  else (Throw SecurityError, w).

(** ** The document collection *)

(** [files.find(f => f.id === i)]: the first document with that id. *)
Fixpoint find (i : string) (fs : list File.t) : option File.t :=
  match fs with
  | [] => None
  | f :: r => if String.eqb (File.id f) i then Some f else find i r
  end.

(** [files.find(f => f.id === i).content = c]: the object found is shared
    with the array, so the first document with that id changes in place. *)
Fixpoint setContent (i c : string) (fs : list File.t) : list File.t :=
  match fs with
  | [] => []
  | f :: r =>
      if String.eqb (File.id f) i
      then File.mk (File.id f) (File.name f) (File.folder f) c :: r
      else f :: setContent i c r
  end.

(** ** Plain objects used as maps

    [obj[k]] on an object literal finds the object's own property, or else
    a member inherited from [Object.prototype]; only when neither exists is
    it [undefined]. *)
Definition Object_prototype : list string :=
  [ "constructor"; "__defineGetter__"; "__defineSetter__"; "hasOwnProperty";
    "__lookupGetter__"; "__lookupSetter__"; "isPrototypeOf"; "propertyIsEnumerable";
    "toString"; "valueOf"; "__proto__"; "toLocaleString" ].

Definition inherited (k : string) : bool := bool_decide (k ∈ Object_prototype).

Inductive Property (A : Type) : Type :=
  | Own (a : A)
  | Inherited
  | Undefined.
Arguments Own {A} a.
Arguments Inherited {A}.
Arguments Undefined {A}.

Definition js_get {A} (o : gmap string A) (k : string) : Property A :=
  match o !! k with
  | Some a => Own a
  | None => if inherited k then Inherited else Undefined
  end.

(** ** Default document and templates *)

Definition DEFAULT_DOC : string :=
"\documentclass{article}

\title{Latte}
\author{}
\date{}

\begin{document}

\maketitle

Welcome to \textbf{Latte} — a high-quality \LaTeX{} editor.

\section{Introduction}
Start writing your document here. The preview on the right
updates automatically as you type.

\section{Mathematics}
Inline math: $E = mc^2$

Display math:
\[
  \int_{-\infty}^{\infty} e^{-x^2}\, dx = \sqrt{\pi}
\]

\end{document}".

Definition TEMPLATE_blank : string :=
"\documentclass{article}

\begin{document}



\end{document}".

Definition TEMPLATE_math : string :=
"\documentclass{article}
\usepackage{amsmath}
\usepackage{amssymb}

\title{Mathematics}
\date{}

\begin{document}

\maketitle

\section{Calculus}

The fundamental theorem of calculus:
\[
  \int_a^b f'(x)\,dx = f(b) - f(a)
\]

\section{Algebra}

The quadratic formula: $x = \dfrac{-b \pm \sqrt{b^2 - 4ac}}{2a}$

\section{Series}

Euler's identity: $e^{i\pi} + 1 = 0$

Taylor series: $e^x = \sum_{n=0}^{\infty} \dfrac{x^n}{n!}$

\end{document}".

Definition TEMPLATE_letter : string :=
"\documentclass{letter}

\begin{document}

\begin{letter}{Recipient Name\\Street Address\\City, Country}

\opening{Dear Sir or Madam,}

I am writing to you regarding the matter discussed previously.
Please find my thoughts enclosed herein.

\closing{Sincerely,}

\end{letter}

\end{document}".

Definition TEMPLATES : gmap string string :=
  list_to_map [ ("blank", TEMPLATE_blank); ("article", DEFAULT_DOC);
                ("math", TEMPLATE_math); ("letter", TEMPLATE_letter) ].

(** [TEMPLATES[templateKey] || TEMPLATES.blank].  A key that names a member
    of [Object.prototype] yields that member, which is truthy and is no
    text: the model has no document content for it. *)
Definition resolveTemplate (templateKey : string) : option string :=
  match js_get TEMPLATES templateKey with
  | Own t => Some (if JsString.truthy t then t else TEMPLATE_blank)
  | Inherited => None
  | Undefined => Some TEMPLATE_blank
  end.

(** ** The compiled document *)

Inductive Element :=
  | LinkStylesheet (href : string)
  | Style (css : string).

(** The document tree the LaTeX compiler returns: what it built, and the
    children of its [head]. *)
Record HtmlDocument := mkHtmlDocument { built : string; head : list Element }.

Definition appendChild (e : Element) (d : HtmlDocument) : HtmlDocument :=
  mkHtmlDocument (built d) (head d ++ [e])%list.

Definition katexCSS : Element :=
  LinkStylesheet "https://cdn.jsdelivr.net/npm/katex@0.16.9/dist/katex.min.css".
Definition latexCSS : Element :=
  LinkStylesheet "https://cdn.jsdelivr.net/npm/latex.js@0.12.6/dist/latex.css".
Definition styleReset : Element :=
  Style "
      body { font-family: 'Georgia', serif; padding: 3rem 4rem;
             max-width: 780px; margin: 0 auto; line-height: 1.65;
             color: #1a1208; background: #fff; }
      @media (max-width: 600px) { body { padding: 1.5rem 1rem; } }
    ".

(** [err.message || String(err)], as [textContent] holds it; there is no
    text when [err] is [null] or [undefined], where reading the message
    throws. *)
Definition errorText (err : JsError) : option string :=
  match err with
  | Nullish => None
  | mkError (Text m) str => Some (if JsString.truthy m then m else str)
  | mkError Falsy str => Some str
  | mkError (Truthy shown) _ => Some shown
  end.

(** [raw || null].  The same case distinction is the test
    [if (currentFileId)]: [null] and the empty string are falsy, and any
    other string is the id at hand. *)
Definition orNull (raw : option string) : option string :=
  match raw with
  | Some s => if JsString.truthy s then Some s else None
  | None => None
  end.

(** [(file.folder || '').trim()] *)
Definition folderOf (file : File.t) : string :=
  JsString.trim (default "" (File.folder file)).

Definition str_le (a b : string) : Prop := String.leb a b = true.

#[export] Instance str_le_dec a b : Decision (str_le a b).
Proof. unfold str_le. apply _. Defined.


(** ** Descriptions used in the statements *)

(** What a guarded [setItem] leaves of the storage: the item is written
    when the medium takes the write, and nothing changes when it throws. *)
Definition put (k v : string) (st : Storage) : Storage :=
  if available st && accepts st (items st) k v
  then mkStorage (<[k:=v]> (items st)) (available st) (accepts st)
  else st.

(** What a guarded [removeItem] leaves of the storage. *)
Definition del (k : string) (st : Storage) : Storage :=
  if available st then mkStorage (delete k (items st)) (available st) (accepts st) else st.

(** The medium rejects every write: it cannot be reached, or it is full. *)
Definition rejecting (st : Storage) : Prop :=
  available st = false \/ forall m k v, accepts st m k v = false.

(** The collection after the editor's text has been written into the
    current document, when there is one. *)
Definition flushed (w : World) : list File.t :=
  match orNull (currentFileId w) with
  | Some c =>
      match find c (files w) with
      | Some _ => setContent c (doc w) (files w)
      | None => files w
      end
  | None => files w
  end.

(** What [saveCurrentId] leaves of the storage. *)
Definition storedCurrent (cur : option string) (st : Storage) : Storage :=
  match orNull cur with
  | Some i => put CURRENT_KEY i st
  | None => del CURRENT_KEY st
  end.

(** The world after [files] has become [fs] and [saveFiles()] has run. *)
Definition saved (fs : list File.t) (stringify : list File.t -> string) (w : World) : World :=
  with_localStorage (put STORAGE_KEY (stringify fs) (localStorage w)) (with_files fs w).

(** The session: what the render pipeline never touches. *)
Definition session (w : World) :=
  (files w, currentFileId w, localStorage w, doc w, autoSaveTimer w).

(** The page and the pipeline: what saving never touches. *)
Definition pipeline (w : World) :=
  (renderTimer w, latexModule w, suspended w, frame_srcdoc w, errorBox w, observed w).

(** The live render result of the specification, read off the page: the
    error box when it is shown, the preview frame otherwise. *)
Inductive RenderResult :=
  | Success (artifact : string)
  | Failure (msg : string).

Definition liveResult (w : World) : RenderResult :=
  if hidden (errorBox w) then Success (frame_srcdoc w) else Failure (textContent (errorBox w)).

(** The page after the [catch] block of [renderLatex] has run on [err]:
    the error box shows the error's text, and nothing changes when
    reading the message throws. *)
Definition caught (err : JsError) (w : World) : World :=
  match errorText err with
  | Some t => with_errorBox (mkErrorBox t false) w
  | None => w
  end.

(** The live result after a failure with [err], when it was [before]. *)
Definition reported (err : JsError) (before : RenderResult) : RenderResult :=
  match errorText err with
  | Some t => Failure t
  | None => before
  end.

(** The page when the module has run up to the startup code: the editor
    holds the default document and the initial render is scheduled. *)
Definition initialPage (st : Storage) : World :=
  mkWorld [] None st DEFAULT_DOC (Some (mkTimer 450 DEFAULT_DOC)) None false []
          "" (mkErrorBox "" true) NoSavedFiles 0 [].

(** ** Hover panels

    What one call of [makePanelHover(zoneId, panelId)] keeps: the panel's
    [open] class, the variable [closeTimer], and the timers that its
    [close] has set and that have neither fired nor been cleared.
    [setTimeout] returns a handle it has not returned before (browsers
    count upwards), and [clearTimeout] of [null], or of a handle that is
    no longer pending, does nothing. *)
Module Hover.

Record Panel := mkPanel {
  isOpen : bool;
  closeTimer : option nat;
  pending : list (nat * N);
  nextHandle : nat;
  now : N
}.

(** The panel when [makePanelHover] returns. *)
Definition initial : Panel := mkPanel false None [] 1 0.

Definition clearTimeout (h : option nat) (ts : list (nat * N)) : list (nat * N) :=
  match h with
  | Some k => filter (fun t => fst t <> k) ts
  | None => ts
  end.

(** [clearTimeout(closeTimer); panel.classList.add('open')] *)
Definition open (p : Panel) : Panel :=
  mkPanel true (closeTimer p) (clearTimeout (closeTimer p) (pending p)) (nextHandle p) (now p).

(** [closeTimer = setTimeout(() => panel.classList.remove('open'), 220)];
    the timer that [closeTimer] named before is not cleared. *)
Definition close (p : Panel) : Panel :=
  mkPanel (isOpen p) (Some (nextHandle p))
          (pending p ++ [(nextHandle p, now p + 220)%N])%list
          (S (nextHandle p)) (now p).

(** The panel's own [mouseenter] listener: [clearTimeout(closeTimer)]. *)
Definition hold (p : Panel) : Panel :=
  mkPanel (isOpen p) (closeTimer p) (clearTimeout (closeTimer p) (pending p))
          (nextHandle p) (now p).

Inductive Event :=
  | ZoneEnter
  | ZoneLeave
  | PanelEnter
  | PanelLeave
  | Elapse (ms : N)
  | TimerFires (h : nat).

(** Timer [h] is pending and its delay has passed. *)
Definition isDue (h : nat) (p : Panel) : bool :=
  existsb (fun t => Nat.eqb (fst t) h && N.leb (snd t) (now p)) (pending p).

Definition step (p : Panel) (e : Event) : Panel :=
  match e with
  | ZoneEnter => open p
  | PanelEnter => hold p
  | ZoneLeave | PanelLeave => close p
  | Elapse ms => mkPanel (isOpen p) (closeTimer p) (pending p) (nextHandle p) (now p + ms)
  | TimerFires h =>
      if isDue h p
      then mkPanel false (closeTimer p) (filter (fun t => fst t <> h) (pending p))
                   (nextHandle p) (now p)
      else p
  end.

Definition run (p : Panel) (es : list Event) : Panel := foldl step p es.

(** Where the pointer is, as the mouse events tell: over the hover zone,
    over the panel, or over neither. *)
Inductive Pointer := Away | OverZone | OverPanel.

(** The mouse events of a pointer that is over one of the two elements at
    a time: an element is left only after it was entered, and entered only
    from outside. *)
Definition move (at_ : Pointer) (e : Event) : option Pointer :=
  match e, at_ with
  | ZoneEnter, Away => Some OverZone
  | ZoneLeave, OverZone => Some Away
  | PanelEnter, Away => Some OverPanel
  | PanelLeave, OverPanel => Some Away
  | Elapse _, _ | TimerFires _, _ => Some at_
  | _, _ => None
  end.

Fixpoint moves (at_ : Pointer) (es : list Event) : option Pointer :=
  match es with
  | [] => Some at_
  | e :: r => match move at_ e with Some next => moves next r | None => None end
  end.

(** No mouse event: time passes and timers fire. *)
Definition idle (e : Event) : Prop :=
  match e with Elapse _ | TimerFires _ => True | _ => False end.

Fixpoint elapsed (es : list Event) : N :=
  match es with
  | [] => 0
  | Elapse ms :: r => ms + elapsed r
  | _ :: r => elapsed r
  end.

(** What the handlers keep, by where the pointer is. *)
Definition kept (at_ : Pointer) (p : Panel) : Prop :=
  match at_ with
  | OverZone => isOpen p = true /\ pending p = []
  | OverPanel => pending p = []
  | Away =>
      length (pending p) <= 1
      /\ forall t, t ∈ pending p -> closeTimer p = Some (fst t)
  end.

End Hover.

(** ** The New Document dialog

    The modal's [hidden] class, its two text fields and the inputs named
    [tpl], in document order.  The inputs are radio buttons of one group,
    all of them inside the modal: checking one unchecks the others. *)
Module Dialog.

Record Radio := mkRadio { value : string; checked : bool }.

Record t := mk {
  hidden : bool;
  nameField : string;
  folderField : string;
  radios : list Radio
}.

(** [r.checked = b] for the radio at position [i]. *)
Definition setChecked (i : nat) (b : bool) (rs : list Radio) : list Radio :=
  imap (fun j r =>
          mkRadio (value r)
                  (if Nat.eqb j i then b else if b then false else checked r)) rs.

(** [radios.forEach(r => { r.checked = r.value === 'blank' })] *)
Definition resetRadios (rs : list Radio) : list Radio :=
  foldl (fun acc i =>
           match acc !! i with
           | Some r => setChecked i (String.eqb (value r) "blank") acc
           | None => acc
           end) rs (seq 0 (length rs)).

Definition showNewDocDialog (d : t) : t := mk false "" "" (resetRadios (radios d)).

Definition hideNewDocDialog (d : t) : t :=
  mk true (nameField d) (folderField d) (radios d).

(** [document.querySelector('input[name="tpl"]:checked')?.value || 'blank']:
    the first checked input, if any. *)
Definition chosenTemplate (d : t) : string :=
  match List.find checked (radios d) with
  | Some r => if JsString.truthy (value r) then value r else "blank"
  | None => "blank"
  end.

End Dialog.

(** ** The first revision of the program

    [src/unnamed/part_000]: the editor, the debounced preview and the
    New button, without documents and storage. *)
Module Part000.

Record Page := mkPage {
  doc : string;
  renderTimer : option Timer;
  latexModule : bool;
  suspended : list string;
  srcdoc : string;
  clock : N
}.

Section Platform.

Variable latex_parse : string -> JsError + HtmlDocument.
Variable outerHTML : HtmlDocument -> string.

Definition assemble (d : HtmlDocument) : string :=
  "<!DOCTYPE html>" +:+ outerHTML (appendChild styleReset d).

(** The part of [renderLatex] after [await getLatex()].  The [catch]
    block only writes to the console: the page stays as the [try] block
    left it. *)
Definition renderLatex_resume (source : string) (imported : Completion unit) (p : Page)
  : Page :=
  match imported with
  | Throw _ => p
  | Normal _ =>
      match latex_parse source with
      | inr d => mkPage (doc p) (renderTimer p) true (suspended p) (assemble d) (clock p)
      | inl _ => mkPage (doc p) (renderTimer p) true (suspended p) (srcdoc p) (clock p)
      end
  end.

Definition renderLatex (source : string) (p : Page) : Page :=
  if latexModule p then renderLatex_resume source (Normal tt) p
  else mkPage (doc p) (renderTimer p) (latexModule p) (suspended p ++ [source])%list
              (srcdoc p) (clock p).

Definition scheduleRender (source : string) (p : Page) : Page :=
  mkPage (doc p) (Some (mkTimer (clock p + 450) source)) (latexModule p) (suspended p)
         (srcdoc p) (clock p).

(** [view.dispatch({ changes: { from: 0, to: length, insert } })] with the
    update listener of this revision. *)
Definition dispatch (insert : string) (p : Page) : Page :=
  let text := JsString.normalise insert in
  let p' := mkPage text (renderTimer p) (latexModule p) (suspended p) (srcdoc p) (clock p) in
  if JsString.truthy (doc p) || JsString.truthy insert then scheduleRender text p' else p'.

(** The page when the module has run. *)
Definition initial : Page :=
  scheduleRender DEFAULT_DOC (mkPage DEFAULT_DOC None false [] "" 0).

Inductive Event :=
  | Elapse (ms : N)
  | RenderTimerFires
  | ImportSettles (i : nat) (outcome : Completion unit)
  | EditorChanged (text : string)
  | NewClicked.

Definition step (p : Page) (e : Event) : Page :=
  match e with
  | Elapse ms =>
      mkPage (doc p) (renderTimer p) (latexModule p) (suspended p) (srcdoc p) (clock p + ms)
  | RenderTimerFires =>
      match renderTimer p with
      | Some tm =>
          if N.leb (due tm) (clock p)
          then renderLatex (arg tm)
                 (mkPage (doc p) None (latexModule p) (suspended p) (srcdoc p) (clock p))
          else p
      | None => p
      end
  | ImportSettles i outcome =>
      match suspended p !! i with
      | Some source =>
          renderLatex_resume source outcome
            (mkPage (doc p) (renderTimer p) (latexModule p) (delete i (suspended p))
                    (srcdoc p) (clock p))
      | None => p
      end
  | EditorChanged text =>
      scheduleRender text
        (mkPage text (renderTimer p) (latexModule p) (suspended p) (srcdoc p) (clock p))
  | NewClicked => dispatch DEFAULT_DOC p
  end.

Definition run (p : Page) (es : list Event) : Page := foldl step p es.

(** The text an event puts into the editor. *)
Definition edit (e : Event) : option string :=
  match e with
  | EditorChanged text => Some text
  | NewClicked => Some DEFAULT_DOC
  | _ => None
  end.

End Platform.

End Part000.

(** ** A sample platform and sample worlds

    Stand-ins for the platform functions and a small stored collection,
    used where a statement is instantiated on concrete data. *)

Module Sample.

(** In place of [JSON.stringify]: the fields of each document in order. *)
Definition stringify (fs : list File.t) : string :=
  "[" +:+ String.concat ","
            (map (fun f => "{" +:+ File.id f +:+ "|" +:+ File.name f +:+ "|"
                           +:+ default "" (File.folder f) +:+ "|" +:+ File.content f +:+ "}") fs)
      +:+ "]".

Definition docA : File.t := File.mk "a" "Alpha" (Some "Notes") "\documentclass{article} A".
Definition docB : File.t := File.mk "b" "Beta" None "\documentclass{article} B".
Definition docs : list File.t := [docA; docB].

(** A document that was stored with CR LF line breaks. *)
Definition crlf : string := String "013"%char (String "010"%char "").
Definition docC : File.t :=
  File.mk "c" "Gamma" None ("\documentclass{article}" +:+ crlf +:+ "C").

(** In place of [JSON.parse]: it reads back the two stored sample
    collections, returns [null] for the text [null], and throws on any
    other text. *)
Definition parse (raw : string) : Parsed :=
  if String.eqb raw (stringify docs) then Documents docs
  else if String.eqb raw (stringify [docC]) then Documents [docC]
  else if String.eqb raw "null" then Foreign false
  else Thrown.

(** In place of the LaTeX compiler: it rejects a source that does not
    start with a document class, and the empty source with an error that
    has the empty message. *)
Definition compile (source : string) : JsError + HtmlDocument :=
  if String.prefix "\documentclass" source
  then inr (mkHtmlDocument source [])
  else if String.eqb source ""
  then inl (mkError (Text "") "Error")
  else inl (mkError (Text "no document class") "Error: no document class").

Definition html (d : HtmlDocument) : string :=
  "<html>" +:+ built d +:+ "</html>".

Definition roomy : gmap string string -> string -> string -> bool := fun _ _ _ => true.
Definition full : gmap string string -> string -> string -> bool := fun _ _ _ => false.

(** The storage a previous session left: both documents, [a] current. *)
Definition storage : Storage :=
  mkStorage (<[STORAGE_KEY := stringify docs]> (<[CURRENT_KEY := "a"]> ∅)) true roomy.

(** A storage whose files record is damaged, with a current id. *)
Definition damaged : Storage :=
  mkStorage (<[STORAGE_KEY := "{not json"]> (<[CURRENT_KEY := "k1"]> ∅)) true roomy.

(** A storage whose one document has CR LF line breaks and is current. *)
Definition carriageReturns : Storage :=
  mkStorage (<[STORAGE_KEY := stringify [docC]]> (<[CURRENT_KEY := "c"]> ∅)) true roomy.

(** A storage whose files record is the text [null], with a current id. *)
Definition foreign : Storage :=
  mkStorage (<[STORAGE_KEY := "null"]> (<[CURRENT_KEY := "a"]> ∅)) true roomy.

(** A session with collection [fs] in memory, current id [cur] and [text]
    in the editor. *)
Definition world (st : Storage) (fs : list File.t) (cur : option string) (text : string)
  : World :=
  mkWorld fs cur st text None None false [] "" (mkErrorBox "" true) NoSavedFiles 1000 [].

End Sample.

(** ** The program *)

Section Latte.

(** The platform's JSON codec ([JSON_stringify] on collections of
    documents, [JSON_parse] on any text), the LaTeX compiler
    [parse(src, { generator }).htmlDocument()] of latex.js, and the DOM's
    serialisation of [doc.documentElement.outerHTML]. *)
Variable JSON_stringify : list File.t -> string.
Variable JSON_parse : string -> Parsed.
Variable latex_parse : string -> JsError + HtmlDocument.
Variable outerHTML : HtmlDocument -> string.

(** [Date.now().toString(36) + Math.random().toString(36).slice(2, 7)];
    [rnd] is the slice of the random number's digits. *)
Definition generateId (rnd : string) : Js string :=
  read (fun w => JsString.toString36 (clock w) +:+ rnd).

(** [loadFiles] returns nothing; what the model returns tells what
    [files] holds afterwards.  A parsed value that is no array of
    documents is assigned to [files] like any other. *)
Definition loadFiles : Js Held :=
  held ← tryCatch
    (raw ← getItem STORAGE_KEY;
     match orNull raw with
     | Some r =>
         match JSON_parse r with
         | Documents fs => update (with_files fs);; mret Collection
         | Foreign array => mret (Alien array)
         | Thrown => throw SyntaxError
         end
     | None => update (with_files []);; mret Collection
     end)
    (fun _ => update (with_files []);; mret Collection);
  tryCatch
    (raw ← getItem CURRENT_KEY; update (with_currentFileId (orNull raw)))
    (fun _ => update (with_currentFileId None));;
  mret held.

Definition saveFiles : Js unit :=
  tryCatch
    (fs ← read files; setItem STORAGE_KEY (JSON_stringify fs))
    (fun _ => mret tt).

Definition saveCurrentId : Js unit :=
  tryCatch
    (cur ← read currentFileId;
     match orNull cur with
     | Some i => setItem CURRENT_KEY i
     | None => removeItem CURRENT_KEY
     end)
    (fun _ => mret tt).

(** The part of [renderLatex] after [await getLatex()]: [imported] is how
    the awaited import settled. *)
Definition assemble (d : HtmlDocument) : string :=
  "<!DOCTYPE html>" +:+ outerHTML (appendChild styleReset (appendChild latexCSS (appendChild katexCSS d))).

Definition renderLatex_resume (source : string) (imported : Completion unit) : Js unit :=
  tryCatch
    (match imported with
     | Normal _ => update (with_latexModule true)
     | Throw e => throw e
     end;;
     update (fun w => with_observed (observed w ++ [Compiled source])%list w);;
     match latex_parse source with
     | inl e => throw e
     | inr d =>
         update (with_frame_srcdoc (assemble d));;
         update (with_errorBox (mkErrorBox "" true))
     end)
    (fun err =>
       match errorText err with
       | Some t => update (with_errorBox (mkErrorBox t false))
       | None => throw TypeError_message
       end).

(** [renderLatex(src)]: with the module cached, the [await] resumes in the
    microtasks of the same turn; otherwise the call waits for the import. *)
Definition renderLatex (source : string) : Js unit :=
  update (fun w => with_observed (observed w ++ [RenderLatexCalled (clock w) source])%list w);;
  cached ← read latexModule;
  if cached : bool then renderLatex_resume source (Normal tt)
  else update (fun w => with_suspended (suspended w ++ [mkSuspended source (currentFileId w)])%list w).

(** [clearTimeout(renderTimer); renderTimer = setTimeout(..., 450)] *)
Definition scheduleRender (source : string) : Js unit :=
  update (fun w => with_renderTimer (Some (mkTimer (clock w + 450) source)) w).

Definition scheduleAutoSave (source : string) : Js unit :=
  update (fun w => with_autoSaveTimer (Some (mkTimer (clock w + 1000) source)) w).

Definition autoSave (source : string) : Js unit :=
  cur ← read currentFileId;
  match orNull cur with
  | None => mret tt
  | Some c =>
      fs ← read files;
      match find c fs with
      | Some _ => update (with_files (setContent c source fs));; saveFiles
      | None => mret tt
      end
  end.

(** The editor's update listener, run when [update.docChanged]. *)
Definition updateListener (source : string) : Js unit :=
  scheduleRender source;; scheduleAutoSave source.

(** [view.dispatch({ changes: { from: 0, to: length, insert } })]: the
    editor holds the inserted text with its line breaks as line feeds,
    and that is the text [update.state.doc.toString()] hands to the
    listener.  The change set is empty, and the document unchanged for
    the listener, only when an empty document is replaced by the empty
    string. *)
Definition dispatch (insert : string) : Js unit :=
  old ← read doc;
  let text := JsString.normalise insert in
  update (with_doc text);;
  if JsString.truthy old || JsString.truthy insert then updateListener text else mret tt.

Definition makeFileItem (cur : option string) (file : File.t) : FileItem :=
  mkFileItem (File.id file) ("📄 " +:+ File.name file) (bool_decide (cur = Some (File.id file))).

Definition makeFolderItem (cur : option string) (folderName : string) (folderFiles : list File.t)
  : FolderItem :=
  mkFolderItem ("📁 " +:+ folderName) (map (makeFileItem cur) folderFiles).

(** The grouping loop of [renderFileTree]. *)
Fixpoint groupFiles (fs root : list File.t) (folders : gmap string (list File.t))
  : JsError + (list File.t * gmap string (list File.t)) :=
  match fs with
  | [] => inr (root, folders)
  | file :: rest =>
      let folder := folderOf file in
      if JsString.truthy folder then
        match js_get folders folder with
        | Undefined => groupFiles rest root (<[folder := [file]]> folders)
        | Own arr => groupFiles rest root (<[folder := (arr ++ [file])%list]> folders)
        | Inherited => inl TypeError_push
        end
      else groupFiles rest (root ++ [file])%list folders
  end.

(** [Object.keys(folders).sort()] *)
Definition sortedKeys (folders : gmap string (list File.t)) : list string :=
  merge_sort str_le (map fst (map_to_list folders)).

Definition renderFileTree : Js unit :=
  fs ← read files;
  match fs with
  | [] => update (with_fileTree NoSavedFiles)
  | _ =>
      match groupFiles fs [] ∅ with
      | inl e => throw e
      | inr (root, folders) =>
          cur ← read currentFileId;
          update (with_fileTree
            (FileTreeList
               (map (makeFileItem cur) root)
               (map (fun k => makeFolderItem cur k (default [] (folders !! k)))
                    (sortedKeys folders))))
      end
  end.

Definition openFile (i : string) : Js unit :=
  cur ← read currentFileId;
  match orNull cur with
  | Some c =>
      fs ← read files;
      match find c fs with
      | Some _ =>
          text ← read doc;
          update (with_files (setContent c text fs));; saveFiles
      | None => mret tt
      end
  | None => mret tt
  end;;
  fs ← read files;
  match find i fs with
  | None => mret tt
  | Some file =>
      update (with_currentFileId (Some (File.id file)));;
      saveCurrentId;;
      dispatch (File.content file);;
      renderFileTree
  end.

(** [name.trim() || 'Untitled'] *)
Definition orUntitled (s : string) : string :=
  if JsString.truthy s then s else "Untitled".

Definition createFile (name folder templateKey rnd : string) : option (Js unit) :=
  match resolveTemplate templateKey with
  | None => None
  | Some content =>
      Some (i ← generateId rnd;
            let file := File.mk i (orUntitled (JsString.trim name))
                                (Some (JsString.trim folder)) content in
            update (fun w => with_files (files w ++ [file])%list w);;
            saveFiles;;
            openFile i;;
            renderFileTree)
  end.

(** The startup code at the end of the module. *)
Definition startup : Js Ending :=
  held ← loadFiles;
  cur ← read currentFileId;
  match held with
  | Collection =>
      match orNull cur with
      | Some c =>
          fs ← read files;
          match find c fs with
          | Some file => dispatch (File.content file);; scheduleRender (File.content file)
          | None => update (with_currentFileId None)
          end
      | None => mret tt
      end;;
      renderFileTree;;
      mret Ready
  | Alien array =>
      match orNull cur with
      | Some _ => if array then mret Beyond else throw TypeError_find
      | None => mret Beyond
      end
  end.

(** ** The event loop

    What can happen between two turns: time passes, a timer that is due
    fires, a pending import settles, the user changes the text or opens a
    document.  An event that is not enabled changes nothing.  The [text]
    of [EditorChanged] is the text the editor holds after the change,
    what [update.state.doc.toString()] returns. *)
Inductive Event :=
  | Elapse (ms : N)
  | RenderTimerFires
  | AutoSaveTimerFires
  | ImportSettles (i : nat) (outcome : Completion unit)
  | EditorChanged (text : string)
  | OpenFile (i : string).

Definition dueArg (t : option Timer) (now : N) : option string :=
  match t with
  | Some tm => if N.leb (due tm) now then Some (arg tm) else None
  | None => None
  end.

Definition handle (e : Event) : Js unit :=
  match e with
  | Elapse ms => update (fun w => with_clock (clock w + ms)%N w)
  | RenderTimerFires =>
      t ← read renderTimer; now ← read clock;
      match dueArg t now with
      | Some s => update (with_renderTimer None);; renderLatex s
      | None => mret tt
      end
  | AutoSaveTimerFires =>
      t ← read autoSaveTimer; now ← read clock;
      match dueArg t now with
      | Some s => update (with_autoSaveTimer None);; autoSave s
      | None => mret tt
      end
  | ImportSettles i outcome =>
      waiting ← read suspended;
      match waiting !! i with
      | Some r => update (with_suspended (delete i waiting));; renderLatex_resume (src r) outcome
      | None => mret tt
      end
  | EditorChanged text => update (with_doc text);; updateListener text
  | OpenFile i => openFile i
  end.

Definition step (w : World) (e : Event) : World := after (handle e) w.

Definition run (w : World) (es : list Event) : World := foldl step w es.

(** ** Descriptions that depend on the platform *)

(** The world once the whole module has run on storage [st]. *)
Definition boot (st : Storage) : World := after startup (initialPage st).

(** The files record cannot be read back: the medium is out of reach, or
    the stored text is one [JSON.parse] throws on. *)
Definition corrupted (st : Storage) : Prop :=
  available st = false
  \/ exists r, orNull (items st !! STORAGE_KEY) = Some r /\ JSON_parse r = Thrown.

(** What [files] holds once [loadFiles] has run on storage [st]. *)
Definition held (st : Storage) : Held :=
  if available st then
    match orNull (items st !! STORAGE_KEY) with
    | Some r => match JSON_parse r with Foreign array => Alien array | _ => Collection end
    | None => Collection
    end
  else Collection.

(** The files record is one the program can have written: when it can
    be read and parsed, it is an array of documents. *)
Definition legible (st : Storage) : Prop := held st = Collection.

(** The current id [loadFiles] reads: the stored non-empty string. *)
Definition loadedCurrent (st : Storage) : option string :=
  if available st then orNull (items st !! CURRENT_KEY) else None.

Definition loadedFiles (st : Storage) : list File.t :=
  if available st then
    match orNull (items st !! STORAGE_KEY) with
    | Some r => match JSON_parse r with Documents fs => fs | _ => [] end
    | None => []
    end
  else [].

(** The world after the first statement of [openFile]: the editor's text
    written into the current document and the collection saved. *)
Definition flush (w : World) : World :=
  match orNull (currentFileId w) with
  | Some c =>
      match find c (files w) with
      | Some _ => saved (setContent c (doc w) (files w)) JSON_stringify w
      | None => w
      end
  | None => w
  end.

(** The world after [dispatch]: the new text with its line breaks as line
    feeds, and both timers restarted with that text unless the change set
    was empty. *)
Definition dispatched (insert : string) (w : World) : World :=
  let text := JsString.normalise insert in
  if JsString.truthy (doc w) || JsString.truthy insert
  then with_autoSaveTimer (Some (mkTimer (clock w + 1000) text))
         (with_renderTimer (Some (mkTimer (clock w + 450) text)) (with_doc text w))
  else with_doc text w.

(** The world [openFile] reaches before it draws the tree, for a document
    that was found. *)
Definition entered (file : File.t) (w : World) : World :=
  let w1 := with_currentFileId (Some (File.id file)) w in
  dispatched (File.content file)
    (with_localStorage (storedCurrent (Some (File.id file)) (localStorage w1)) w1).

(** An event of an edit sequence: anything but the opening of a document. *)
Definition editing (e : Event) : Prop :=
  match e with
  | OpenFile _ => False
  | _ => True
  end.

(** What happens behind the user's back: time, timers and imports. *)
Definition background (e : Event) : Prop :=
  match e with
  | Elapse _ | RenderTimerFires | AutoSaveTimerFires | ImportSettles _ _ => True
  | EditorChanged _ | OpenFile _ => False
  end.

(** What the resumed [renderLatex] leaves on the page, from the source it
    was called with and the way its import settled. *)
Definition landed (source : string) (imported : Completion unit) (w : World) : World :=
  match imported with
  | Throw e => caught e w
  | Normal _ =>
      let w1 := with_observed (observed w ++ [Compiled source])%list (with_latexModule true w) in
      match latex_parse source with
      | inl e => caught e w1
      | inr d => with_errorBox (mkErrorBox "" true) (with_frame_srcdoc (assemble d) w1)
      end
  end.

(** How the resumed [renderLatex] completes: its promise is rejected only
    when the [catch] block itself throws. *)
Definition settled (source : string) (imported : Completion unit) : Completion unit :=
  let thrown :=
    match imported with
    | Throw e => Some e
    | Normal _ => match latex_parse source with inl e => Some e | inr _ => None end
    end in
  match thrown with
  | Some e => match errorText e with Some _ => Normal tt | None => Throw TypeError_message end
  | None => Normal tt
  end.

(** The time a list of events takes. *)
Fixpoint elapsed (es : list Event) : N :=
  match es with
  | [] => 0
  | Elapse ms :: r => ms + elapsed r
  | _ :: r => elapsed r
  end.

(** A burst of [scheduleRender] calls: before each call, the background
    events of the gap since the previous one. *)
Fixpoint burst (w : World) (calls : list (list Event * string)) : World :=
  match calls with
  | [] => w
  | (gap, source) :: rest => burst (after (scheduleRender source) (run w gap)) rest
  end.

(** The source of the last call of a burst that started with [source]. *)
Fixpoint lastSource (source : string) (calls : list (list Event * string)) : string :=
  match calls with
  | [] => source
  | (_, s) :: rest => lastSource s rest
  end.

(** A gap shorter than the debounce window, with no call of the user in it. *)
Definition shortGap (c : list Event * string) : Prop :=
  Forall background (fst c) /\ (elapsed (fst c) < 450)%N.

(** What the pipeline may log for a source: a call of [renderLatex] on it
    no earlier than [since], its compilation, or the compilation of a
    source of [earlier], the renders that were already in flight. *)
Definition rendersOnly (source : string) (since : N) (earlier : list string) (o : Observation)
  : Prop :=
  match o with
  | RenderLatexCalled t s => s = source /\ (since <= t)%N
  | Compiled s => s = source \/ s ∈ earlier
  end.

(** During a burst: the render timer is pending, and whatever lands was in
    flight before the burst. *)
Definition pendingRender (d : N) (s : string) (earlier : list string)
    (base : list Observation) (w : World) : Prop :=
  renderTimer w = Some (mkTimer d s)
  /\ Forall (fun r => src r ∈ earlier) (suspended w)
  /\ exists log, observed w = (base ++ log)%list
       /\ Forall (fun o => exists s', o = Compiled s' /\ s' ∈ earlier) log.

(** After the last call: the timer is still pending or has fired, and
    everything in flight or logged since is for the last source, or was in
    flight before the burst. *)
Definition settling (since : N) (source : string) (earlier : list string)
    (base : list Observation) (w : World) : Prop :=
  (renderTimer w = None \/ renderTimer w = Some (mkTimer since source))
  /\ Forall (fun r => src r = source \/ src r ∈ earlier) (suspended w)
  /\ exists log, observed w = (base ++ log)%list
       /\ Forall (rendersOnly source since earlier) log.

(** The editor shows text [t] of the current document [c], and a pending
    auto-save, if any, carries that text. *)
Definition Editing (c t : string) (w : World) : Prop :=
  currentFileId w = Some c /\ doc w = t
  /\ forall tm, autoSaveTimer w = Some tm -> arg tm = t.

(** The content stored in memory for the document with id [i]. *)
Definition contentOf (i : string) (w : World) : option string :=
  File.content <$> find i (files w).

(** The id [generateId] would produce is not in use: no document has
    it, and it is not the current id. *)
Definition fresh (i : string) (w : World) : Prop :=
  find i (files w) = None /\ currentFileId w <> Some i.

(** A folder value counts as no folder, in the words of the
    specification: absent, empty, or white space only. *)
Definition ungroupedFolder (o : option string) : bool :=
  match o with
  | None => true
  | Some s => JsString.blank s
  end.

(** The bucket of folder name [k]: the documents whose trimmed folder is
    [k], in the order of the collection. *)
Definition bucket (k : string) (fs : list File.t) : list File.t :=
  filter (fun f => folderOf f = k) fs.

(** A bucket that grows by [more]. *)
Definition extend (o : option (list File.t)) (more : list File.t) : option (list File.t) :=
  match more with
  | [] => o
  | _ => Some (default [] o ++ more)%list
  end.

(** ** The session as a whole *)

(** What the user or the environment can do: an event of the loop, or the
    New Document dialog calling [createFile]. *)
Inductive Action :=
  | Happens (e : Event)
  | CreateFile (name folder templateKey rnd : string).

(** The world after an action; [None] for a template key for which the
    model has no content (see [resolveTemplate]). *)
Definition perform (w : World) (a : Action) : option World :=
  match a with
  | Happens e => Some (step w e)
  | CreateFile name folder templateKey rnd =>
      (fun m => after m w) <$> createFile name folder templateKey rnd
  end.

Fixpoint performAll (w : World) (acts : list Action) : option World :=
  match acts with
  | [] => Some w
  | a :: rest =>
      match perform w a with
      | Some w' => performAll w' rest
      | None => None
      end
  end.

(** The current id, when there is one, names a document of the collection. *)
Definition attached (w : World) : Prop :=
  forall c, currentFileId w = Some c -> is_Some (find c (files w)).

(** A pending auto-save carries the text the editor shows, and so does a
    pending render, up to the line breaks: it carries that text, or a
    text of which the editor shows the form with line feeds. *)
Definition carries (w : World) : Prop :=
  (forall tm, renderTimer w = Some tm ->
     arg tm = doc w \/ JsString.normalise (arg tm) = doc w)
  /\ (forall tm, autoSaveTimer w = Some tm -> arg tm = doc w).

(** What identifies a document besides its content. *)
Definition meta (f : File.t) : string * string * option string :=
  (File.id f, File.name f, File.folder f).

(** The medium can be reached and takes every write. *)
Definition accepting (st : Storage) : Prop :=
  available st = true /\ forall m k v, accepts st m k v = true.

(** The two records in storage are those of the session in memory. *)
Definition synced (w : World) : Prop :=
  items (localStorage w) !! STORAGE_KEY = Some (JSON_stringify (files w))
  /\ items (localStorage w) !! CURRENT_KEY = orNull (currentFileId w).

(** The live result a render of [source] ends in, when it was [before]. *)
Definition rendering (source : string) (before : RenderResult) : RenderResult :=
  match latex_parse source with
  | inr d => Success (assemble d)
  | inl e => reported e before
  end.

(** Storage takes every write and holds the session's records. *)
Definition inStep (w : World) : Prop := accepting (localStorage w) /\ synced w.


(** The click listener of [btn-create-doc]: the dialog is hidden, and
    [createFile] gets what the fields hold. *)
Definition btnCreateDoc (d : Dialog.t) (rnd : string) : Dialog.t * option (Js unit) :=
  (Dialog.hideNewDocDialog d,
   createFile (Dialog.nameField d) (Dialog.folderField d) (Dialog.chosenTemplate d) rnd).

(** ** Basic facts *)

Lemma trimStart_blank s : JsString.blank s = true -> JsString.trimStart s = "".
Proof.
  induction s as [|c r IH]; simpl; [reflexivity|].
  intros [Hc Hr]%andb_true_iff. rewrite Hc. auto.
Qed.

Lemma trimEnd_empty_blank s : JsString.trimEnd s = "" -> JsString.blank s = true.
Proof.
  induction s as [|c r IH]; simpl; [reflexivity|].
  destruct (JsString.trimEnd r) eqn:E; [|discriminate].
  destruct (JsString.isWhiteSpace c); [|discriminate].
  intros _. simpl. auto.
Qed.

Lemma trimStart_head s c r :
  JsString.trimStart s = String c r -> JsString.isWhiteSpace c = false.
Proof.
  induction s as [|d t IH]; simpl; [discriminate|].
  destruct (JsString.isWhiteSpace d) eqn:E; [exact IH|].
  intros [= <- <-]. exact E.
Qed.

Lemma trimStart_empty_blank s : JsString.trimStart s = "" -> JsString.blank s = true.
Proof.
  induction s as [|c r IH]; simpl; [reflexivity|].
  destruct (JsString.isWhiteSpace c); [|discriminate]. auto.
Qed.

(** [trim] returns the empty string exactly on blank strings. *)
Lemma trim_empty_iff s : JsString.trim s = "" <-> JsString.blank s = true.
Proof.
  unfold JsString.trim. split.
  - intros H. destruct (JsString.trimStart s) as [|c r] eqn:E.
    + now apply trimStart_empty_blank.
    + apply trimEnd_empty_blank in H. simpl in H.
      apply trimStart_head in E. rewrite E in H. discriminate.
  - intros H. now rewrite trimStart_blank.
Qed.

#[export] Instance str_le_total : Total str_le.
Proof. intros a b. apply String.leb_total. Qed.

Lemma with_localStorage_same w : with_localStorage (localStorage w) w = w.
Proof. now destruct w. Qed.

Lemma with_files_same w : with_files (files w) w = w.
Proof. now destruct w. Qed.

Lemma find_id i fs f : find i fs = Some f -> File.id f = i.
Proof.
  induction fs as [|g r IH]; simpl; [discriminate|].
  destruct (String.eqb_spec (File.id g) i) as [E|E]; [|exact IH].
  now intros [= <-].
Qed.

(** Writing a content keeps every id, and changes the content of the
    first document with the id written to, and of no other. *)
Lemma find_setContent i c t fs :
  find i (setContent c t fs)
  = (fun f => if String.eqb i c then File.mk (File.id f) (File.name f) (File.folder f) t else f)
      <$> find i fs.
Proof.
  induction fs as [|g r IH]; simpl; [reflexivity|].
  destruct (String.eqb_spec (File.id g) c) as [Ec|Ec]; simpl.
  - destruct (String.eqb_spec (File.id g) i) as [Ei|Ei]; simpl.
    + subst. now rewrite String.eqb_refl.
    + destruct (String.eqb_spec i c); [congruence|].
      now destruct (find i r).
  - destruct (String.eqb_spec (File.id g) i) as [Ei|Ei]; simpl.
    + destruct (String.eqb_spec i c); [congruence|reflexivity].
    + exact IH.
Qed.

Lemma setContent_same c t fs f :
  find c fs = Some f -> File.content f = t -> setContent c t fs = fs.
Proof.
  induction fs as [|g r IH]; simpl; [reflexivity|].
  destruct (String.eqb_spec (File.id g) c) as [Ec|Ec].
  - intros [= <-] <-. now destruct g.
  - intros H1 H2. now rewrite IH.
Qed.

Lemma find_setContent_is_Some i c t fs :
  is_Some (find i (setContent c t fs)) <-> is_Some (find i fs).
Proof. rewrite find_setContent. apply fmap_is_Some. Qed.

Lemma guarded_setItem k v w :
  tryCatch (setItem k v) (fun _ => mret tt) w
  = (Normal tt, with_localStorage (put k v (localStorage w)) w).
Proof.
  unfold tryCatch, setItem, put.
  destruct (available (localStorage w)); simpl.
  - destruct (accepts _ _ _ _); simpl; [reflexivity|].
    now rewrite with_localStorage_same.
  - now rewrite with_localStorage_same.
Qed.

Lemma saveFiles_eq w :
  saveFiles w
  = (Normal tt, with_localStorage (put STORAGE_KEY (JSON_stringify (files w)) (localStorage w)) w).
Proof. apply (guarded_setItem STORAGE_KEY (JSON_stringify (files w)) w). Qed.

Lemma saveCurrentId_eq w :
  saveCurrentId w
  = (Normal tt, with_localStorage (storedCurrent (currentFileId w) (localStorage w)) w).
Proof.
  unfold saveCurrentId, storedCurrent, tryCatch, mbind, Js_bind, read.
  destruct (orNull (currentFileId w)) as [i|].
  - exact (guarded_setItem CURRENT_KEY i w).
  - unfold removeItem, del. destruct (available (localStorage w)); simpl; [reflexivity|].
    now rewrite with_localStorage_same.
Qed.

Lemma rejecting_put st k v : rejecting st -> put k v st = st.
Proof.
  unfold put. intros [H|H]; rewrite H; [reflexivity|].
  now rewrite andb_false_r.
Qed.

Lemma autoSave_eq source w :
  autoSave source w
  = (Normal tt,
     match orNull (currentFileId w) with
     | Some c =>
         match find c (files w) with
         | Some _ => saved (setContent c source (files w)) JSON_stringify w
         | None => w
         end
     | None => w
     end).
Proof.
  unfold autoSave, mbind, Js_bind, read. simpl.
  destruct (orNull (currentFileId w)) as [c|]; [|reflexivity].
  destruct (find c (files w)); [|reflexivity].
  unfold update. now rewrite saveFiles_eq.
Qed.

(** ** Saving never throws (C6) *)

Lemma saveFiles_never_throws w :
  fst (saveFiles w) = Normal tt /\ files (after saveFiles w) = files w
  /\ currentFileId (after saveFiles w) = currentFileId w.
Proof. unfold after. now rewrite saveFiles_eq. Qed.

Lemma saveCurrentId_never_throws w :
  fst (saveCurrentId w) = Normal tt /\ files (after saveCurrentId w) = files w
  /\ currentFileId (after saveCurrentId w) = currentFileId w.
Proof. unfold after. now rewrite saveCurrentId_eq. Qed.

(** C6. When the medium rejects writes, [saveFiles] and [saveCurrentId]
    complete normally instead of throwing, [saveFiles] changes nothing at
    all, and after either of them the collection in memory is the one from
    before: [files] is the same list and [find] answers the same for every
    id. *)
Theorem rejected_save_is_silent w :
  rejecting (localStorage w) ->
  saveFiles w = (Normal tt, w)
  /\ fst (saveCurrentId w) = Normal tt
  /\ files (after saveCurrentId w) = files w
  /\ currentFileId (after saveCurrentId w) = currentFileId w
  /\ (forall i, find i (files (after saveFiles w)) = find i (files w))
  /\ (forall i, find i (files (after saveCurrentId w)) = find i (files w)).
Proof.
  intros H. unfold after.
  rewrite saveFiles_eq, saveCurrentId_eq, (rejecting_put _ _ _ H), with_localStorage_same.
  repeat split.
Qed.


(** ** Loading (C5) *)

Lemma loadFiles_eq w :
  loadFiles w
  = (Normal (held (localStorage w)),
     with_currentFileId (loadedCurrent (localStorage w))
       match held (localStorage w) with
       | Collection => with_files (loadedFiles (localStorage w)) w
       | Alien _ => w
       end).
Proof.
  unfold loadFiles, loadedCurrent, loadedFiles, held, tryCatch, mbind, Js_bind, mret, Js_ret,
    getItem, update, throw.
  destruct w as [fs cur st]; simpl.
  destruct (available st) eqn:A; simpl; rewrite ?A; simpl; [|reflexivity].
  destruct (orNull (items st !! STORAGE_KEY)) as [r|]; simpl; rewrite ?A; [|reflexivity].
  destruct (JSON_parse r); simpl; rewrite ?A; reflexivity.
Qed.

Lemma corrupted_loadedFiles st : corrupted st -> loadedFiles st = [].
Proof.
  unfold loadedFiles. intros [H|(r & Hr & Hp)].
  - now rewrite H.
  - rewrite Hr, Hp. now destruct (available st).
Qed.

Lemma corrupted_legible st : corrupted st -> legible st.
Proof.
  unfold legible, held. intros [H|(r & Hr & Hp)].
  - now rewrite H.
  - rewrite Hr, Hp. now destruct (available st).
Qed.

Lemma orNull_idem o : orNull (orNull o) = orNull o.
Proof. destruct o as [s|]; simpl; [|reflexivity]. destruct (JsString.truthy s) eqn:E; simpl; now rewrite ?E. Qed.

Lemma renderFileTree_empty w :
  files w = [] -> renderFileTree w = (Normal tt, with_fileTree NoSavedFiles w).
Proof. unfold renderFileTree, mbind, Js_bind, read. simpl. now intros ->. Qed.

(** C5, as the code has it.  [loadFiles] never throws.  On a files record
    that cannot be read or parsed it leaves an empty collection; the
    current id is read from its own record (the stored non-empty string,
    else [null]), whatever happened to the files record.  The startup code
    then drops a current id that names no document, so after startup the
    collection is empty and no document is current, and nothing was
    thrown. *)
Theorem load_of_corrupted_store w :
  corrupted (localStorage w) ->
  fst (loadFiles w) = Normal Collection
  /\ files (after loadFiles w) = []
  /\ currentFileId (after loadFiles w) = loadedCurrent (localStorage w)
  /\ fst (startup w) = Normal Ready
  /\ files (after startup w) = []
  /\ currentFileId (after startup w) = None.
Proof.
  intros H.
  assert (E : orNull (loadedCurrent (localStorage w)) = loadedCurrent (localStorage w))
    by (unfold loadedCurrent; destruct (available _); [apply orNull_idem|reflexivity]).
  unfold after, startup, mbind, Js_bind, read.
  rewrite loadFiles_eq, (corrupted_legible _ H), (corrupted_loadedFiles _ H).
  cbn [fst snd currentFileId with_currentFileId with_files files].
  rewrite E.
  destruct (loadedCurrent (localStorage w)) as [c|]; simpl; repeat split.
Qed.

(** ** Opening a document *)

Lemma files_flush w : files (flush w) = flushed w.
Proof.
  unfold flush, flushed. destruct (orNull (currentFileId w)); [|reflexivity].
  now destruct (find _ (files w)).
Qed.

Lemma dispatch_eq insert w : dispatch insert w = (Normal tt, dispatched insert w).
Proof.
  unfold dispatch, dispatched, mbind, Js_bind, read, update. simpl.
  now destruct (JsString.truthy (doc w) || JsString.truthy insert).
Qed.

(** Drawing the tree changes the tree and nothing else; when it throws it
    changes nothing. *)
Lemma renderFileTree_frame w :
  exists tree, after renderFileTree w = with_fileTree tree w.
Proof.
  unfold after, renderFileTree, mbind, Js_bind, read, update, throw. simpl.
  destruct (files w) as [|f r]; [now eexists|].
  destruct (groupFiles (f :: r) [] ∅) as [e|[root folders]]; simpl.
  - exists (fileTree w). now destruct w.
  - now eexists.
Qed.

Lemma openFile_eq i w :
  openFile i w
  = match find i (files (flush w)) with
    | None => (Normal tt, flush w)
    | Some file => renderFileTree (entered file (flush w))
    end.
Proof.
  unfold openFile, flush, entered, mbind, Js_bind, read. simpl.
  destruct (orNull (currentFileId w)) as [c|]; simpl.
  - destruct (find c (files w)) as [g|]; simpl.
    + rewrite saveFiles_eq. simpl.
      destruct (find i (setContent c (doc w) (files w))) as [file|]; [|reflexivity].
      now rewrite saveCurrentId_eq, dispatch_eq.
    + destruct (find i (files w)) as [file|]; [|reflexivity].
      now rewrite saveCurrentId_eq, dispatch_eq.
  - destruct (find i (files w)) as [file|]; [|reflexivity].
    now rewrite saveCurrentId_eq, dispatch_eq.
Qed.

Lemma put_other k k' v st : k <> k' -> items (put k v st) !! k' = items st !! k'.
Proof.
  intros H. unfold put. destruct (available st && accepts st (items st) k v); [|reflexivity].
  simpl. now rewrite lookup_insert_ne.
Qed.

Lemma find_flushed_None i w : find i (files w) = None -> find i (flushed w) = None.
Proof.
  intros H. unfold flushed. destruct (orNull (currentFileId w)) as [c|]; [|exact H].
  destruct (find c (files w)); [|exact H].
  now rewrite find_setContent, H.
Qed.

Lemma orNull_Some o c : orNull o = Some c -> o = Some c /\ c <> "".
Proof.
  destruct o as [s|]; simpl; [|discriminate].
  unfold JsString.truthy. destruct (String.eqb_spec s ""); simpl; [discriminate|].
  now intros [= <-].
Qed.

(** C4, as the code has it.  For an id that names no document, [openFile]
    raises nothing and switches nothing: the current id, its stored
    record, the editor's text, the timers and the page are as before.  It
    is not without effect, though: the first statement of [openFile] has
    already written the editor's text into the current document and saved
    the collection.  Every other document is untouched, and when no
    document is current nothing changes at all. *)
Theorem open_missing_only_flushes w i :
  find i (files w) = None ->
  openFile i w = (Normal tt, flush w)
  /\ files (flush w) = flushed w
  /\ currentFileId (flush w) = currentFileId w
  /\ doc (flush w) = doc w
  /\ autoSaveTimer (flush w) = autoSaveTimer w
  /\ pipeline (flush w) = pipeline w
  /\ fileTree (flush w) = fileTree w
  /\ items (localStorage (flush w)) !! CURRENT_KEY = items (localStorage w) !! CURRENT_KEY
  /\ (forall j, currentFileId w <> Some j -> find j (files (flush w)) = find j (files w))
  /\ (orNull (currentFileId w) = None -> flush w = w)
  /\ (forall c, currentFileId w = Some c -> find c (files w) = None -> flush w = w).
Proof.
  intros H. rewrite openFile_eq, files_flush, (find_flushed_None _ _ H).
  split; [reflexivity|]. split; [reflexivity|].
  unfold flush, flushed.
  destruct (orNull (currentFileId w)) as [c|] eqn:C.
  - apply orNull_Some in C as [C Hc].
    destruct (find c (files w)) as [g|] eqn:G.
    + unfold saved, pipeline. simpl. repeat split.
      * now apply put_other.
      * intros j Hj. rewrite find_setContent.
        destruct (String.eqb_spec j c); [congruence|]. now destruct (find j (files w)).
      * discriminate.
      * intros c' Hc'. congruence.
    + repeat split.
  - repeat split.
Qed.

(** ** The render pipeline *)

Lemma caught_fields err w : exists box, caught err w = with_errorBox box w.
Proof.
  unfold caught. destruct (errorText err) as [t|]; [eauto|].
  exists (errorBox w). now destruct w.
Qed.

Ltac uncaught :=
  repeat match goal with
         | |- context [caught ?e ?x] => destruct (caught_fields e x) as [? ->]
         end.

Lemma renderLatex_resume_eq source imported w :
  renderLatex_resume source imported w
  = (settled source imported, landed source imported w).
Proof.
  unfold renderLatex_resume, landed, settled, caught, tryCatch, mbind, Js_bind, update, throw.
  destruct imported as [[]|e]; simpl.
  - destruct (latex_parse source) as [e|d]; [|reflexivity].
    now destruct (errorText e).
  - now destruct (errorText e).
Qed.

Lemma landed_session source imported w : session (landed source imported w) = session w.
Proof.
  unfold landed, caught. destruct imported as [[]|e]; [|now destruct (errorText e)].
  destruct (latex_parse source) as [e|d]; [|reflexivity]. now destruct (errorText e).
Qed.

Lemma renderLatex_eq source w :
  renderLatex source w
  = (if latexModule w then settled source (Normal tt) else Normal tt,
     let w1 := with_observed (observed w ++ [RenderLatexCalled (clock w) source])%list w in
     if latexModule w then landed source (Normal tt) w1
     else with_suspended (suspended w ++ [mkSuspended source (currentFileId w)])%list w1).
Proof.
  unfold renderLatex, mbind, Js_bind, read, update. simpl.
  destruct (latexModule w); [|reflexivity].
  now rewrite renderLatex_resume_eq.
Qed.

Lemma renderLatex_session source w : session (after (renderLatex source) w) = session w.
Proof.
  unfold after. rewrite renderLatex_eq. cbn [snd].
  destruct (latexModule w); [|reflexivity].
  now rewrite landed_session.
Qed.

(** ** Auto-save without a current document (C10) *)

Lemma autoSave_without_current source w :
  orNull (currentFileId w) = None -> autoSave source w = (Normal tt, w).
Proof. intros H. now rewrite autoSave_eq, H. Qed.

Lemma step_without_current w e :
  currentFileId w = None -> editing e ->
  files (step w e) = files w /\ localStorage (step w e) = localStorage w
  /\ currentFileId (step w e) = None.
Proof.
  intros C He. unfold step, after.
  destruct e as [ms| | |i outcome|text|i]; simpl in *; try contradiction.
  - now rewrite C.
  - unfold mbind, Js_bind, read, update. simpl.
    destruct (dueArg (renderTimer w) (clock w)) as [s|]; simpl; [|now rewrite C].
    pose proof (renderLatex_session s (with_renderTimer None w)) as S.
    unfold after, session in S. simpl in S. injection S as -> -> -> _ _. now rewrite C.
  - unfold mbind, Js_bind, read, update. simpl.
    destruct (dueArg (autoSaveTimer w) (clock w)) as [s|]; simpl; [|now rewrite C].
    rewrite autoSave_without_current by (simpl; now rewrite C). simpl. now rewrite C.
  - unfold mbind, Js_bind, read, update. simpl.
    destruct (suspended w !! i) as [r|]; simpl; [|now rewrite C].
    rewrite renderLatex_resume_eq. simpl.
    pose proof (landed_session (src r) outcome (with_suspended (delete i (suspended w)) w)) as S.
    unfold session in S. simpl in S. injection S as -> -> -> _ _. now rewrite C.
  - now rewrite C.
Qed.

(** C10. While no document is current, no edit sequence (changes of the
    text, time passing, the auto-save and render timers firing, imports
    settling) changes the collection in memory or anything in storage, and
    no document becomes current; the auto-save itself returns at once. *)
Theorem autosave_without_current_is_noop w es :
  currentFileId w = None -> Forall editing es ->
  files (run w es) = files w
  /\ localStorage (run w es) = localStorage w
  /\ currentFileId (run w es) = None
  /\ (forall source, autoSave source w = (Normal tt, w)).
Proof.
  intros C H. split; [|split; [|split]].
  4: { intros s. apply autoSave_without_current. now rewrite C. }
  all: revert w C; induction H as [|e es He Hes IH]; intros w C; simpl; auto.
  all: destruct (step_without_current w e C He) as (F & L & C').
  all: rewrite IH by exact C'; first [assumption | reflexivity].
Qed.

(** ** A failed compile (C8) *)

Lemma errorText_message m str : m <> "" -> errorText (mkError (Text m) str) = Some m.
Proof.
  unfold errorText, JsString.truthy. intros H.
  now destruct (String.eqb_spec m "").
Qed.

Lemma errorText_is_Some err : err <> Nullish -> is_Some (errorText err).
Proof. destruct err as [|[m| |shown] str]; [congruence|eexists; reflexivity ..]. Qed.

Lemma liveResult_caught err w : liveResult (caught err w) = reported err (liveResult w).
Proof. unfold caught, reported. now destruct (errorText err). Qed.

(** C8. When the compiler throws an error on the source, the resumed
    [renderLatex] catches it and shows it: the live result is a failure
    whose message is the error's message; it is the error's string form
    when the error has no message, the empty string or another falsy
    value for one.  The collection in memory, the current id, the editor
    and the storage are untouched.  Any later render whose compile
    succeeds replaces the failure entirely: the frame holds the new
    artifact and the error box is emptied and hidden. *)
Theorem compile_failure_is_reported w source err :
  latex_parse source = inl err -> err <> Nullish ->
  let w' := after (renderLatex_resume source (Normal tt)) w in
  fst (renderLatex_resume source (Normal tt) w) = Normal tt
  /\ Some (liveResult w') = Failure <$> errorText err
  /\ (forall m str, err = mkError (Text m) str -> m <> "" -> liveResult w' = Failure m)
  /\ (forall str, err = mkError (Text "") str -> liveResult w' = Failure str)
  /\ (forall str, err = mkError Falsy str -> liveResult w' = Failure str)
  /\ (forall shown str, err = mkError (Truthy shown) str -> liveResult w' = Failure shown)
  /\ session w' = session w
  /\ (forall w2 source2 d, latex_parse source2 = inr d ->
        let w3 := after (renderLatex_resume source2 (Normal tt)) w2 in
        liveResult w3 = Success (assemble d)
        /\ errorBox w3 = mkErrorBox "" true
        /\ frame_srcdoc w3 = assemble d).
Proof.
  intros H N w'. subst w'. unfold after. rewrite renderLatex_resume_eq. cbn [fst snd].
  destruct (errorText_is_Some err N) as [t T].
  assert (L : liveResult (landed source (Normal ()) w) = Failure t).
  { unfold landed. rewrite H, liveResult_caught. unfold reported. now rewrite T. }
  split; [unfold settled; now rewrite H, T|].
  split; [now rewrite L, T|]. split; [|split; [|split; [|split; [|split]]]].
  - intros m str -> Hne. rewrite (errorText_message m str Hne) in T. congruence.
  - intros str ->. simpl in T. congruence.
  - intros str ->. simpl in T. congruence.
  - intros shown str ->. simpl in T. congruence.
  - apply landed_session.
  - intros w2 source2 d Hd. rewrite renderLatex_resume_eq. cbn [snd].
    unfold landed. now rewrite Hd.
Qed.

(** A thrown [null] or [undefined] is not reported: reading its message
    throws out of the [catch] block, the promise of [renderLatex] is
    rejected and the page shows what it showed. *)
Lemma thrown_null_is_not_reported w source :
  latex_parse source = inl Nullish ->
  let w' := after (renderLatex_resume source (Normal tt)) w in
  fst (renderLatex_resume source (Normal tt) w) = Throw TypeError_message
  /\ liveResult w' = liveResult w
  /\ session w' = session w.
Proof.
  intros H w'. subst w'. unfold after. rewrite renderLatex_resume_eq. cbn [fst snd].
  split; [unfold settled; now rewrite H|]. split; [|apply landed_session].
  unfold landed. now rewrite H.
Qed.

(** ** A result that lands late (C3) *)

Lemma step_ImportSettles w i r outcome :
  suspended w !! i = Some r ->
  step w (ImportSettles i outcome)
  = landed (src r) outcome (with_suspended (delete i (suspended w)) w).
Proof.
  intros H. unfold step, after. simpl. unfold mbind, Js_bind, read, update. simpl.
  rewrite H. now rewrite renderLatex_resume_eq.
Qed.

(** C3, as the code has it.  Nothing is checked when a compile result
    lands: whatever document is current by then, and whatever landed
    before, a successful result becomes the page's preview and a failed
    one its error.  The landing never touches the session.  What does
    protect the preview is the debounce alone: loading a document into the
    editor restarts the render timer with the new text, so a render that
    was only scheduled when the user switched is never started. *)
Theorem landing_is_unconditional w i r :
  suspended w !! i = Some r ->
  (forall d, latex_parse (src r) = inr d ->
     liveResult (step w (ImportSettles i (Normal tt))) = Success (assemble d))
  /\ (forall e, latex_parse (src r) = inl e ->
     liveResult (step w (ImportSettles i (Normal tt))) = reported e (liveResult w))
  /\ (forall e, liveResult (step w (ImportSettles i (Throw e))) = reported e (liveResult w))
  /\ (forall outcome, session (step w (ImportSettles i outcome)) = session w)
  /\ (forall file, JsString.truthy (doc w) || JsString.truthy (File.content file) = true ->
        renderTimer (entered file w)
        = Some (mkTimer (clock w + 450) (JsString.normalise (File.content file)))).
Proof.
  intros H. repeat split.
  - intros d Hd. rewrite (step_ImportSettles _ _ _ _ H). unfold landed. now rewrite Hd.
  - intros e He. rewrite (step_ImportSettles _ _ _ _ H). unfold landed.
    now rewrite He, liveResult_caught.
  - intros e. rewrite (step_ImportSettles _ _ _ _ H). unfold landed.
    now rewrite liveResult_caught.
  - intros outcome. rewrite (step_ImportSettles _ _ _ _ H). now rewrite landed_session.
  - intros file Hf. unfold entered, dispatched. simpl. now rewrite Hf.
Qed.

(** ** The render debounce (C2) *)

Lemma autoSave_pipeline source w :
  pipeline (after (autoSave source) w) = pipeline w
  /\ clock (after (autoSave source) w) = clock w.
Proof.
  unfold after. rewrite autoSave_eq. cbn [snd].
  destruct (orNull (currentFileId w)); [|now split].
  destruct (find _ (files w)); now split.
Qed.

Lemma step_AutoSaveTimerFires w :
  pipeline (step w AutoSaveTimerFires) = pipeline w
  /\ clock (step w AutoSaveTimerFires) = clock w.
Proof.
  unfold step, after. simpl. unfold mbind, Js_bind, read, update. simpl.
  destruct (dueArg (autoSaveTimer w) (clock w)) as [s|]; simpl; [|now split].
  apply (autoSave_pipeline s (with_autoSaveTimer None w)).
Qed.

Lemma dueArg_early d s now : (now < d)%N -> dueArg (Some (mkTimer d s)) now = None.
Proof. intros H. simpl. apply N.leb_gt in H. now rewrite H. Qed.

Lemma step_ImportSettles_none w i outcome :
  suspended w !! i = None -> step w (ImportSettles i outcome) = w.
Proof.
  intros H. unfold step, after. simpl. unfold mbind, Js_bind, read, update. simpl.
  now rewrite H.
Qed.

(** While the pending render is not yet due, background events do not
    start a render: they can only land what was in flight. *)
Lemma quiet_step d s earlier base w e :
  pendingRender d s earlier base w -> background e -> (clock (step w e) < d)%N ->
  pendingRender d s earlier base (step w e).
Proof.
  intros (T & S & log & O & L) B C.
  destruct e as [ms| | |i outcome|text|i]; simpl in B; try contradiction.
  - unfold step, after. simpl. split; [exact T|split; [exact S|eauto]].
  - assert (E : step w RenderTimerFires = w).
    { unfold step, after. simpl. unfold mbind, Js_bind, read, update. simpl.
      destruct (dueArg (renderTimer w) (clock w)) as [x|] eqn:D; [|reflexivity].
      exfalso. rewrite T in D. simpl in D.
      destruct (N.leb_spec d (clock w)) as [Hle|]; [|discriminate].
      revert C. unfold step, after. simpl. unfold mbind, Js_bind, read, update. simpl.
      rewrite T. simpl. destruct (N.leb_spec d (clock w)); [|lia].
      simpl. rewrite renderLatex_eq. simpl.
      destruct (latexModule w); [|simpl; lia].
      unfold landed. destruct (latex_parse s); uncaught; simpl; lia. }
    rewrite E. split; [exact T|split; [exact S|eauto]].
  - destruct (step_AutoSaveTimerFires w) as [P _].
    unfold pipeline in P. injection P as P1 _ P3 _ _ P6.
    unfold pendingRender. rewrite P1, P3, P6. split; [exact T|split; [exact S|eauto]].
  - destruct (suspended w !! i) as [r|] eqn:R.
    + rewrite (step_ImportSettles _ _ _ _ R).
      assert (Hr : src r ∈ earlier).
      { eapply (proj1 (Forall_forall _ _) S), list_elem_of_lookup_2, R. }
      assert (S' : Forall (fun r => src r ∈ earlier) (delete i (suspended w)))
        by now apply Forall_delete.
      unfold landed. destruct outcome as [[]|err]; uncaught; simpl.
      * destruct (latex_parse (src r)); uncaught; simpl.
        all: split; [exact T|split; [exact S'|]].
        all: exists (log ++ [Compiled (src r)])%list.
        all: rewrite O, <- app_assoc; split; [reflexivity|].
        all: apply Forall_app; split; [exact L|]; repeat constructor; eauto.
      * split; [exact T|split; [exact S'|eauto]].
    + rewrite (step_ImportSettles_none _ _ _ R). split; [exact T|split; [exact S|eauto]].
Qed.

Lemma step_clock w e :
  background e ->
  clock (step w e) = (clock w + elapsed [e])%N.
Proof.
  intros B. destruct e as [ms| | |i outcome|text|i]; simpl in B; try contradiction; simpl.
  - unfold step, after. simpl. lia.
  - unfold step, after. simpl. unfold mbind, Js_bind, read, update. simpl.
    destruct (dueArg (renderTimer w) (clock w)) as [x|]; simpl; [|lia].
    rewrite renderLatex_eq. simpl. destruct (latexModule w); simpl; [|lia].
    unfold landed. destruct (latex_parse x); uncaught; simpl; lia.
  - destruct (step_AutoSaveTimerFires w) as [_ C]. rewrite C. lia.
  - destruct (suspended w !! i) as [r|] eqn:R.
    + rewrite (step_ImportSettles _ _ _ _ R). unfold landed.
      destruct outcome as [[]|err]; uncaught; simpl; [|lia].
      destruct (latex_parse (src r)); uncaught; simpl; lia.
    + rewrite (step_ImportSettles_none _ _ _ R). lia.
Qed.

Lemma quiet_run d s earlier base gap : forall w,
  pendingRender d s earlier base w ->
  Forall background gap -> (clock w + elapsed gap < d)%N ->
  pendingRender d s earlier base (run w gap)
  /\ clock (run w gap) = (clock w + elapsed gap)%N.
Proof.
  induction gap as [|e gap IH]; intros w P B L.
  - simpl in *. split; [exact P|lia].
  - apply Forall_cons in B as [Be Bg].
    pose proof (step_clock w e Be) as C.
    assert (E : (elapsed (e :: gap) = elapsed [e] + elapsed gap)%N)
      by (destruct e; simpl; lia).
    destruct (IH (step w e)) as [P' C']; [apply quiet_step; [exact P|exact Be|lia]|exact Bg|lia|].
    simpl run. split; [exact P'|]. rewrite C'. lia.
Qed.

Lemma burst_pending earlier base calls : forall w s,
  pendingRender (clock w + 450) s earlier base w ->
  Forall shortGap calls ->
  pendingRender (clock (burst w calls) + 450) (lastSource s calls) earlier base (burst w calls).
Proof.
  induction calls as [|[gap s'] calls IH]; intros w s P H; simpl; [exact P|].
  apply Forall_cons in H as [[Bg Lg] H]. simpl in Bg, Lg.
  destruct (quiet_run _ _ _ _ gap w P Bg) as [(T1 & S1 & O1) C1]; [lia|].
  apply IH; [|exact H]. split; [reflexivity|split; [exact S1|exact O1]].
Qed.

Lemma settling_step since source earlier base w e :
  settling since source earlier base w -> background e ->
  settling since source earlier base (step w e).
Proof.
  intros (T & S & log & O & L) B.
  destruct e as [ms| | |i outcome|text|i]; simpl in B; try contradiction.
  - unfold step, after. simpl. split; [exact T|split; [exact S|eauto]].
  - unfold step, after. simpl. unfold mbind, Js_bind, read, update. simpl.
    destruct (dueArg (renderTimer w) (clock w)) as [s|] eqn:D; simpl;
      [|split; [exact T|split; [exact S|eauto]]].
    destruct T as [T|T]; rewrite T in D; simpl in D; [discriminate|].
    destruct (N.leb_spec since (clock w)) as [Hle|]; [|discriminate].
    injection D as <-.
    rewrite renderLatex_eq. simpl. destruct (latexModule w) eqn:M.
    + unfold landed. destruct (latex_parse source); uncaught; simpl.
      all: split; [now left|split; [exact S|]].
      all: exists (log ++ [RenderLatexCalled (clock w) source; Compiled source])%list.
      all: rewrite O, <- !app_assoc; split; [reflexivity|].
      all: apply Forall_app; split; [exact L|]; repeat constructor; try assumption.
      all: now left.
    + simpl. split; [now left|]. split.
      * apply Forall_app. split; [exact S|]. repeat constructor.
      * exists (log ++ [RenderLatexCalled (clock w) source])%list.
        rewrite O, <- app_assoc. split; [reflexivity|].
        apply Forall_app; split; [exact L|]. now repeat constructor.
  - destruct (step_AutoSaveTimerFires w) as [P C].
    unfold pipeline in P. injection P as P1 _ P3 _ _ P6.
    unfold settling. rewrite P1, P3, P6. split; [exact T|split; [exact S|eauto]].
  - destruct (suspended w !! i) as [r|] eqn:R.
    + rewrite (step_ImportSettles _ _ _ _ R).
      assert (Hr : src r = source \/ src r ∈ earlier).
      { eapply (proj1 (Forall_forall _ _) S), list_elem_of_lookup_2, R. }
      assert (S' : Forall (fun r => src r = source \/ src r ∈ earlier) (delete i (suspended w)))
        by now apply Forall_delete.
      unfold landed. destruct outcome as [[]|err]; uncaught; simpl.
      * destruct (latex_parse (src r)); uncaught; simpl.
        all: split; [exact T|split; [exact S'|]].
        all: exists (log ++ [Compiled (src r)])%list.
        all: rewrite O, <- app_assoc; split; [reflexivity|].
        all: apply Forall_app; split; [exact L|]; constructor; [exact Hr|constructor].
      * split; [exact T|split; [exact S'|eauto]].
    + rewrite (step_ImportSettles_none _ _ _ R). split; [exact T|split; [exact S|eauto]].
Qed.

Lemma settling_run since source earlier base tail : forall w,
  settling since source earlier base w -> Forall background tail ->
  settling since source earlier base (run w tail).
Proof.
  induction tail as [|e tail IH]; intros w H B; simpl; [exact H|].
  apply Forall_cons in B as [Be Bt]. apply IH; [|exact Bt].
  now apply settling_step.
Qed.

(** C2. Take [scheduleRender] calls each of which comes less than 450 ms
    after the one before.  Whatever happens in the background during the
    burst and after it, every call of [renderLatex] since the first call
    is for the source of the last call and is made no earlier than 450 ms
    after that last call, and every source handed to the compiler since
    then is that last source (or the source of a render that was already
    in flight before the burst): the superseded sources are never
    compiled. *)
Theorem debounce_collapses_burst w source1 calls tail :
  Forall shortGap calls -> Forall background tail ->
  let w1 := burst (after (scheduleRender source1) w) calls in
  exists log,
    observed (run w1 tail) = (observed w ++ log)%list
    /\ Forall (rendersOnly (lastSource source1 calls) (clock w1 + 450)
                           (map src (suspended w))) log.
Proof.
  intros H B w1.
  assert (P : pendingRender (clock w1 + 450) (lastSource source1 calls)
                (map src (suspended w)) (observed w) w1).
  { apply burst_pending; [|exact H]. split; [reflexivity|]. split.
    - simpl. apply Forall_forall. intros r Hr. now apply list_elem_of_fmap_2.
    - exists []. rewrite app_nil_r. split; [reflexivity|constructor]. }
  destruct P as (T1 & S1 & log1 & O1 & L1).
  assert (Q : settling (clock w1 + 450) (lastSource source1 calls)
                (map src (suspended w)) (observed w) w1).
  { split; [now right|]. split.
    - eapply Forall_impl; [exact S1|]. intros r Hr. now right.
    - exists log1. split; [exact O1|].
      eapply Forall_impl; [exact L1|]. intros o (s' & -> & Hs). now right. }
  destruct (settling_run _ _ _ _ tail w1 Q B) as (_ & _ & log & O & L).
  now exists log.
Qed.

(** ** Switching documents (C1) *)

Lemma del_other k k' st : k <> k' -> items (del k st) !! k' = items st !! k'.
Proof.
  intros H. unfold del. destruct (available st); [|reflexivity].
  simpl. now rewrite lookup_delete_ne.
Qed.

Lemma storedCurrent_files cur st :
  items (storedCurrent cur st) !! STORAGE_KEY = items st !! STORAGE_KEY.
Proof.
  unfold storedCurrent. destruct (orNull cur); [apply put_other|apply del_other]; discriminate.
Qed.

Lemma contentOf_setContent i c t fs w :
  files w = setContent c t fs ->
  contentOf i w = if String.eqb i c then (fun _ => t) <$> find i fs else File.content <$> find i fs.
Proof.
  unfold contentOf. intros ->. rewrite find_setContent.
  destruct (String.eqb i c); now destruct (find i fs).
Qed.

(** What a background event does to the session. *)
Lemma step_background w e :
  background e ->
  currentFileId (step w e) = currentFileId w
  /\ doc (step w e) = doc w
  /\ (forall tm, autoSaveTimer (step w e) = Some tm -> autoSaveTimer w = Some tm)
  /\ (files (step w e) = files w
      \/ exists c tm, orNull (currentFileId w) = Some c /\ autoSaveTimer w = Some tm
           /\ files (step w e) = setContent c (arg tm) (files w)).
Proof.
  intros B. destruct e as [ms| | |i outcome|text|i]; simpl in B; try contradiction.
  - unfold step, after. simpl. repeat split; auto.
  - unfold step, after. simpl. unfold mbind, Js_bind, read, update. simpl.
    destruct (dueArg (renderTimer w) (clock w)) as [s|]; simpl; [|repeat split; auto].
    pose proof (renderLatex_session s (with_renderTimer None w)) as S.
    unfold after, session in S. simpl in S. injection S as -> -> _ -> ->.
    repeat split; auto.
  - unfold step, after. simpl. unfold mbind, Js_bind, read, update. simpl.
    destruct (autoSaveTimer w) as [tm|] eqn:T; simpl;
      [|repeat split; auto; intros; congruence].
    destruct (N.leb (due tm) (clock w)); simpl; [|repeat split; auto; intros; congruence].
    rewrite autoSave_eq. simpl.
    destruct (orNull (currentFileId w)) as [c|] eqn:C; simpl; [|repeat split; auto; discriminate].
    destruct (find c (files w)) eqn:F; simpl; [|repeat split; auto; discriminate].
    repeat split; try discriminate. right. now exists c, tm.
  - destruct (suspended w !! i) as [r|] eqn:R.
    + rewrite (step_ImportSettles _ _ _ _ R).
      pose proof (landed_session (src r) outcome (with_suspended (delete i (suspended w)) w)) as S.
      unfold session in S. simpl in S. injection S as -> -> _ -> ->.
      repeat split; auto.
    + rewrite (step_ImportSettles_none _ _ _ R). repeat split; auto.
Qed.

(** Background events keep the current document and the ids of the
    collection. *)
Lemma run_background_ids es : forall w,
  Forall background es ->
  currentFileId (run w es) = currentFileId w
  /\ forall i, is_Some (find i (files (run w es))) <-> is_Some (find i (files w)).
Proof.
  induction es as [|e es IH]; intros w B; simpl; [now split|].
  apply Forall_cons in B as [Be Bs].
  destruct (step_background w e Be) as (C & _ & _ & F).
  destruct (IH (step w e) Bs) as [C' F']. split; [congruence|].
  intros i. rewrite F'. destruct F as [->|(c & tm & _ & _ & ->)]; [reflexivity|].
  apply find_setContent_is_Some.
Qed.

(** While the editor shows [t] for the current document, background
    events can only write [t] into that document. *)
Lemma run_background_editing c t es : forall w,
  Editing c t w -> Forall background es ->
  Editing c t (run w es)
  /\ forall i, is_Some (find i (files (run w es))) <-> is_Some (find i (files w)).
Proof.
  induction es as [|e es IH]; intros w E B; simpl; [now split|].
  apply Forall_cons in B as [Be Bs].
  destruct E as (C & D & T).
  destruct (step_background w e Be) as (C' & D' & T' & F).
  destruct (IH (step w e)) as [E' F']; [|exact Bs|].
  - split; [congruence|]. split; [congruence|]. intros tm H. apply T, T', H.
  - split; [exact E'|]. intros i. rewrite F'.
    destruct F as [->|(c' & tm & _ & _ & ->)]; [reflexivity|].
    apply find_setContent_is_Some.
Qed.

(** When the document already holds the text the editor shows, background
    events leave the collection as it is. *)
Lemma run_background_idle c t es : forall w,
  Editing c t w -> (forall f, find c (files w) = Some f -> File.content f = t) ->
  Forall background es ->
  Editing c t (run w es) /\ files (run w es) = files w.
Proof.
  induction es as [|e es IH]; intros w E I B; simpl; [now split|].
  apply Forall_cons in B as [Be Bs].
  destruct E as (C & D & T).
  destruct (step_background w e Be) as (C' & D' & T' & F).
  assert (F' : files (step w e) = files w).
  { destruct F as [F|(c' & tm & Hc & Ht & F)]; [exact F|].
    rewrite F. rewrite C in Hc. apply orNull_Some in Hc as [[= <-] _].
    destruct (find c (files w)) as [f|] eqn:G.
    - eapply setContent_same; [exact G|]. rewrite (I f eq_refl). symmetry. now apply T.
    - clear -G. induction (files w) as [|g r IHr]; simpl in *; [reflexivity|].
      destruct (String.eqb (File.id g) c); [discriminate|]. now rewrite IHr. }
  destruct (IH (step w e)) as [E' F2]; [| |exact Bs|].
  - split; [congruence|]. split; [congruence|]. intros tm H. apply T, T', H.
  - now rewrite F'.
  - split; [exact E'|congruence].
Qed.

(** Opening a document that exists: the world before the tree is drawn. *)
Lemma step_OpenFile_found w i f :
  find i (files (flush w)) = Some f ->
  exists tree, step w (OpenFile i) = with_fileTree tree (entered f (flush w)).
Proof.
  intros H. unfold step. simpl. unfold after at 1. rewrite openFile_eq, H.
  apply renderFileTree_frame.
Qed.

Lemma flush_session_rest w :
  currentFileId (flush w) = currentFileId w /\ doc (flush w) = doc w
  /\ autoSaveTimer (flush w) = autoSaveTimer w.
Proof.
  unfold flush. destruct (orNull (currentFileId w)); [|now repeat split].
  destruct (find _ (files w)); now repeat split.
Qed.

Lemma entered_Editing w i f :
  find i (files w) = Some f ->
  (forall tm, autoSaveTimer w = Some tm -> arg tm = doc w) ->
  Editing i (JsString.normalise (File.content f)) (entered f w)
  /\ files (entered f w) = files w.
Proof.
  intros H T. apply find_id in H. unfold entered, dispatched. simpl.
  destruct (JsString.truthy (doc w) || JsString.truthy (File.content f)) eqn:E; simpl.
  - split; [|reflexivity]. split; [now rewrite H|]. split; [reflexivity|].
    now intros tm [= <-].
  - split; [|reflexivity]. split; [now rewrite H|]. split; [reflexivity|].
    intros tm Htm. rewrite (T tm Htm).
    apply orb_false_elim in E as [E1 E2]. unfold JsString.truthy in *.
    destruct (String.eqb_spec (doc w) "") as [D|]; [|discriminate].
    destruct (String.eqb_spec (File.content f) "") as [C|]; [|discriminate].
    now rewrite D, C.
Qed.

Lemma entered_fields f w :
  currentFileId (entered f w) = Some (File.id f)
  /\ doc (entered f w) = JsString.normalise (File.content f)
  /\ files (entered f w) = files w
  /\ items (localStorage (entered f w)) !! STORAGE_KEY = items (localStorage w) !! STORAGE_KEY.
Proof.
  unfold entered, dispatched. simpl.
  destruct (JsString.truthy (doc w) || JsString.truthy (File.content f)); simpl;
    repeat split; apply storedCurrent_files.
Qed.

Lemma find_flushed_is_Some i w : is_Some (find i (flushed w)) <-> is_Some (find i (files w)).
Proof.
  unfold flushed. destruct (orNull (currentFileId w)); [|reflexivity].
  destruct (find _ (files w)); [|reflexivity]. apply find_setContent_is_Some.
Qed.

Lemma orNull_nonempty c : c <> "" -> orNull (Some c) = Some c.
Proof.
  intros H. simpl. unfold JsString.truthy. now destruct (String.eqb_spec c "").
Qed.

(** Flushing while the document already holds the editor's text changes
    no document. *)
Lemma flushed_idle c t w :
  Editing c t w -> (forall f, find c (files w) = Some f -> File.content f = t) ->
  flushed w = files w.
Proof.
  intros (C & D & _) I. unfold flushed. rewrite C.
  destruct (orNull (Some c)) as [c'|] eqn:O; [|reflexivity].
  apply orNull_Some in O as [[= <-] _].
  destruct (find c (files w)) as [f|] eqn:F; [|reflexivity].
  eapply setContent_same; [exact F|]. now rewrite D, (I f eq_refl).
Qed.

(** While the editor shows [t] for the current document [c], background
    events leave the content of every other document as it is, and that
    of [c] as it is or equal to [t]. *)
Lemma run_background_contents c t es : forall w,
  Editing c t w -> Forall background es ->
  Editing c t (run w es)
  /\ forall i, contentOf i (run w es) = contentOf i w
               \/ (i = c /\ contentOf i (run w es) = Some t).
Proof.
  induction es as [|e es IH]; intros w E B; simpl; [split; [exact E|now left]|].
  apply Forall_cons in B as [Be Bs].
  destruct E as (C & D & T).
  destruct (step_background w e Be) as (C' & D' & T' & F).
  destruct (IH (step w e)) as [E' K']; [|exact Bs|].
  - split; [congruence|]. split; [congruence|]. intros tm H. apply T, T', H.
  - split; [exact E'|]. intros i. fold (run (step w e) es).
    destruct (K' i) as [K|K]; [|now right]. rewrite K.
    destruct F as [F|(c' & tm & Hc & Ht & F)]; [left; unfold contentOf; now rewrite F|].
    rewrite C in Hc. apply orNull_Some in Hc as [[= <-] _].
    rewrite (contentOf_setContent i c (arg tm) (files w) _ F), (T tm Ht).
    unfold contentOf.
    destruct (String.eqb_spec i c) as [->|]; [|now left].
    destruct (find c (files w)); [right|left]; now split.
Qed.

(** The first statement of [openFile] leaves every content as it is, but
    that of the current document, which becomes the editor's text. *)
Lemma contentOf_flush i w :
  contentOf i (flush w) = contentOf i w
  \/ (orNull (currentFileId w) = Some i /\ contentOf i (flush w) = Some (doc w)).
Proof.
  unfold contentOf. rewrite files_flush. unfold flushed.
  destruct (orNull (currentFileId w)) as [c|]; [|now left].
  destruct (find c (files w)) as [f|] eqn:F; [|now left].
  rewrite find_setContent.
  destruct (String.eqb_spec i c) as [->|]; [|left; now destruct (find i (files w))].
  right. now rewrite F.
Qed.

(** C1, for a document whose id is not the empty string.  Open [a], edit
    its text to [T], open [b], open [a] again, with any background events
    in between (time passing, the timers firing or not, imports
    settling).  The switch to [b] itself writes [T] into [a] in memory and
    saves the collection (the files record holds it whenever the medium
    takes the write), whether or not the auto-save timer had fired; and
    when [a] is opened again it is current, and its content is [T] and
    the editor shows [T], [T] being a text as the editor holds it, with
    line feeds for its line breaks. *)
Theorem flush_on_switch w a b T bg0 bg1 bg2 :
  a <> "" ->
  is_Some (find a (files w)) -> is_Some (find b (files w)) ->
  Forall background bg0 -> Forall background bg1 -> Forall background bg2 ->
  let w4 := run (step (run (step w (OpenFile a)) bg0) (EditorChanged T)) bg1 in
  let w5 := step w4 (OpenFile b) in
  let w7 := step (run w5 bg2) (OpenFile a) in
  contentOf a w5 = Some T
  /\ (available (localStorage w4) = true ->
      accepts (localStorage w4) (items (localStorage w4)) STORAGE_KEY
        (JSON_stringify (files w5)) = true ->
      items (localStorage w5) !! STORAGE_KEY = Some (JSON_stringify (files w5)))
  /\ (JsString.normalise T = T -> contentOf a w7 = Some T)
  /\ (JsString.normalise T = T -> doc w7 = T)
  /\ currentFileId w7 = Some a.
Proof.
  intros Ha Fa Fb B0 B1 B2. cbv zeta.
  (* openFile(a) *)
  set (w1 := step w (OpenFile a)).
  assert (H1 : currentFileId w1 = Some a
               /\ forall i, is_Some (find i (files w1)) <-> is_Some (find i (files w))).
  { assert (G : is_Some (find a (files (flush w))))
      by (rewrite files_flush; now apply find_flushed_is_Some).
    destruct G as [f G]. destruct (step_OpenFile_found w a f G) as [tree E].
    unfold w1. rewrite E. simpl.
    destruct (entered_fields f (flush w)) as (C & _ & F & _).
    rewrite C, F, (find_id _ _ _ G), files_flush. split; [reflexivity|].
    intros i. apply find_flushed_is_Some. }
  destruct H1 as [C1 I1].
  (* background, then the edit *)
  set (w2 := run w1 bg0).
  destruct (run_background_ids bg0 w1 B0) as [C2 I2]. fold w2 in C2, I2.
  set (w3 := step w2 (EditorChanged T)).
  assert (E3 : Editing a T w3 /\ files w3 = files w2).
  { unfold w3, step, after. simpl. repeat split; [exact (eq_trans C2 C1)|].
    now intros tm [= <-]. }
  destruct E3 as [E3 F3].
  destruct (run_background_editing a T bg1 w3 E3 B1) as [E4 I4].
  set (w4 := run w3 bg1) in *.
  assert (I : forall i, is_Some (find i (files w4)) <-> is_Some (find i (files w))).
  { intros i. rewrite I4, F3, I2. apply I1. }
  (* openFile(b): the flush *)
  destruct E4 as (C4 & D4 & T4).
  destruct (proj2 (I a) Fa) as [fa Ga].
  assert (L4 : flush w4 = saved (setContent a T (files w4)) JSON_stringify w4).
  { unfold flush. now rewrite C4, (orNull_nonempty a Ha), Ga, D4. }
  assert (Gb : is_Some (find b (files (flush w4)))).
  { rewrite L4. simpl. apply find_setContent_is_Some, I, Fb. }
  destruct Gb as [fb Gb].
  destruct (step_OpenFile_found w4 b fb Gb) as [tree5 E5].
  set (w5 := step w4 (OpenFile b)) in *.
  destruct (flush_session_rest w4) as (_ & D4' & T4').
  destruct (entered_Editing (flush w4) b fb Gb) as [E5' F5'].
  { intros tm Htm. rewrite D4', D4. apply T4. now rewrite <- T4'. }
  assert (F5 : files w5 = setContent a T (files w4)).
  { rewrite E5. simpl. rewrite F5', L4. reflexivity. }
  assert (K5 : contentOf a w5 = Some T).
  { rewrite (contentOf_setContent a a T (files w4) w5 F5), String.eqb_refl, Ga. reflexivity. }
  assert (Ed5 : Editing b (JsString.normalise (File.content fb)) w5).
  { rewrite E5. exact E5'. }
  assert (Eab : JsString.normalise T = T -> a = b ->
                JsString.normalise (File.content fb) = T).
  { intros NT <-. rewrite L4 in Gb. simpl in Gb.
    rewrite find_setContent, Ga, String.eqb_refl in Gb. injection Gb as <-. exact NT. }
  (* background while b is open, then openFile(a) *)
  destruct (run_background_contents b _ bg2 w5 Ed5 B2) as [E6 K6].
  destruct (run_background_ids bg2 w5 B2) as [_ I6].
  set (w6 := run w5 bg2) in *.
  destruct E6 as (C6 & D6 & _).
  assert (G7 : is_Some (find a (files (flush w6)))).
  { rewrite files_flush. apply find_flushed_is_Some, I6. rewrite F5.
    apply find_setContent_is_Some. now rewrite Ga. }
  destruct G7 as [fa7 G7].
  assert (K7 : JsString.normalise T = T -> File.content fa7 = T).
  { intros NT.
    assert (K6a : contentOf a w6 = Some T).
    { destruct (K6 a) as [K|[Hab K]]; [now rewrite K|]. rewrite K. f_equal. now apply Eab. }
    assert (K : contentOf a (flush w6) = Some T).
    { destruct (contentOf_flush a w6) as [K|[O K]]; [now rewrite K|].
      rewrite K, D6. f_equal. apply Eab; [exact NT|].
      rewrite C6 in O. apply orNull_Some in O as [[= ->] _]. reflexivity. }
    unfold contentOf in K. rewrite G7 in K. now injection K. }
  destruct (step_OpenFile_found w6 a fa7 G7) as [tree7 E7].
  destruct (entered_fields fa7 (flush w6)) as (C7 & D7 & F7 & _).
  split; [exact K5|]. split; [|split; [|split]].
  - intros Av Ac. rewrite F5 in Ac |- *. rewrite E5. simpl.
    destruct (entered_fields fb (flush w4)) as (_ & _ & _ & S). rewrite S, L4.
    unfold saved, put. simpl. rewrite Av, Ac. simpl.
    apply lookup_insert_eq.
  - intros NT. rewrite E7. unfold contentOf. simpl. rewrite F7, G7. simpl.
    now rewrite (K7 NT).
  - intros NT. rewrite E7. simpl. now rewrite D7, (K7 NT).
  - rewrite E7. simpl. now rewrite C7, (find_id _ _ _ G7).
Qed.

(** ** Creating a document (C7) *)

Lemma TEMPLATES_lookup k t :
  TEMPLATES !! k = Some t ->
  (k = "blank" /\ t = TEMPLATE_blank) \/ (k = "article" /\ t = DEFAULT_DOC)
  \/ (k = "math" /\ t = TEMPLATE_math) \/ (k = "letter" /\ t = TEMPLATE_letter).
Proof.
  unfold TEMPLATES. simpl. rewrite !lookup_insert, lookup_empty.
  repeat case_decide; intros [= <-]; subst; tauto.
Qed.

Lemma TEMPLATES_truthy k t : TEMPLATES !! k = Some t -> JsString.truthy t = true.
Proof. intros H. apply TEMPLATES_lookup in H. now destruct H as [[_ ->]|[[_ ->]|[[_ ->]|[_ ->]]]]. Qed.

(** The template a key resolves to: its registry entry, or the blank
    template for a key that is not in the registry. *)
Lemma resolveTemplate_spec k content :
  resolveTemplate k = Some content ->
  TEMPLATES !! k = Some content
  \/ (TEMPLATES !! k = None /\ content = TEMPLATE_blank).
Proof.
  unfold resolveTemplate, js_get. destruct (TEMPLATES !! k) as [t|] eqn:E.
  - rewrite (TEMPLATES_truthy _ _ E). intros [= <-]. now left.
  - destruct (inherited k); [discriminate|]. intros [= <-]. now right.
Qed.

(** The templates are written with line feeds: the editor holds them as
    they are. *)
Lemma resolveTemplate_normal k content :
  resolveTemplate k = Some content -> JsString.normalise content = content.
Proof.
  intros H. apply resolveTemplate_spec in H as [H|[_ ->]]; [|reflexivity].
  apply TEMPLATES_lookup in H.
  now destruct H as [[_ ->]|[[_ ->]|[[_ ->]|[_ ->]]]].
Qed.

Lemma find_app_None i fs l : find i fs = None -> find i (fs ++ l)%list = find i l.
Proof.
  induction fs as [|g r IH]; simpl; [reflexivity|].
  destruct (String.eqb (File.id g) i); [discriminate|exact IH].
Qed.

Lemma find_app_Some i fs l f : find i fs = Some f -> find i (fs ++ l)%list = Some f.
Proof.
  induction fs as [|g r IH]; simpl; [discriminate|].
  destruct (String.eqb (File.id g) i); [trivial|exact IH].
Qed.

Lemma setContent_app c t fs l f :
  find c fs = Some f -> setContent c t (fs ++ l)%list = (setContent c t fs ++ l)%list.
Proof.
  induction fs as [|g r IH]; simpl; [discriminate|].
  destruct (String.eqb (File.id g) c); [reflexivity|].
  intros H. now rewrite IH.
Qed.

(** Pushing a document with an unused id and flushing commute. *)
Lemma flushed_push w file :
  fresh (File.id file) w ->
  flushed (with_files (files w ++ [file])%list w) = (flushed w ++ [file])%list.
Proof.
  intros [F C]. unfold flushed. simpl.
  destruct (orNull (currentFileId w)) as [c|] eqn:O; [|reflexivity].
  apply orNull_Some in O as [O _].
  destruct (find c (files w)) as [g|] eqn:G.
  - rewrite (find_app_Some _ _ _ _ G). now rewrite (setContent_app _ _ _ _ _ G).
  - rewrite (find_app_None _ _ _ G). simpl.
    destruct (String.eqb_spec (File.id file) c) as [E|E]; [|reflexivity].
    exfalso. apply C. now rewrite E.
Qed.

Lemma flushed_saved fs w : flushed (saved fs JSON_stringify w) = flushed (with_files fs w).
Proof. reflexivity. Qed.

Lemma renderFileTree_twice w :
  exists tree, after (renderFileTree;; renderFileTree) w = with_fileTree tree w.
Proof.
  unfold after, mbind, Js_bind.
  destruct (renderFileTree_frame w) as [t1 E1]. unfold after in E1.
  destruct (renderFileTree w) as [[[]|e] w1] eqn:R; simpl in E1; subst w1.
  - destruct (renderFileTree_frame (with_fileTree t1 w)) as [t2 E2]. unfold after in E2.
    rewrite E2. now exists t2.
  - now exists t1.
Qed.

(** C7, as the code has it.  For a template key that is in the registry
    or names no member of [Object.prototype], and when the generated id is
    not in use, [createFile] appends one
    document to the (flushed) collection under that id, and [find] of the
    id returns it: its name is the requested name trimmed, or ['Untitled']
    when that is empty; its folder is the requested folder trimmed; its
    content is the registry's entry for the key, or the blank template for
    a key that is not in the registry.  The new document is then the
    current one and its content is in the editor. *)
Theorem create_then_find w name folder templateKey rnd content :
  resolveTemplate templateKey = Some content ->
  let i := JsString.toString36 (clock w) +:+ rnd in
  let file := File.mk i (orUntitled (JsString.trim name)) (Some (JsString.trim folder)) content in
  fresh i w ->
  exists m, createFile name folder templateKey rnd = Some m
    /\ files (after m w) = (flushed w ++ [file])%list
    /\ find i (files (after m w)) = Some file
    /\ (TEMPLATES !! templateKey = Some content
        \/ (TEMPLATES !! templateKey = None /\ content = TEMPLATE_blank))
    /\ currentFileId (after m w) = Some i
    /\ doc (after m w) = content.
Proof.
  intros R i file Fr. unfold createFile. rewrite R. eexists. split; [reflexivity|].
  match goal with |- files (after ?m w) = _ /\ _ =>
    assert (E : exists tree, after m w
      = with_fileTree tree
          (entered file (flush (saved (files w ++ [file])%list JSON_stringify w))))
  end.
  { set (wb := saved (files w ++ [file])%list JSON_stringify w).
    assert (G : find i (files (flush wb)) = Some file).
    { rewrite files_flush. unfold wb. rewrite flushed_saved, (flushed_push w file Fr).
      destruct Fr as [Fr _].
      rewrite find_app_None by now apply find_flushed_None.
      simpl. now rewrite String.eqb_refl. }
    destruct (renderFileTree_twice (entered file (flush wb))) as [tree T].
    exists tree. rewrite <- T.
    unfold after, mbind, Js_bind, generateId, read, update. simpl.
    fold i. fold file. rewrite saveFiles_eq. simpl. fold (saved (files w ++ [file])%list JSON_stringify w).
    fold wb. rewrite openFile_eq, G. reflexivity. }
  destruct E as [tree E]. rewrite E. simpl.
  destruct (entered_fields file (flush (saved (files w ++ [file])%list JSON_stringify w)))
    as (C & D & F & _).
  assert (FF : files (flush (saved (files w ++ [file])%list JSON_stringify w))
               = (flushed w ++ [file])%list).
  { rewrite files_flush, flushed_saved. now apply flushed_push. }
  rewrite F, FF, C, D. repeat split.
  - destruct Fr as [Fr _]. rewrite find_app_None by now apply find_flushed_None.
    simpl. now rewrite String.eqb_refl.
  - now apply resolveTemplate_spec.
  - simpl. exact (resolveTemplate_normal templateKey content R).
Qed.

(** ** Grouping for display (C9) *)

Lemma truthy_false s : JsString.truthy s = false <-> s = "".
Proof. unfold JsString.truthy. destruct (String.eqb_spec s ""); simpl; split; congruence. Qed.

Lemma truthy_true s : JsString.truthy s = true <-> s <> "".
Proof. unfold JsString.truthy. destruct (String.eqb_spec s ""); simpl; split; congruence. Qed.

(** The code's test [!folder] on the trimmed value agrees with the
    specification's "empty, white space only, or absent". *)
Lemma folderOf_empty_iff file : folderOf file = "" <-> ungroupedFolder (File.folder file) = true.
Proof.
  unfold folderOf, ungroupedFolder. destruct (File.folder file) as [s|]; simpl.
  - apply trim_empty_iff.
  - split; reflexivity.
Qed.

Lemma js_get_plain (folders : gmap string (list File.t)) k :
  inherited k = false ->
  js_get folders k = match folders !! k with Some arr => Own arr | None => Undefined end.
Proof. unfold js_get. intros ->. reflexivity. Qed.

(** The grouping loop, when no trimmed folder names a member of
    [Object.prototype]: the ungrouped documents are appended to [root] in
    order, and every bucket grows by its documents in order. *)
Lemma groupFiles_spec fs : forall root folders,
  Forall (fun f => inherited (folderOf f) = false) fs ->
  exists folders',
    groupFiles fs root folders = inr ((root ++ bucket "" fs)%list, folders')
    /\ forall k, folders' !! k
         = if decide (k = "") then folders !! k else extend (folders !! k) (bucket k fs).
Proof.
  induction fs as [|f fs IH]; intros root folders H; simpl.
  - exists folders. rewrite app_nil_r. split; [reflexivity|].
    intros k. now case_decide.
  - apply Forall_cons in H as [Hf H]. unfold bucket in *.
    destruct (JsString.truthy (folderOf f)) eqn:E.
    + apply truthy_true in E.
      rewrite (js_get_plain _ _ Hf).
      set (arr := (default [] (folders !! folderOf f) ++ [f])%list).
      assert (G : match match folders !! folderOf f with
                        | Some arr0 => Own arr0
                        | None => Undefined
                        end with
                  | Own arr0 => groupFiles fs root (<[folderOf f := (arr0 ++ [f])%list]> folders)
                  | Inherited => inl TypeError_push
                  | Undefined => groupFiles fs root (<[folderOf f := [f]]> folders)
                  end = groupFiles fs root (<[folderOf f := arr]> folders))
        by (unfold arr; now destruct (folders !! folderOf f)).
      destruct (IH root (<[folderOf f := arr]> folders) H) as (folders' & R & L).
      exists folders'. split.
      * rewrite G, R, filter_cons_False by congruence. reflexivity.
      * intros k. rewrite L. case_decide as Hk.
        { rewrite lookup_insert_ne by congruence. reflexivity. }
        destruct (decide (folderOf f = k)) as [<-|Hne].
        -- rewrite lookup_insert_eq, filter_cons_True by reflexivity.
           unfold extend, arr.
           destruct (filter (fun f0 => folderOf f0 = folderOf f) fs); simpl; [reflexivity|].
           now rewrite <- app_assoc.
        -- rewrite lookup_insert_ne, filter_cons_False by congruence. reflexivity.
    + apply truthy_false in E.
      destruct (IH (root ++ [f])%list folders H) as (folders' & R & L).
      exists folders'. split.
      * rewrite R, filter_cons_True by exact E. now rewrite <- app_assoc.
      * intros k. rewrite L. case_decide; [reflexivity|].
        rewrite filter_cons_False by congruence. reflexivity.
Qed.

Lemma bucket_nonempty k fs : bucket k fs <> [] <-> exists f, f ∈ fs /\ folderOf f = k.
Proof.
  unfold bucket. split.
  - destruct (filter _ fs) as [|f l] eqn:E; [congruence|]. intros _.
    assert (H : f ∈ filter (fun f => folderOf f = k) fs) by (rewrite E; left).
    apply list_elem_of_filter in H as [H1 H2]. eauto.
  - intros (f & Hf & Hk) E.
    apply (filter_nil_not_elem_of _ _ f E Hk Hf).
Qed.

(** The keys of the folders object after the loop, sorted: the non-empty
    trimmed folder names that occur, each once, in ascending order. *)
Lemma sortedKeys_spec (folders : gmap string (list File.t)) :
  Sorted str_le (sortedKeys folders)
  /\ NoDup (sortedKeys folders)
  /\ forall k, k ∈ sortedKeys folders <-> is_Some (folders !! k).
Proof.
  unfold sortedKeys. split; [apply (Sorted_merge_sort str_le)|]. split.
  - rewrite (merge_sort_Permutation str_le). apply NoDup_fst_map_to_list.
  - intros k. rewrite (merge_sort_Permutation str_le). rewrite list_elem_of_fmap. split.
    + intros ([k' l] & -> & H). apply elem_of_map_to_list in H. simpl. eauto.
    + intros [l H]. exists (k, l). split; [reflexivity|]. now apply elem_of_map_to_list.
Qed.

(** The display grouping, for a collection in which no trimmed folder
    names a member of [Object.prototype]: the tree lists the documents
    without folder (absent, empty or white space only) first, in their
    order in the collection; then one bucket per trimmed folder name, the
    names in ascending order and each once; every bucket holds exactly the
    documents of that folder, in their order in the collection. *)
Theorem grouping_of_plain_folders w :
  files w <> [] ->
  Forall (fun f => inherited (folderOf f) = false) (files w) ->
  exists keys,
    fst (renderFileTree w) = Normal tt
    /\ fileTree (after renderFileTree w)
       = FileTreeList
           (map (makeFileItem (currentFileId w)) (bucket "" (files w)))
           (map (fun k => makeFolderItem (currentFileId w) k (bucket k (files w))) keys)
    /\ Sorted str_le keys
    /\ NoDup keys
    /\ (forall k, k ∈ keys <-> k <> "" /\ exists f, f ∈ files w /\ folderOf f = k)
    /\ (forall f, f ∈ bucket "" (files w)
                  <-> ungroupedFolder (File.folder f) = true /\ f ∈ files w)
    /\ (forall k, bucket k (files w) `sublist_of` files w).
Proof.
  clear JSON_stringify JSON_parse latex_parse outerHTML. intros Hne H.
  destruct (groupFiles_spec (files w) [] ∅ H) as (folders & G & L).
  assert (Lk : forall k, folders !! k
                 = if decide (k = "") then None
                   else match bucket k (files w) with [] => None | l => Some l end).
  { intros k. rewrite L, lookup_empty. case_decide; [reflexivity|].
    unfold extend. now destruct (bucket k (files w)). }
  destruct (sortedKeys_spec folders) as (S & N & K).
  assert (Kk : forall k, k ∈ sortedKeys folders
                 <-> k <> "" /\ exists f, f ∈ files w /\ folderOf f = k).
  { intros k. rewrite K, Lk, <- bucket_nonempty. case_decide as Hk.
    - split; [intros [? ?]; discriminate|tauto].
    - destruct (bucket k (files w)); split.
      + intros [? ?]; discriminate.
      + intros [_ ?]; congruence.
      + intros _. split; [exact Hk|discriminate].
      + intros _. eauto. }
  exists (sortedKeys folders).
  assert (E : renderFileTree w
    = (Normal tt, with_fileTree
         (FileTreeList
            (map (makeFileItem (currentFileId w)) (bucket "" (files w)))
            (map (fun k => makeFolderItem (currentFileId w) k (default [] (folders !! k)))
                 (sortedKeys folders))) w)).
  { unfold renderFileTree, mbind, Js_bind, read, update. simpl.
    destruct (files w) as [|f r] eqn:F; [congruence|]. now rewrite G. }
  unfold after. rewrite E. simpl.
  split; [reflexivity|]. split; [|split; [exact S|split; [exact N|split; [exact Kk|split]]]].
  - f_equal. apply map_ext_in. intros k Hk. f_equal.
    apply list_elem_of_In, Kk in Hk as [Hk1 Hk2]. apply bucket_nonempty in Hk2.
    rewrite Lk. case_decide; [congruence|]. now destruct (bucket k (files w)).
  - intros f. unfold bucket. rewrite list_elem_of_filter, folderOf_empty_iff. reflexivity.
  - intros k. apply sublist_filter.
Qed.

Lemma inherited_truthy k : inherited k = true -> JsString.truthy k = true.
Proof.
  intros H. apply truthy_true. intros ->. vm_compute in H. discriminate.
Qed.

Lemma groupFiles_throws fs : forall root folders,
  (forall k, inherited k = true -> folders !! k = None) ->
  Exists (fun f => inherited (folderOf f) = true) fs ->
  groupFiles fs root folders = inl TypeError_push.
Proof.
  induction fs as [|f fs IH]; intros root folders I H; [inversion H|].
  simpl. destruct (inherited (folderOf f)) eqn:Hf.
  - rewrite (inherited_truthy _ Hf). unfold js_get. now rewrite (I _ Hf), Hf.
  - apply Exists_cons in H as [H|H]; [congruence|].
    destruct (JsString.truthy (folderOf f)); [|now apply IH].
    rewrite (js_get_plain _ _ Hf).
    destruct (folders !! folderOf f); apply IH; try exact H.
    all: intros k Hk; rewrite lookup_insert_ne by congruence; now apply I.
Qed.

(** C9 fails on the code for a folder named like a member of
    [Object.prototype] ([constructor], [toString], [__proto__], ...):
    [folders[folder]] then finds the inherited member, no array is made,
    and the push throws a [TypeError].  [renderFileTree] draws nothing and
    leaves the world as it was. *)
Theorem folder_named_like_a_prototype_member w :
  Exists (fun f => inherited (folderOf f) = true) (files w) ->
  renderFileTree w = (Throw TypeError_push, w).
Proof.
  intros H. unfold renderFileTree, mbind, Js_bind, read, throw. simpl.
  destruct (files w) as [|f r] eqn:F; [inversion H|].
  rewrite (groupFiles_throws (f :: r) [] ∅); [reflexivity| |exact H].
  intros k _. apply lookup_empty.
Qed.


(** ** The session as a whole: the shape of every step *)

Lemma step_OpenFile_missing w i :
  find i (files (flush w)) = None -> step w (OpenFile i) = flush w.
Proof. intros H. unfold step, after. simpl. now rewrite openFile_eq, H. Qed.

Lemma step_EditorChanged w text :
  step w (EditorChanged text)
  = with_autoSaveTimer (Some (mkTimer (clock w + 1000) text))
      (with_renderTimer (Some (mkTimer (clock w + 450) text)) (with_doc text w)).
Proof. reflexivity. Qed.

(** [createFile] without any assumption on the id: the document found
    under the new id is opened, be it the new one or an older one. *)
Lemma createFile_world w name folder templateKey rnd m :
  createFile name folder templateKey rnd = Some m ->
  exists content f tree,
    resolveTemplate templateKey = Some content
    /\ let i := JsString.toString36 (clock w) +:+ rnd in
       let file := File.mk i (orUntitled (JsString.trim name))
                           (Some (JsString.trim folder)) content in
       let wb := saved (files w ++ [file])%list JSON_stringify w in
       find i (files (flush wb)) = Some f
       /\ after m w = with_fileTree tree (entered f (flush wb)).
Proof.
  unfold createFile. destruct (resolveTemplate templateKey) as [content|]; [|discriminate].
  intros [= <-]. exists content.
  set (i := JsString.toString36 (clock w) +:+ rnd).
  set (file := File.mk i (orUntitled (JsString.trim name)) (Some (JsString.trim folder)) content).
  set (wb := saved (files w ++ [file])%list JSON_stringify w).
  assert (G : is_Some (find i (files (flush wb)))).
  { rewrite files_flush. apply find_flushed_is_Some. unfold wb. simpl.
    destruct (find i (files w)) as [g|] eqn:F.
    - rewrite (find_app_Some _ _ _ _ F). eauto.
    - rewrite (find_app_None _ _ _ F). simpl. unfold file at 1. simpl.
      rewrite String.eqb_refl. eauto. }
  destruct G as [f G]. exists f.
  destruct (renderFileTree_twice (entered f (flush wb))) as [tree T].
  exists tree. split; [reflexivity|]. cbv zeta. split; [exact G|].
  rewrite <- T.
  unfold after, mbind, Js_bind, generateId, read, update. simpl.
  fold i. fold file. rewrite saveFiles_eq. simpl.
  fold (saved (files w ++ [file])%list JSON_stringify w). fold wb.
  rewrite openFile_eq, G. reflexivity.
Qed.

(** An invariant of every event and of [createFile] holds after any list
    of actions. *)
Lemma performAll_invariant (P : World -> Prop) :
  (forall w e, P w -> P (step w e)) ->
  (forall w name folder templateKey rnd m,
     P w -> createFile name folder templateKey rnd = Some m -> P (after m w)) ->
  forall acts w w', P w -> performAll w acts = Some w' -> P w'.
Proof.
  intros Hs Hc. induction acts as [|a acts IH]; intros w w' H E; simpl in E.
  - now injection E as <-.
  - destruct a as [e|name folder templateKey rnd]; simpl in E.
    + apply (IH (step w e)); [now apply Hs|exact E].
    + destruct (createFile name folder templateKey rnd) as [m|] eqn:C; [|discriminate].
      simpl in E. apply (IH (after m w)); [|exact E]. eapply Hc; eauto.
Qed.

(** The world after the module has run on a legible storage: what was
    loaded, the stored document opened when it exists, and the tree
    drawn. *)
Lemma boot_eq st :
  legible st ->
  exists tree,
    let w1 := with_currentFileId (loadedCurrent st) (with_files (loadedFiles st) (initialPage st)) in
    boot st
    = with_fileTree tree
        match loadedCurrent st with
        | Some c =>
            match find c (loadedFiles st) with
            | Some file =>
                with_renderTimer (Some (mkTimer 450 (File.content file)))
                  (dispatched (File.content file) w1)
            | None => with_currentFileId None w1
            end
        | None => w1
        end.
Proof.
  intros Hl.
  assert (E : orNull (loadedCurrent st) = loadedCurrent st)
    by (unfold loadedCurrent; destruct (available st); [apply orNull_idem|reflexivity]).
  set (w1 := with_currentFileId (loadedCurrent st)
               (with_files (loadedFiles st) (initialPage st))).
  set (w2 := match loadedCurrent st with
             | Some c =>
                 match find c (loadedFiles st) with
                 | Some file =>
                     with_renderTimer (Some (mkTimer 450 (File.content file)))
                       (dispatched (File.content file) w1)
                 | None => with_currentFileId None w1
                 end
             | None => w1
             end).
  destruct (renderFileTree_frame w2) as [tree T]. exists tree. cbv zeta. fold w1. fold w2.
  rewrite <- T. unfold boot, after at 1, startup, mbind, Js_bind, read.
  rewrite loadFiles_eq. cbn [fst snd].
  change (localStorage (initialPage st)) with st. rewrite Hl. fold w1.
  change (currentFileId w1) with (loadedCurrent st). rewrite E.
  assert (R : forall x, (let (c, w') := renderFileTree x in
                         match c with
                         | Normal _ => (Normal Ready, w')
                         | Throw e => (Throw e, w')
                         end).2 = (renderFileTree x).2)
    by (intros x; now destruct (renderFileTree x) as [[[]|e] w']).
  unfold w2. destruct (loadedCurrent st) as [c|]; [|apply R].
  change (files w1) with (loadedFiles st).
  destruct (find c (loadedFiles st)) as [file|]; [|apply R].
  rewrite dispatch_eq. apply R.
Qed.

(** ** The current id always names a document *)

Lemma attached_flush w : attached w -> attached (flush w).
Proof.
  intros H c Hc. destruct (flush_session_rest w) as (C & _ & _). rewrite C in Hc.
  rewrite files_flush. apply find_flushed_is_Some. now apply H.
Qed.

Lemma attached_entered w i f : find i (files w) = Some f -> attached (entered f w).
Proof.
  intros H c Hc. destruct (entered_fields f w) as (C & _ & F & _).
  rewrite C in Hc. injection Hc as <-. rewrite F, (find_id _ _ _ H). eauto.
Qed.

Lemma attached_background w e : background e -> attached w -> attached (step w e).
Proof.
  intros B H c Hc. destruct (step_background w e B) as (C & _ & _ & F).
  rewrite C in Hc. destruct F as [->|(c' & tm & _ & _ & ->)]; [now apply H|].
  apply find_setContent_is_Some. now apply H.
Qed.

Lemma attached_step w e : attached w -> attached (step w e).
Proof.
  intros H. destruct e as [ms| | |i outcome|text|i].
  1-4: apply attached_background; [exact I|exact H].
  - rewrite step_EditorChanged. exact H.
  - destruct (find i (files (flush w))) as [f|] eqn:G.
    + destruct (step_OpenFile_found w i f G) as [tree ->].
      exact (attached_entered (flush w) i f G).
    + rewrite (step_OpenFile_missing w i G). now apply attached_flush.
Qed.

Lemma attached_createFile w name folder templateKey rnd m :
  createFile name folder templateKey rnd = Some m -> attached (after m w).
Proof.
  intros C. destruct (createFile_world w _ _ _ _ m C) as (content & f & tree & _ & G & ->).
  exact (attached_entered _ _ f G).
Qed.

Lemma attached_boot st : legible st -> attached (boot st).
Proof.
  intros Hl. destruct (boot_eq st Hl) as [tree E]. cbv zeta in E. rewrite E. clear E.
  intros c. destruct (loadedCurrent st) as [c'|]; simpl.
  - destruct (find c' (loadedFiles st)) as [file|] eqn:F.
    + unfold dispatched. simpl.
      destruct (JsString.truthy DEFAULT_DOC || JsString.truthy (File.content file)); simpl;
        intros [= <-]; rewrite F; eauto.
    + simpl. discriminate.
  - discriminate.
Qed.

(** On a legible storage (a files record that, when it can be read and
    parsed, is an array of documents), from the moment the module has
    run and whatever the user and the environment do, the current id is
    [null] or the id of a document that is in the collection: the startup
    code drops a stored id that names no document, and [openFile] and
    [createFile] only ever make a document they have found current. *)
Theorem current_document_always_exists st acts w :
  legible st -> performAll (boot st) acts = Some w -> attached w.
Proof.
  intros Hl. apply (performAll_invariant attached).
  - intros w0 e. apply attached_step.
  - intros w0 name folder templateKey rnd m _. apply attached_createFile.
  - now apply attached_boot.
Qed.

(** On a files record that parses to a value that is no array ([null],
    say), a stored current id makes the startup code throw where it
    calls [files.find]: the current id stays, though it names no
    document, and the tree is not drawn. *)
Theorem startup_on_a_foreign_record st c :
  held st = Alien false -> loadedCurrent st = Some c ->
  fst (startup (initialPage st)) = Throw TypeError_find
  /\ currentFileId (boot st) = Some c
  /\ fileTree (boot st) = fileTree (initialPage st).
Proof.
  intros H L.
  assert (E : orNull (loadedCurrent st) = loadedCurrent st)
    by (unfold loadedCurrent; destruct (available st); [apply orNull_idem|reflexivity]).
  unfold boot, after, startup, mbind, Js_bind, read.
  rewrite loadFiles_eq. cbn [fst snd].
  change (localStorage (initialPage st)) with st. rewrite H.
  cbn [currentFileId with_currentFileId]. rewrite E, L. now repeat split.
Qed.

(** ** Pending timers carry the editor's text *)

Lemma carries_entered w f : carries w -> carries (entered f w).
Proof.
  intros [R A]. unfold entered, dispatched. simpl.
  destruct (JsString.truthy (doc w) || JsString.truthy (File.content f)) eqn:E; simpl.
  - split; intros tm [= <-]; [now left|reflexivity].
  - apply orb_false_elim in E as [E1 E2].
    apply truthy_false in E1, E2. rewrite E2.
    change (JsString.normalise "") with "". rewrite <- E1.
    split; intros tm H; [exact (R tm H)|exact (A tm H)].
Qed.

Lemma carries_flush w : carries w -> carries (flush w).
Proof.
  intros [R A]. unfold flush. destruct (orNull (currentFileId w)); [|now split].
  destruct (find _ (files w)); now split.
Qed.

Lemma step_background_renderTimer w e :
  background e -> forall tm, renderTimer (step w e) = Some tm -> renderTimer w = Some tm.
Proof.
  intros B tm. destruct e as [ms| | |i outcome|text|i]; simpl in B; try contradiction.
  - trivial.
  - unfold step, after. simpl. unfold mbind, Js_bind, read, update. simpl.
    destruct (dueArg (renderTimer w) (clock w)) as [s|]; simpl; [|trivial].
    rewrite renderLatex_eq. simpl. destruct (latexModule w); simpl; [|discriminate].
    unfold landed. destruct (latex_parse s); uncaught; simpl; discriminate.
  - destruct (step_AutoSaveTimerFires w) as [P _]. unfold pipeline in P.
    injection P as -> _ _ _ _ _. trivial.
  - destruct (suspended w !! i) as [r|] eqn:R.
    + rewrite (step_ImportSettles _ _ _ _ R). unfold landed.
      destruct outcome as [[]|err]; uncaught; simpl; [|trivial].
      destruct (latex_parse (src r)); uncaught; simpl; trivial.
    + now rewrite (step_ImportSettles_none _ _ _ R).
Qed.

Lemma carries_step w e : carries w -> carries (step w e).
Proof.
  intros H. destruct e as [ms| | |i outcome|text|i].
  1-4: match goal with |- carries (step _ ?e) =>
         destruct (step_background w e I) as (_ & D & T & _);
         pose proof (step_background_renderTimer w e I) as R end;
       destruct H as [HR HA]; split; intros tm Htm; rewrite D; auto.
  - rewrite step_EditorChanged. split; intros tm [= <-]; [now left|reflexivity].
  - destruct (find i (files (flush w))) as [f|] eqn:G.
    + destruct (step_OpenFile_found w i f G) as [tree ->].
      apply (carries_entered (flush w) f), carries_flush, H.
    + rewrite (step_OpenFile_missing w i G). now apply carries_flush.
Qed.

Lemma carries_boot st : legible st -> carries (boot st).
Proof.
  intros Hl. destruct (boot_eq st Hl) as [tree E]. cbv zeta in E. rewrite E. clear E.
  destruct (loadedCurrent st) as [c'|]; simpl.
  - destruct (find c' (loadedFiles st)) as [file|] eqn:F.
    + unfold dispatched. simpl.
      destruct (JsString.truthy DEFAULT_DOC || JsString.truthy (File.content file)) eqn:T;
        simpl; [split; intros tm [= <-]; [now right|reflexivity]|].
      discriminate T.
    + split; [intros tm [= <-]; now left|discriminate].
  - split; [intros tm [= <-]; now left|discriminate].
Qed.

(** On a legible storage, from the moment the module has run, a pending
    auto-save always carries the text the editor shows at that moment,
    and so does a pending render, up to the line breaks: the render that
    the startup code schedules carries the stored content, of which the
    editor shows the form with line feeds.  Loading a document into the
    editor restarts both timers with the new text, so a timer set while
    one document was open never fires with that document's text after
    another has been opened. *)
Theorem pending_timers_carry_the_editor_text st acts w :
  legible st -> performAll (boot st) acts = Some w -> carries w.
Proof.
  intros Hl. apply (performAll_invariant carries).
  - intros w0 e. apply carries_step.
  - intros w0 name folder templateKey rnd m H C.
    destruct (createFile_world w0 _ _ _ _ m C) as (content & f & tree & _ & G & ->).
    apply (carries_entered _ f), carries_flush. exact H.
  - now apply carries_boot.
Qed.

(** ** A due auto-save is a flush *)

(** When the auto-save timer carries the editor's text, its firing does
    exactly what the first statement of [openFile] does: it writes the
    editor's text into the current document and saves the collection; a
    timer that is not yet due does nothing. *)
Theorem due_autosave_is_a_flush w tm :
  autoSaveTimer w = Some tm -> arg tm = doc w ->
  step w AutoSaveTimerFires
  = if N.leb (due tm) (clock w) then flush (with_autoSaveTimer None w) else w.
Proof.
  intros T A. unfold step, after. simpl. unfold mbind, Js_bind, read, update. simpl.
  rewrite T. simpl. destruct (N.leb (due tm) (clock w)); [|reflexivity].
  simpl. rewrite autoSave_eq. simpl. unfold flush. simpl. now rewrite A.
Qed.

(** ** Documents are never removed or renamed *)

Lemma meta_setContent c t fs : map meta (setContent c t fs) = map meta fs.
Proof.
  induction fs as [|f r IH]; simpl; [reflexivity|].
  destruct (String.eqb (File.id f) c); simpl; [reflexivity|]. now rewrite IH.
Qed.

Lemma meta_flushed w : map meta (flushed w) = map meta (files w).
Proof.
  unfold flushed. destruct (orNull (currentFileId w)); [|reflexivity].
  destruct (find _ (files w)); [apply meta_setContent|reflexivity].
Qed.

Lemma meta_step w e : map meta (files (step w e)) = map meta (files w).
Proof.
  destruct e as [ms| | |i outcome|text|i].
  1-4: match goal with |- context [step _ ?e] =>
         destruct (step_background w e I) as (_ & _ & _ & [->|(c & tm & _ & _ & ->)]) end;
       [reflexivity|apply meta_setContent].
  - reflexivity.
  - destruct (find i (files (flush w))) as [f|] eqn:G.
    + destruct (step_OpenFile_found w i f G) as [tree ->]. simpl.
      destruct (entered_fields f (flush w)) as (_ & _ & F & _).
      rewrite F, files_flush. apply meta_flushed.
    + rewrite (step_OpenFile_missing w i G), files_flush. apply meta_flushed.
Qed.

Lemma meta_createFile w name folder templateKey rnd m :
  createFile name folder templateKey rnd = Some m ->
  exists content,
    resolveTemplate templateKey = Some content
    /\ map meta (files (after m w))
       = (map meta (files w)
            ++ [(JsString.toString36 (clock w) +:+ rnd, orUntitled (JsString.trim name),
                 Some (JsString.trim folder))])%list.
Proof.
  intros C. destruct (createFile_world w _ _ _ _ m C) as (content & f & tree & R & G & ->).
  exists content. split; [exact R|]. simpl.
  match goal with |- context [entered f ?x] => destruct (entered_fields f x) as (_ & _ & F & _) end.
  rewrite F, files_flush, meta_flushed. simpl. now rewrite map_app.
Qed.

(** No action removes, reorders or renames a document: after any list of
    actions the collection is the one from before, each document with the
    id, name and folder it had, followed by the documents created since.
    Only contents change. *)
Theorem documents_are_never_removed acts : forall w w',
  performAll w acts = Some w' ->
  exists created, map meta (files w') = (map meta (files w) ++ created)%list.
Proof.
  induction acts as [|a acts IH]; intros w w' E; simpl in E.
  - injection E as <-. exists []. now rewrite app_nil_r.
  - destruct a as [e|name folder templateKey rnd]; simpl in E.
    + destruct (IH _ _ E) as [created H]. exists created. now rewrite H, meta_step.
    + destruct (createFile name folder templateKey rnd) as [m|] eqn:C; [|discriminate].
      simpl in E. destruct (IH _ _ E) as [created H].
      destruct (meta_createFile w _ _ _ _ m C) as (content & _ & M).
      eexists. rewrite H, M, <- app_assoc. reflexivity.
Qed.

(** ** Storage follows memory, and a reload restores the session *)

Lemma accepting_put k v st : accepting st -> accepting (put k v st).
Proof.
  intros [A B]. unfold put. rewrite A, B. simpl. now split.
Qed.

Lemma accepting_storedCurrent cur st : accepting st -> accepting (storedCurrent cur st).
Proof.
  intros [A B]. unfold storedCurrent. destruct (orNull cur); [now apply accepting_put|].
  unfold del. rewrite A. now split.
Qed.

Lemma accepting_put_lookup k v st : accepting st -> items (put k v st) !! k = Some v.
Proof. intros [A B]. unfold put. rewrite A, B. simpl. apply lookup_insert_eq. Qed.

Lemma storedCurrent_lookup cur st :
  accepting st -> items (storedCurrent cur st) !! CURRENT_KEY = orNull cur.
Proof.
  intros H. unfold storedCurrent. destruct (orNull cur) as [i|].
  - now apply accepting_put_lookup.
  - destruct H as [A _]. unfold del. rewrite A. simpl. apply lookup_delete_eq.
Qed.

Lemma inStep_saved fs w :
  accepting (localStorage w) ->
  items (localStorage w) !! CURRENT_KEY = orNull (currentFileId w) ->
  inStep (saved fs JSON_stringify w).
Proof.
  intros A C. unfold inStep, synced, saved. simpl. split; [now apply accepting_put|]. split.
  - now apply accepting_put_lookup.
  - rewrite put_other by discriminate. exact C.
Qed.

Lemma inStep_flush w : inStep w -> inStep (flush w).
Proof.
  intros H. pose proof H as [A [S C]]. unfold flush.
  destruct (orNull (currentFileId w)) as [c|] eqn:O; [|exact H].
  destruct (find c (files w)); [|exact H].
  apply inStep_saved; [exact A|]. now rewrite O.
Qed.

Lemma inStep_entered w f :
  accepting (localStorage w) ->
  items (localStorage w) !! STORAGE_KEY = Some (JSON_stringify (files w)) ->
  inStep (entered f w).
Proof.
  intros A S. destruct (entered_fields f w) as (C & _ & F & K).
  assert (L : localStorage (entered f w) = storedCurrent (Some (File.id f)) (localStorage w)).
  { unfold entered, dispatched. simpl.
    now destruct (JsString.truthy (doc w) || JsString.truthy (File.content f)). }
  unfold inStep, synced. rewrite L, F, C. split; [now apply accepting_storedCurrent|]. split.
  - now rewrite storedCurrent_files.
  - now apply storedCurrent_lookup.
Qed.

Lemma inStep_background w e : background e -> inStep w -> inStep (step w e).
Proof.
  intros B H. pose proof H as [A [S C]].
  destruct e as [ms| | |i outcome|text|i]; simpl in B; try contradiction.
  - exact H.
  - unfold step, after. simpl. unfold mbind, Js_bind, read, update. simpl.
    destruct (dueArg (renderTimer w) (clock w)) as [s|]; simpl; [|exact H].
    pose proof (renderLatex_session s (with_renderTimer None w)) as E.
    unfold after, session in E. simpl in E. injection E as E1 E2 E3 _ _.
    unfold inStep, synced. rewrite E1, E2, E3. exact H.
  - unfold step, after. simpl. unfold mbind, Js_bind, read, update. simpl.
    destruct (dueArg (autoSaveTimer w) (clock w)) as [s|]; simpl; [|exact H].
    rewrite autoSave_eq. simpl.
    destruct (orNull (currentFileId w)) as [c|] eqn:O; [|exact H].
    destruct (find c (files w)); [|exact H].
    apply (inStep_saved _ (with_autoSaveTimer None w)); [exact A|]. simpl. now rewrite O.
  - destruct (suspended w !! i) as [r|] eqn:R.
    + rewrite (step_ImportSettles _ _ _ _ R).
      pose proof (landed_session (src r) outcome (with_suspended (delete i (suspended w)) w)) as E.
      unfold session in E. simpl in E. injection E as E1 E2 E3 _ _.
      unfold inStep, synced. rewrite E1, E2, E3. exact H.
    + rewrite (step_ImportSettles_none _ _ _ R). exact H.
Qed.

Lemma inStep_step w e : inStep w -> inStep (step w e).
Proof.
  intros H. destruct e as [ms| | |i outcome|text|i].
  1-4: apply inStep_background; [exact I|exact H].
  - rewrite step_EditorChanged. exact H.
  - pose proof (inStep_flush w H) as H'. pose proof H' as [A [S C]].
    destruct (find i (files (flush w))) as [f|] eqn:G.
    + destruct (step_OpenFile_found w i f G) as [tree ->].
      exact (inStep_entered (flush w) f A S).
    + rewrite (step_OpenFile_missing w i G). exact H'.
Qed.

(** [createFile] brings both records up to date, whatever they held. *)
Lemma inStep_createFile w name folder templateKey rnd m :
  accepting (localStorage w) ->
  createFile name folder templateKey rnd = Some m -> inStep (after m w).
Proof.
  intros A C. destruct (createFile_world w _ _ _ _ m C) as (content & f & tree & _ & G & ->).
  cbv zeta in G.
  set (file := File.mk _ _ _ _) in *.
  set (wb := saved (files w ++ [file])%list JSON_stringify w) in *.
  assert (Ab : accepting (localStorage wb)) by (unfold wb, saved; simpl; now apply accepting_put).
  assert (Sb : items (localStorage wb) !! STORAGE_KEY = Some (JSON_stringify (files wb)))
    by (unfold wb, saved; simpl; now apply accepting_put_lookup).
  assert (F : accepting (localStorage (flush wb))
              /\ items (localStorage (flush wb)) !! STORAGE_KEY
                 = Some (JSON_stringify (files (flush wb)))).
  { unfold flush. destruct (orNull (currentFileId wb)); [|now split].
    destruct (find _ (files wb)); [|now split].
    unfold saved. simpl. split; [now apply accepting_put|now apply accepting_put_lookup]. }
  destruct F as [Af Sf]. exact (inStep_entered (flush wb) f Af Sf).
Qed.

(** On a medium that takes every write, storage follows memory: once the
    files record and the current-id record are those of the session, they
    are so again after any list of actions, since every change of a
    content is followed by [saveFiles] and every change of the current id
    by [saveCurrentId]. *)
Theorem storage_follows_memory acts w w' :
  accepting (localStorage w) -> synced w ->
  performAll w acts = Some w' ->
  synced w' /\ accepting (localStorage w').
Proof.
  intros A S E.
  assert (H : inStep w') by
    (apply (performAll_invariant inStep) with (acts := acts) (w := w);
     [intros; now apply inStep_step
     |intros w0 name folder templateKey rnd m [A0 _] C;
      exact (inStep_createFile w0 name folder templateKey rnd m A0 C)
     |now split|exact E]).
  destruct H as [A' S']. now split.
Qed.

(** Reloading the page restores a session whose records are in storage:
    the startup code reads back the same collection, makes the same
    document current, and loads that document's stored content into the
    editor, which shows it with its line breaks as line feeds (the
    default document when none is current).  The JSON codec is assumed
    to read back what it wrote for this collection. *)
Theorem reload_restores_the_session w :
  available (localStorage w) = true -> synced w -> attached w ->
  JSON_parse (JSON_stringify (files w)) = Documents (files w) ->
  JSON_stringify (files w) <> "" ->
  let w' := boot (localStorage w) in
  files w' = files w
  /\ currentFileId w' = orNull (currentFileId w)
  /\ (forall c, orNull (currentFileId w) = Some c ->
        Some (doc w') = JsString.normalise <$> contentOf c w)
  /\ (orNull (currentFileId w) = None -> doc w' = DEFAULT_DOC).
Proof.
  intros A [S C] H P N w'.
  assert (T : orNull (Some (JSON_stringify (files w))) = Some (JSON_stringify (files w)))
    by (apply truthy_true in N; simpl; now rewrite N).
  assert (LF : loadedFiles (localStorage w) = files w).
  { unfold loadedFiles. now rewrite A, S, T, P. }
  assert (LG : legible (localStorage w)).
  { unfold legible, held. now rewrite A, S, T, P. }
  assert (LC : loadedCurrent (localStorage w) = orNull (currentFileId w)).
  { unfold loadedCurrent. rewrite A, C. apply orNull_idem. }
  destruct (boot_eq (localStorage w) LG) as [tree E]. cbv zeta in E.
  unfold w'. rewrite E, LF, LC. clear E.
  destruct (orNull (currentFileId w)) as [c|] eqn:O.
  - apply orNull_Some in O as [O _]. destruct (H c O) as [f F]. rewrite F.
    unfold dispatched, contentOf. simpl.
    destruct (JsString.truthy DEFAULT_DOC || JsString.truthy (File.content f)); simpl.
    all: repeat split; try discriminate; intros c' [= <-]; now rewrite F.
  - simpl. repeat split; discriminate.
Qed.

(** ** The auto-save debounce *)

Lemma step_background_session w e :
  background e -> e <> AutoSaveTimerFires -> session (step w e) = session w.
Proof.
  intros B Hne. destruct e as [ms| | |i outcome|text|i]; simpl in B; try contradiction.
  - reflexivity.
  - unfold step, after. simpl. unfold mbind, Js_bind, read, update. simpl.
    destruct (dueArg (renderTimer w) (clock w)) as [s|]; simpl; [|reflexivity].
    apply (renderLatex_session s (with_renderTimer None w)).
  - destruct (suspended w !! i) as [r|] eqn:R.
    + rewrite (step_ImportSettles _ _ _ _ R).
      apply (landed_session (src r) outcome (with_suspended (delete i (suspended w)) w)).
    + now rewrite (step_ImportSettles_none _ _ _ R).
Qed.

Lemma step_AutoSaveTimerFires_early w d s :
  autoSaveTimer w = Some (mkTimer d s) -> (clock w < d)%N -> step w AutoSaveTimerFires = w.
Proof.
  intros T L. unfold step, after. simpl. unfold mbind, Js_bind, read, update. simpl.
  now rewrite T, dueArg_early.
Qed.

(** Until the pending auto-save is due, background events write nothing. *)
Lemma quiet_autosave d s gap : forall w,
  autoSaveTimer w = Some (mkTimer d s) ->
  Forall background gap -> (clock w + elapsed gap < d)%N ->
  session (run w gap) = session w
  /\ clock (run w gap) = (clock w + elapsed gap)%N.
Proof.
  induction gap as [|e gap IH]; intros w T B L.
  - simpl in *. split; [reflexivity|lia].
  - apply Forall_cons in B as [Be Bg].
    pose proof (step_clock w e Be) as C.
    assert (E : (elapsed (e :: gap) = elapsed [e] + elapsed gap)%N)
      by (destruct e; simpl; lia).
    assert (S : session (step w e) = session w).
    { assert (D : e = AutoSaveTimerFires \/ e <> AutoSaveTimerFires)
        by (destruct e; (now left) || (right; discriminate)).
      destruct D as [->|Hne].
      - rewrite (step_AutoSaveTimerFires_early w d s T); [reflexivity|]. simpl in L. lia.
      - now apply step_background_session. }
    destruct (IH (step w e)) as [S' C']; [|exact Bg|lia|].
    + unfold session in S. injection S as _ _ _ _ ->. exact T.
    + simpl run. split; [congruence|]. rewrite C'. lia.
Qed.

(** The auto-save is debounced by one second.  After a change of the
    text, nothing is written to the collection or to storage for as long
    as less than 1000 ms have passed, whatever else happens in the
    background; once 1000 ms have passed and the timer fires, the current
    document holds the changed text. *)
Theorem autosave_waits_a_quiet_second w T gap ms c :
  Forall background gap -> (elapsed gap < 1000)%N -> (1000 <= elapsed gap + ms)%N ->
  orNull (currentFileId w) = Some c -> is_Some (find c (files w)) ->
  let w1 := run (step w (EditorChanged T)) gap in
  files w1 = files w
  /\ localStorage w1 = localStorage w
  /\ contentOf c (step (step w1 (Elapse ms)) AutoSaveTimerFires) = Some T.
Proof.
  intros B L1 L2 O [f F] w1.
  destruct (quiet_autosave (clock w + 1000) T gap (step w (EditorChanged T))) as [S C];
    [reflexivity|exact B|simpl; lia|].
  fold w1 in S, C. unfold session in S. simpl in S, C.
  injection S as S1 S2 S3 S4 S5.
  split; [exact S1|]. split; [exact S3|].
  rewrite (due_autosave_is_a_flush (step w1 (Elapse ms)) (mkTimer (clock w + 1000) T)).
  - simpl. replace (N.leb (clock w + 1000) (clock w1 + ms)) with true
      by (symmetry; apply N.leb_le; lia).
    unfold contentOf. rewrite files_flush. unfold flushed. simpl.
    rewrite S2, O, S1, F, S4, find_setContent, F, String.eqb_refl. reflexivity.
  - exact S5.
  - simpl. now rewrite S4.
Qed.

(** ** A change of the text reaches the preview *)

(** After a change of the text, once at least 450 ms have passed and the
    render timer fires, [renderLatex] runs on the changed text.  With the
    latex.js module cached the result is on the page in the same turn;
    otherwise the call waits, last in line, for its import, and when that
    settles the page shows the rendering of the changed text, or the
    import's error.  (Only a thrown [null] or [undefined] leaves the page
    as it was.) *)
Theorem a_change_reaches_the_preview w T ms :
  (450 <= ms)%N ->
  let w1 := run w [EditorChanged T; Elapse ms; RenderTimerFires] in
  let n := length (suspended w) in
  (latexModule w = true ->
   liveResult w1 = rendering T (liveResult w) /\ suspended w1 = suspended w)
  /\ (latexModule w = false ->
      suspended w1 = (suspended w ++ [mkSuspended T (currentFileId w)])%list
      /\ liveResult (step w1 (ImportSettles n (Normal tt))) = rendering T (liveResult w)
      /\ forall e, liveResult (step w1 (ImportSettles n (Throw e)))
                   = reported e (liveResult w)).
Proof.
  intros L w1 n.
  assert (E : w1 = after (renderLatex T)
                     (with_renderTimer None
                        (with_clock (clock w + ms) (step w (EditorChanged T))))).
  { unfold w1, run. simpl. unfold step at 1, after at 1. simpl.
    unfold mbind, Js_bind, read, update. simpl.
    replace (N.leb (clock w + 450) (clock w + ms)) with true
      by (symmetry; apply N.leb_le; lia).
    reflexivity. }
  unfold after in E. rewrite renderLatex_eq in E. simpl in E.
  split; intros M; rewrite M in E.
  - rewrite E. unfold landed, rendering.
    destruct (latex_parse T) as [e|d]; [|now split].
    split; [now rewrite liveResult_caught|uncaught; reflexivity].
  - assert (S : suspended w1 = (suspended w ++ [mkSuspended T (currentFileId w)])%list)
      by now rewrite E.
    assert (R : suspended w1 !! n = Some (mkSuspended T (currentFileId w))).
    { rewrite S. unfold n. rewrite lookup_app_r by lia. now rewrite Nat.sub_diag. }
    split; [exact S|]. split.
    + rewrite (step_ImportSettles _ _ _ _ R). unfold landed, rendering. cbn [src].
      destruct (latex_parse T); [rewrite liveResult_caught|]; now rewrite E.
    + intros e. rewrite (step_ImportSettles _ _ _ _ R). unfold landed.
      now rewrite liveResult_caught, E.
Qed.

(** ** The latex.js module is imported once *)

Lemma pipeline_flush w : pipeline (flush w) = pipeline w.
Proof.
  unfold flush. destruct (orNull (currentFileId w)); [|reflexivity].
  now destruct (find _ (files w)).
Qed.

Lemma entered_waiting f w :
  latexModule (entered f w) = latexModule w /\ suspended (entered f w) = suspended w.
Proof.
  unfold entered, dispatched. simpl.
  now destruct (JsString.truthy (doc w) || JsString.truthy (File.content f)).
Qed.

(** Once the module is cached, no step makes a render wait. *)
Lemma cached_step w e :
  latexModule w = true ->
  latexModule (step w e) = true /\ suspended (step w e) `sublist_of` suspended w.
Proof.
  intros M. destruct e as [ms| | |i outcome|text|i].
  - now split.
  - unfold step, after. simpl. unfold mbind, Js_bind, read, update. simpl.
    destruct (dueArg (renderTimer w) (clock w)) as [s|]; simpl; [|now split].
    rewrite renderLatex_eq. simpl. rewrite M. unfold landed.
    destruct (latex_parse s); uncaught; simpl; now split.
  - destruct (step_AutoSaveTimerFires w) as [P _]. unfold pipeline in P.
    injection P as _ -> -> _ _ _. now split.
  - destruct (suspended w !! i) as [r|] eqn:R.
    + rewrite (step_ImportSettles _ _ _ _ R). unfold landed.
      destruct outcome as [[]|err]; uncaught; simpl.
      * destruct (latex_parse (src r)); uncaught; simpl; (split; [reflexivity|apply sublist_delete]).
      * split; [exact M|apply sublist_delete].
    + rewrite (step_ImportSettles_none _ _ _ R). now split.
  - now split.
  - destruct (find i (files (flush w))) as [f|] eqn:G.
    + destruct (step_OpenFile_found w i f G) as [tree ->]. simpl.
      destruct (entered_waiting f (flush w)) as [-> ->].
      pose proof (pipeline_flush w) as P. unfold pipeline in P.
      injection P as _ -> -> _ _ _. now split.
    + rewrite (step_OpenFile_missing w i G).
      pose proof (pipeline_flush w) as P. unfold pipeline in P.
      injection P as _ -> -> _ _ _. now split.
Qed.

(** [getLatex] imports the module once.  A render whose import succeeds
    caches the module, and from then on no action ever makes a render
    wait for an import again: every later [renderLatex] compiles in the
    turn in which its timer fires, and the renders still waiting can only
    become fewer. *)
Theorem module_is_imported_once w i r acts w' :
  suspended w !! i = Some r ->
  performAll (step w (ImportSettles i (Normal tt))) acts = Some w' ->
  latexModule w' = true
  /\ suspended w' `sublist_of` delete i (suspended w).
Proof.
  intros R E.
  set (w0 := step w (ImportSettles i (Normal tt))) in *.
  assert (H0 : latexModule w0 = true /\ suspended w0 `sublist_of` delete i (suspended w)).
  { unfold w0. rewrite (step_ImportSettles _ _ _ _ R). unfold landed.
    destruct (latex_parse (src r)); uncaught; simpl; now split. }
  revert E. apply (performAll_invariant
    (fun x => latexModule x = true /\ suspended x `sublist_of` delete i (suspended w))).
  - intros x e [M S]. destruct (cached_step x e M) as [M' S']. split; [exact M'|].
    now transitivity (suspended x).
  - intros x name folder templateKey rnd m [M S] C.
    destruct (createFile_world x _ _ _ _ m C) as (content & f & tree & _ & _ & ->). simpl.
    match goal with |- context [entered f ?y] =>
      destruct (entered_waiting f y) as [-> ->];
      pose proof (pipeline_flush (saved (files x ++ [File.mk (JsString.toString36 (clock x) +:+ rnd)
          (orUntitled (JsString.trim name)) (Some (JsString.trim folder)) content])%list
          JSON_stringify x)) as P
    end.
    unfold pipeline in P. injection P as _ -> -> _ _ _. now split.
  - exact H0.
Qed.

(** ** What the startup code leaves *)

(** After the module has run on a legible storage, the collection is
    the one read from storage.  If a document is current, its id is not
    empty, it is in the collection, the editor shows its content with the
    line breaks as line feeds, and the render that is scheduled, 450 ms
    from the start, is for the content as it is stored.  Otherwise the
    editor shows the default document and the render is for that. *)
Theorem startup_shows_the_current_document st :
  legible st ->
  let w := boot st in
  files w = loadedFiles st
  /\ (forall c, currentFileId w = Some c ->
        c <> ""
        /\ exists f, find c (files w) = Some f
             /\ doc w = JsString.normalise (File.content f)
             /\ renderTimer w = Some (mkTimer 450 (File.content f)))
  /\ (currentFileId w = None ->
      doc w = DEFAULT_DOC /\ renderTimer w = Some (mkTimer 450 DEFAULT_DOC)).
Proof.
  intros Hl. destruct (boot_eq st Hl) as [tree E]. cbv zeta in *. rewrite E. clear E.
  destruct (loadedCurrent st) as [c'|] eqn:L.
  - assert (N : c' <> "").
    { unfold loadedCurrent in L. destruct (available st); [|discriminate].
      now apply orNull_Some in L. }
    destruct (find c' (loadedFiles st)) as [file|] eqn:F.
    + unfold dispatched. simpl.
      destruct (JsString.truthy DEFAULT_DOC || JsString.truthy (File.content file)) eqn:T;
        [|discriminate T].
      simpl. split; [reflexivity|]. split; [|discriminate].
      intros c [= <-]. split; [exact N|]. exists file. now rewrite F.
    + simpl. split; [reflexivity|]. split; [discriminate|]. intros _. now split.
  - simpl. split; [reflexivity|]. split; [discriminate|]. intros _. now split.
Qed.

(** ** Clicking the document that is already open *)

(** Opening the current document again loses nothing: the editor's text
    is first written into the document and then loaded back, so the
    editor shows what it showed (the editor holds a text with its line
    breaks as line feeds, and that is the form it shows), the document
    now holds that text, and it is still the current one. *)
Theorem reopening_the_current_document w c :
  c <> "" -> currentFileId w = Some c -> is_Some (find c (files w)) ->
  let w' := step w (OpenFile c) in
  doc w' = JsString.normalise (doc w)
  /\ (JsString.normalise (doc w) = doc w -> doc w' = doc w)
  /\ contentOf c w' = Some (doc w)
  /\ currentFileId w' = Some c.
Proof.
  intros N C [f F] w'.
  assert (L : flush w = saved (setContent c (doc w) (files w)) JSON_stringify w).
  { unfold flush. now rewrite C, (orNull_nonempty c N), F. }
  assert (G : find c (files (flush w))
              = Some (File.mk (File.id f) (File.name f) (File.folder f) (doc w))).
  { rewrite L. simpl. now rewrite find_setContent, F, String.eqb_refl. }
  destruct (step_OpenFile_found w c _ G) as [tree E]. unfold w'. rewrite E.
  match goal with |- context [entered ?g ?y] =>
    destruct (entered_fields g y) as (C' & D' & F' & _) end.
  unfold contentOf. simpl. rewrite C', D', F', G. simpl.
  split; [reflexivity|]. split; [now intros ->|]. split; [reflexivity|].
  now rewrite (find_id _ _ _ F).
Qed.

(** ** The New Document dialog *)

Lemma setChecked_lookup i b rs j :
  Dialog.setChecked i b rs !! j
  = (fun r => Dialog.mkRadio (Dialog.value r)
                (if Nat.eqb j i then b else if b then false else Dialog.checked r))
      <$> rs !! j.
Proof. unfold Dialog.setChecked. apply list_lookup_imap. Qed.

Lemma resetRadios_prefix rs n :
  n <= length rs ->
  let acc := foldl (fun acc i =>
                      match acc !! i with
                      | Some r => Dialog.setChecked i (String.eqb (Dialog.value r) "blank") acc
                      | None => acc
                      end) rs (seq 0 n) in
  length acc = length rs
  /\ forall j r, acc !! j = Some r -> Dialog.checked r = true ->
       Dialog.value r = "blank" \/ n <= j.
Proof.
  clear. induction n as [|n IH]; intros L; cbv zeta.
  - simpl. split; [reflexivity|]. intros. right. lia.
  - rewrite seq_S, foldl_app. simpl.
    destruct IH as [Len I]; [lia|].
    set (acc := foldl _ rs (seq 0 n)) in *.
    destruct (acc !! n) as [r|] eqn:R.
    + split.
      * unfold Dialog.setChecked. now rewrite length_imap.
      * intros j r' J C. rewrite setChecked_lookup in J.
        destruct (acc !! j) as [r0|] eqn:R0; [|discriminate]. simpl in J.
        injection J as <-. simpl in *.
        destruct (Nat.eqb_spec j n) as [->|Nj].
        -- rewrite R in R0. injection R0 as <-. left. now apply String.eqb_eq.
        -- destruct (String.eqb (Dialog.value r) "blank"); [discriminate|].
           destruct (I j r0 R0 C) as [B|G]; [now left|right; lia].
    + apply lookup_ge_None in R. lia.
Qed.

Lemma resetRadios_checked rs r :
  r ∈ Dialog.resetRadios rs -> Dialog.checked r = true -> Dialog.value r = "blank".
Proof.
  clear. intros [j J]%list_elem_of_lookup_1 C.
  destruct (resetRadios_prefix rs (length rs) (le_n _)) as [Len I].
  fold (Dialog.resetRadios rs) in Len, I.
  destruct (I j r J C) as [B|G]; [exact B|].
  apply lookup_lt_Some in J. lia.
Qed.

Lemma chosenTemplate_shown d :
  Dialog.chosenTemplate (Dialog.showNewDocDialog d) = "blank".
Proof.
  clear. unfold Dialog.chosenTemplate. simpl.
  destruct (List.find Dialog.checked (Dialog.resetRadios (Dialog.radios d))) as [r|] eqn:F;
    [|reflexivity].
  apply find_some in F as [M C]. apply list_elem_of_In in M.
  now rewrite (resetRadios_checked _ _ M C).
Qed.

(** The dialog never carries over what it held before.  Opening it
    empties both fields and checks the blank template only, so that
    pressing Create straight away hides the dialog and creates a document
    named Untitled, in no folder, from the blank template, whatever was
    typed or chosen the last time and whichever templates the page
    offers. *)
Theorem new_dialog_starts_from_the_defaults (d : Dialog.t) (rnd : string) (w : World) :
  let d0 := Dialog.showNewDocDialog d in
  exists m,
    btnCreateDoc d0 rnd = (Dialog.hideNewDocDialog d0, Some m)
    /\ createFile "" "" "blank" rnd = Some m
    /\ resolveTemplate "blank" = Some TEMPLATE_blank
    /\ map meta (files (after m w))
       = (map meta (files w)
            ++ [(JsString.toString36 (clock w) +:+ rnd, "Untitled", Some "")])%list.
Proof.
  cbv zeta. unfold btnCreateDoc. rewrite chosenTemplate_shown. simpl.
  destruct (createFile "" "" "blank" rnd) as [m|] eqn:C.
  - exists m. split; [reflexivity|]. split; [reflexivity|]. split; [reflexivity|].
    destruct (meta_createFile w _ _ _ _ m C) as (content & _ & M). exact M.
  - unfold createFile in C. discriminate C.
Qed.

(** ** The first revision *)

Lemma DEFAULT_DOC_truthy : JsString.truthy DEFAULT_DOC = true.
Proof. reflexivity. Qed.

(** The default document is written with line feeds. *)
Lemma DEFAULT_DOC_normal : JsString.normalise DEFAULT_DOC = DEFAULT_DOC.
Proof. vm_compute. reflexivity. Qed.

(** In the first revision a source that does not compile leaves the
    preview as it was.  Some 450 ms after the text was typed, or put
    there by the New button, it is in the editor and it is compiled; the
    preview shows its page if it compiles and the previous render if it
    does not, and likewise when the compiler has to be imported first and
    the import fails. *)
Theorem first_revision_keeps_the_last_good_render
    (p : Part000.Page) (e : Part000.Event) (T : string) (ms : N) :
  Part000.edit e = Some T -> (450 <= ms)%N ->
  let p1 := Part000.run latex_parse outerHTML p
              [e; Part000.Elapse ms; Part000.RenderTimerFires] in
  let shows (o : Completion unit) :=
    match o, latex_parse T with
    | Normal _, inr d => Part000.assemble outerHTML d
    | _, _ => Part000.srcdoc p
    end in
  Part000.doc p1 = T
  /\ Part000.renderTimer p1 = None
  /\ (Part000.latexModule p = true -> Part000.srcdoc p1 = shows (Normal tt))
  /\ (Part000.latexModule p = false ->
      Part000.srcdoc p1 = Part000.srcdoc p
      /\ forall o,
           Part000.srcdoc
             (Part000.step latex_parse outerHTML p1
                (Part000.ImportSettles (length (Part000.suspended p)) o))
           = shows o).
Proof.
  intros E L. cbv zeta.
  assert (S1 : Part000.step latex_parse outerHTML p e
               = Part000.mkPage T (Some (mkTimer (Part000.clock p + 450) T))
                   (Part000.latexModule p) (Part000.suspended p) (Part000.srcdoc p)
                   (Part000.clock p)).
  { destruct e; try discriminate; injection E as <-; simpl; [reflexivity|].
    unfold Part000.dispatch. now rewrite DEFAULT_DOC_normal, DEFAULT_DOC_truthy, orb_true_r. }
  unfold Part000.run. cbn [foldl]. rewrite S1. clear S1.
  cbn [Part000.step Part000.renderTimer Part000.clock due arg Part000.doc
       Part000.latexModule Part000.suspended Part000.srcdoc].
  destruct (N.leb_spec (Part000.clock p + 450) (Part000.clock p + ms)) as [_|G]; [|lia].
  unfold Part000.renderLatex. cbn [Part000.latexModule].
  destruct (Part000.latexModule p) eqn:M.
  - unfold Part000.renderLatex_resume.
    destruct (latex_parse T); uncaught; simpl; repeat split; discriminate.
  - simpl. split; [reflexivity|]. split; [reflexivity|]. split; [discriminate|].
    intros _. split; [reflexivity|]. intros o.
    rewrite lookup_app_r by lia. rewrite Nat.sub_diag. simpl.
    unfold Part000.renderLatex_resume.
    destruct o as [[]|err]; [|reflexivity]. now destruct (latex_parse T).
Qed.

Lemma first_revision_step (p : Part000.Page) (e : Part000.Event) :
  let kept q :=
    (forall tm, Part000.renderTimer q = Some tm -> arg tm = Part000.doc q)
    /\ (Part000.srcdoc q = ""
        \/ exists s d, latex_parse s = inr d
                       /\ Part000.srcdoc q = Part000.assemble outerHTML d) in
  kept p -> kept (Part000.step latex_parse outerHTML p e).
Proof.
  intros kept [A B].
  assert (R : forall s o q, kept q -> kept (Part000.renderLatex_resume latex_parse outerHTML s o q)).
  { intros s o q [A' B']. unfold Part000.renderLatex_resume.
    destruct o as [[]|err]; [|now split].
    destruct (latex_parse s) as [err|d] eqn:P; split; simpl; try assumption.
    right. now exists s, d. }
  assert (K : kept p) by (split; assumption).
  destruct e as [ms| |i o|text|]; cbn [Part000.step].
  - exact K.
  - destruct (Part000.renderTimer p) as [tm|] eqn:Tm; [|exact K].
    destruct (N.leb (due tm) (Part000.clock p)); [|exact K].
    unfold Part000.renderLatex. cbn [Part000.latexModule].
    destruct (Part000.latexModule p).
    + apply R. split; [discriminate|exact B].
    + split; [discriminate|exact B].
  - destruct (Part000.suspended p !! i); [|exact K].
    apply R. exact K.
  - split; [|exact B]. now intros tm [= <-].
  - unfold Part000.dispatch. rewrite DEFAULT_DOC_normal, DEFAULT_DOC_truthy, orb_true_r.
    split; [|exact B]. now intros tm [= <-].
Qed.

(** In the first revision the pending render is always for the text the
    editor shows, and the preview never holds anything but the page of a
    source that compiled: it is empty until the first such render. *)
Theorem first_revision_renders_what_the_editor_shows (es : list Part000.Event) :
  let p := Part000.run latex_parse outerHTML Part000.initial es in
  (forall tm, Part000.renderTimer p = Some tm -> arg tm = Part000.doc p)
  /\ (Part000.srcdoc p = ""
      \/ exists s d, latex_parse s = inr d
                     /\ Part000.srcdoc p = Part000.assemble outerHTML d).
Proof.
  cbv zeta. induction es as [|e es IH] using rev_ind.
  - split; [now intros tm [= <-]|now left].
  - unfold Part000.run. rewrite foldl_app. cbn [foldl].
    apply (first_revision_step _ e). exact IH.
Qed.

End Latte.

(** ** The statements on the sample data *)

Local Abbreviation started := (boot Sample.parse Sample.storage).

(** C6 on a full medium: nothing is thrown and nothing changes. *)
Lemma rejected_save_is_silent_witness :
  let w := Sample.world (mkStorage ∅ true Sample.full) Sample.docs (Some "a") "text" in
  saveFiles Sample.stringify w = (Normal tt, w)
  /\ fst (saveCurrentId w) = Normal tt
  /\ files (after saveCurrentId w) = files w
  /\ currentFileId (after saveCurrentId w) = currentFileId w
  /\ (forall i, find i (files (after (saveFiles Sample.stringify) w)) = find i (files w))
  /\ (forall i, find i (files (after saveCurrentId w)) = find i (files w)).
Proof.
  intros w. apply (rejected_save_is_silent Sample.stringify w).
  right. reflexivity.
Defined.

(** C5 on the damaged storage. *)
Lemma load_of_corrupted_store_witness :
  let w := initialPage Sample.damaged in
  corrupted Sample.parse (localStorage w)
  /\ fst (loadFiles Sample.parse w) = Normal Collection
  /\ files (after (loadFiles Sample.parse) w) = []
  /\ currentFileId (after (loadFiles Sample.parse) w) = loadedCurrent (localStorage w)
  /\ fst (startup Sample.parse w) = Normal Ready
  /\ files (after (startup Sample.parse) w) = []
  /\ currentFileId (after (startup Sample.parse) w) = None.
Proof.
  intros w.
  assert (H : corrupted Sample.parse (localStorage w)).
  { right. exists "{not json". split; reflexivity. }
  split; [exact H|]. exact (load_of_corrupted_store Sample.parse w H).
Defined.

(** C5 as stated fails: the files record is unparseable, and [loadFiles]
    still leaves the stored current id in memory. *)
Lemma load_keeps_the_stored_current_id :
  Sample.parse "{not json" = Thrown
  /\ items (localStorage (initialPage Sample.damaged)) !! STORAGE_KEY = Some "{not json"
  /\ files (after (loadFiles Sample.parse) (initialPage Sample.damaged)) = []
  /\ currentFileId (after (loadFiles Sample.parse) (initialPage Sample.damaged)) = Some "k1".
Proof. repeat split. Qed.

(** C4 on the started session, with an edit pending: the id is unknown. *)
Lemma open_missing_only_flushes_witness :
  let w := step Sample.stringify Sample.compile Sample.html started (EditorChanged "edited") in
  find "zzz" (files w) = None
  /\ openFile Sample.stringify "zzz" w = (Normal tt, flush Sample.stringify w)
  /\ currentFileId (flush Sample.stringify w) = currentFileId w
  /\ doc (flush Sample.stringify w) = doc w
  /\ contentOf "b" (flush Sample.stringify w) = contentOf "b" w.
Proof.
  intros w.
  assert (H : find "zzz" (files w) = None) by reflexivity.
  destruct (open_missing_only_flushes Sample.stringify w "zzz" H)
    as (E & _ & C & D & _ & _ & _ & _ & O & _).
  split; [exact H|]. split; [exact E|]. split; [exact C|]. split; [exact D|].
  unfold contentOf. rewrite O; [reflexivity|discriminate].
Defined.

(** C4 as stated fails: the id names no document, and yet [openFile]
    rewrites the current document in memory and in storage. *)
Lemma open_missing_flushes_the_current_document :
  let w := step Sample.stringify Sample.compile Sample.html started (EditorChanged "edited") in
  let w' := after (openFile Sample.stringify "zzz") w in
  find "zzz" (files w) = None
  /\ contentOf "a" w = Some "\documentclass{article} A"
  /\ contentOf "a" w' = Some "edited"
  /\ items (localStorage w) !! STORAGE_KEY
     = Some "[{a|Alpha|Notes|\documentclass{article} A},{b|Beta||\documentclass{article} B}]"
  /\ items (localStorage w') !! STORAGE_KEY
     = Some "[{a|Alpha|Notes|edited},{b|Beta||\documentclass{article} B}]".
Proof. vm_compute. repeat split. Qed.

(** C10 on a first run: edits and both timers, and no document current. *)
Lemma autosave_without_current_is_noop_witness :
  let w := after (startup Sample.parse) (initialPage (mkStorage ∅ true Sample.roomy)) in
  let es := [EditorChanged "one"; Elapse 500; RenderTimerFires; EditorChanged "two";
             Elapse 1000; AutoSaveTimerFires; ImportSettles 0 (Normal tt)] in
  currentFileId w = None
  /\ files (run Sample.stringify Sample.compile Sample.html w es) = files w
  /\ localStorage (run Sample.stringify Sample.compile Sample.html w es) = localStorage w
  /\ currentFileId (run Sample.stringify Sample.compile Sample.html w es) = None
  /\ (forall source, autoSave Sample.stringify source w = (Normal tt, w)).
Proof.
  intros w es. split; [reflexivity|].
  apply (autosave_without_current_is_noop Sample.stringify Sample.compile Sample.html w es).
  - reflexivity.
  - repeat constructor.
Defined.

(** C8 on two sources the sample compiler rejects, one with an error
    that has a message and one with an error that has the empty
    message. *)
Lemma compile_failure_is_reported_witness :
  let w' := after (renderLatex_resume Sample.compile Sample.html "Hello" (Normal tt)) started in
  let w0 := after (renderLatex_resume Sample.compile Sample.html "" (Normal tt)) started in
  Sample.compile "Hello" = inl (mkError (Text "no document class") "Error: no document class")
  /\ liveResult w' = Failure "no document class"
  /\ Sample.compile "" = inl (mkError (Text "") "Error")
  /\ liveResult w0 = Failure "Error"
  /\ session w' = session started
  /\ liveResult (after (renderLatex_resume Sample.compile Sample.html
                          "\documentclass{article} B" (Normal tt)) w')
     = Success "<!DOCTYPE html><html>\documentclass{article} B</html>".
Proof.
  intros w' w0.
  assert (H : Sample.compile "Hello"
              = inl (mkError (Text "no document class") "Error: no document class"))
    by reflexivity.
  assert (H0 : Sample.compile "" = inl (mkError (Text "") "Error")) by reflexivity.
  destruct (compile_failure_is_reported Sample.compile Sample.html started "Hello" _ H)
    as (_ & _ & L & _ & _ & _ & S & R); [discriminate|].
  destruct (compile_failure_is_reported Sample.compile Sample.html started "" _ H0)
    as (_ & _ & _ & L0 & _); [discriminate|].
  split; [exact H|]. split; [exact (L _ _ eq_refl ltac:(discriminate))|].
  split; [exact H0|]. split; [exact (L0 _ eq_refl)|]. split; [exact S|].
  apply (R w' "\documentclass{article} B" (mkHtmlDocument "\documentclass{article} B" [])).
  reflexivity.
Defined.

(** The started session once the initial render has been called and waits
    for its import, and the user has opened [b]. *)
Local Abbreviation switched :=
  (run Sample.stringify Sample.compile Sample.html started
       [Elapse 450; RenderTimerFires; OpenFile "b"]).

(** C3 on that session: the result for [a] lands although [b] is current. *)
Lemma landing_is_unconditional_witness :
  suspended switched !! 0 = Some (mkSuspended "\documentclass{article} A" (Some "a"))
  /\ currentFileId switched = Some "b"
  /\ liveResult (step Sample.stringify Sample.compile Sample.html switched
                   (ImportSettles 0 (Normal tt)))
     = Success (assemble Sample.html (mkHtmlDocument "\documentclass{article} A" []))
  /\ session (step Sample.stringify Sample.compile Sample.html switched
                (ImportSettles 0 (Normal tt)))
     = session switched.
Proof.
  assert (H : suspended switched !! 0
              = Some (mkSuspended "\documentclass{article} A" (Some "a"))) by reflexivity.
  destruct (landing_is_unconditional Sample.stringify Sample.compile Sample.html switched 0 _ H)
    as (L & _ & _ & S & _).
  split; [exact H|]. split; [reflexivity|]. split; [|apply S].
  apply L. reflexivity.
Defined.

(** C3 as stated fails: the render was called while [a] was current, the
    session has moved on to [b], and the late result is applied all the
    same: the preview changes to the rendering of [a]. *)
Lemma stale_result_is_applied :
  map origin (suspended switched) = [Some "a"]
  /\ currentFileId switched = Some "b"
  /\ liveResult switched = Success ""
  /\ liveResult (step Sample.stringify Sample.compile Sample.html switched
                   (ImportSettles 0 (Normal tt)))
     = Success "<!DOCTYPE html><html>\documentclass{article} A</html>".
Proof. vm_compute. repeat split. Qed.

(** C2 on three calls 100 ms and 449 ms apart; the render fires 450 ms
    after the third, and only the third source is compiled. *)
Lemma debounce_collapses_burst_witness :
  let w := initialPage Sample.storage in
  let calls := [([Elapse 100; RenderTimerFires], "\documentclass{b}");
                ([Elapse 449; RenderTimerFires; AutoSaveTimerFires], "\documentclass{c}")] in
  let tail := [Elapse 449; RenderTimerFires; Elapse 1; RenderTimerFires;
               ImportSettles 0 (Normal tt)] in
  let w1 := burst Sample.stringify Sample.compile Sample.html
              (after (scheduleRender "\documentclass{a}") w) calls in
  observed (run Sample.stringify Sample.compile Sample.html w1 tail)
    = [RenderLatexCalled 999 "\documentclass{c}"; Compiled "\documentclass{c}"]
  /\ exists log,
       observed (run Sample.stringify Sample.compile Sample.html w1 tail)
         = (observed w ++ log)%list
       /\ Forall (rendersOnly "\documentclass{c}" (clock w1 + 450) []) log.
Proof.
  intros w calls tail w1. split; [reflexivity|].
  apply (debounce_collapses_burst Sample.stringify Sample.compile Sample.html
           w "\documentclass{a}" calls tail).
  - repeat constructor.
  - repeat constructor.
Defined.

(** C1 on the started session: [a] is edited, [b] is opened before the
    auto-save fires, and [a] is opened again. *)
Lemma flush_on_switch_witness :
  let T := "\documentclass{article} A, edited" in
  let w4 := run Sample.stringify Sample.compile Sample.html
              (step Sample.stringify Sample.compile Sample.html
                 (run Sample.stringify Sample.compile Sample.html
                    (step Sample.stringify Sample.compile Sample.html started (OpenFile "a")) [])
                 (EditorChanged T))
              [Elapse 200] in
  let w5 := step Sample.stringify Sample.compile Sample.html w4 (OpenFile "b") in
  let w7 := step Sample.stringify Sample.compile Sample.html
              (run Sample.stringify Sample.compile Sample.html w5
                 [Elapse 1000; AutoSaveTimerFires; RenderTimerFires])
              (OpenFile "a") in
  contentOf "a" w4 = Some "\documentclass{article} A"
  /\ contentOf "a" w5 = Some T
  /\ (available (localStorage w4) = true ->
      accepts (localStorage w4) (items (localStorage w4)) STORAGE_KEY
        (Sample.stringify (files w5)) = true ->
      items (localStorage w5) !! STORAGE_KEY = Some (Sample.stringify (files w5)))
  /\ JsString.normalise T = T
  /\ contentOf "a" w7 = Some T
  /\ doc w7 = T
  /\ currentFileId w7 = Some "a".
Proof.
  intros T w4 w5 w7. split; [reflexivity|].
  assert (NT : JsString.normalise T = T) by reflexivity.
  destruct (flush_on_switch Sample.stringify Sample.compile Sample.html started "a" "b" T
              [] [Elapse 200] [Elapse 1000; AutoSaveTimerFires; RenderTimerFires])
    as (K5 & S5 & K7 & D7 & C7);
    [| | | | | |split; [exact K5|]; split; [exact S5|]; split; [exact NT|];
               split; [exact (K7 NT)|]; split; [exact (D7 NT)|exact C7]].
  - discriminate.
  - vm_compute. eauto.
  - vm_compute. eauto.
  - constructor.
  - repeat constructor.
  - repeat constructor.
Defined.

(** C1 as stated fails for a document whose id is the empty string: the
    code takes an empty current id for no current document, so the switch
    away from it flushes nothing and the edit is lost. *)
Lemma edit_of_a_document_without_id_is_lost :
  let nameless := File.mk "" "Nameless" None "old text" in
  let w := Sample.world Sample.storage [nameless; Sample.docB] None "" in
  let w' := run Sample.stringify Sample.compile Sample.html w
              [OpenFile ""; EditorChanged "new text"; OpenFile "b"; OpenFile ""] in
  find "" (files w) = Some nameless
  /\ find "b" (files w) = Some Sample.docB
  /\ contentOf "" w' = Some "old text"
  /\ doc w' = "old text".
Proof. vm_compute. repeat split. Qed.

(** C7 on the started session. *)
Lemma create_then_find_witness :
  let i := JsString.toString36 (clock started) +:+ "k3x9q" in
  let file := File.mk i "Untitled" (Some "Drafts") TEMPLATE_math in
  resolveTemplate "math" = Some TEMPLATE_math
  /\ fresh i started
  /\ exists m, createFile Sample.stringify "   " " Drafts " "math" "k3x9q" = Some m
       /\ files (after m started) = (flushed started ++ [file])%list
       /\ find i (files (after m started)) = Some file
       /\ (TEMPLATES !! "math" = Some TEMPLATE_math
           \/ (TEMPLATES !! "math" = None /\ TEMPLATE_math = TEMPLATE_blank))
       /\ currentFileId (after m started) = Some i
       /\ doc (after m started) = TEMPLATE_math.
Proof.
  intros i file.
  assert (R : resolveTemplate "math" = Some TEMPLATE_math) by reflexivity.
  assert (F : fresh i started) by (split; [reflexivity|discriminate]).
  split; [exact R|]. split; [exact F|].
  exact (create_then_find Sample.stringify started "   " " Drafts " "math" "k3x9q" _ R F).
Defined.

(** C7 as stated fails: the document found has the requested name and
    folder trimmed, not exactly as requested. *)
Lemma created_name_and_folder_are_trimmed :
  let i := JsString.toString36 (clock started) +:+ "k3x9q" in
  exists m, createFile Sample.stringify " Draft " " Drafts " "math" "k3x9q" = Some m
    /\ File.name <$> find i (files (after m started)) = Some "Draft"
    /\ File.folder <$> find i (files (after m started)) = Some (Some "Drafts").
Proof. eexists. split; [reflexivity|]. vm_compute. split; reflexivity. Qed.

(** C9 fails on a collection with one document in a folder named
    [constructor]: drawing the tree throws. *)
Lemma folder_named_constructor_witness :
  let w := Sample.world Sample.storage
             [File.mk "m2r1bz7kk3x9q" "Paper" (Some "constructor") TEMPLATE_blank] None "" in
  Exists (fun f => inherited (folderOf f) = true) (files w)
  /\ renderFileTree w = (Throw TypeError_push, w).
Proof.
  intros w.
  assert (H : Exists (fun f => inherited (folderOf f) = true) (files w))
    by (left; reflexivity).
  split; [exact H|]. exact (folder_named_like_a_prototype_member w H).
Defined.

(** The grouping on a collection with plain folder names. *)
Lemma grouping_of_plain_folders_witness :
  let fs := [File.mk "1" "one" (Some "Notes") ""; File.mk "2" "two" (Some "  ") "";
             File.mk "3" "three" None ""; File.mk "4" "four" (Some "Alpha") "";
             File.mk "5" "five" (Some " Notes") ""; File.mk "6" "six" (Some "") ""] in
  let w := Sample.world Sample.storage fs (Some "5") "" in
  fileTree (after renderFileTree w)
  = FileTreeList
      [mkFileItem "2" "📄 two" false; mkFileItem "3" "📄 three" false;
       mkFileItem "6" "📄 six" false]
      [mkFolderItem "📁 Alpha" [mkFileItem "4" "📄 four" false];
       mkFolderItem "📁 Notes" [mkFileItem "1" "📄 one" false; mkFileItem "5" "📄 five" true]]
  /\ exists keys, fst (renderFileTree w) = Normal tt
       /\ fileTree (after renderFileTree w)
          = FileTreeList
              (map (makeFileItem (currentFileId w)) (bucket "" (files w)))
              (map (fun k => makeFolderItem (currentFileId w) k (bucket k (files w))) keys)
       /\ Sorted str_le keys
       /\ NoDup keys
       /\ (forall k, k ∈ keys <-> k <> "" /\ exists f, f ∈ files w /\ folderOf f = k)
       /\ (forall f, f ∈ bucket "" (files w)
                     <-> ungroupedFolder (File.folder f) = true /\ f ∈ files w)
       /\ (forall k, bucket k (files w) `sublist_of` files w).
Proof.
  intros fs w. split; [reflexivity|].
  apply (grouping_of_plain_folders w).
  - discriminate.
  - repeat constructor.
Defined.

(** The id is not checked against the collection: when the generated id
    is already taken, [find] of it returns the older document. *)
Lemma created_id_can_collide :
  let old := File.mk "rsk3x9q" "Older" None "older text" in
  let w := Sample.world Sample.storage [old] None "" in
  exists m, createFile Sample.stringify "Newer" "" "blank" "k3x9q" = Some m
    /\ JsString.toString36 (clock w) +:+ "k3x9q" = "rsk3x9q"
    /\ find "rsk3x9q" (files (after m w)) = Some old
    /\ length (files (after m w)) = 2.
Proof. eexists. split; [reflexivity|]. vm_compute. repeat split. Qed.

(** The failing collection is one the New Document dialog produces: the
    document is created and saved, and drawing the tree then throws out of
    [createFile]. *)
Lemma creating_in_folder_constructor_throws :
  exists m, createFile Sample.stringify "Paper" "constructor" "blank" "k3x9q" = Some m
    /\ fst (m started) = Throw TypeError_push
    /\ File.folder <$> find "0k3x9q" (files (after m started)) = Some (Some "constructor")
    /\ fileTree (after m started) = fileTree started.
Proof. eexists. split; [reflexivity|]. vm_compute. repeat split. Qed.

(** ** The hover panels *)

Lemma hover_quiet_idle (p : Hover.Panel) (e : Hover.Event) :
  Hover.pending p = [] -> Hover.idle e ->
  Hover.isOpen (Hover.step p e) = Hover.isOpen p /\ Hover.pending (Hover.step p e) = [].
Proof.
  intros E I. destruct e; try contradiction; simpl.
  - now split.
  - unfold Hover.isDue. rewrite E. simpl. now split.
Qed.

Lemma hover_clear_tracked (p : Hover.Panel) :
  (forall t, t ∈ Hover.pending p -> Hover.closeTimer p = Some (fst t)) ->
  Hover.clearTimeout (Hover.closeTimer p) (Hover.pending p) = [].
Proof.
  intros T. destruct (Hover.pending p) as [|t r] eqn:E; unfold Hover.clearTimeout.
  - now destruct (Hover.closeTimer p).
  - rewrite (T t (list_elem_of_here t r)). rewrite <- E in T |- *.
    destruct (filter (fun x => fst x <> fst t) (Hover.pending p)) as [|x l] eqn:F; [reflexivity|].
    assert (X : x ∈ filter (fun x => fst x <> fst t) (Hover.pending p))
      by (rewrite F; apply list_elem_of_here).
    apply list_elem_of_filter in X as [N X]. apply T in X.
    rewrite (T t) in X by (rewrite E; apply list_elem_of_here). injection X as X. congruence.
Qed.

Lemma hover_inv_step at_ next p e :
  Hover.kept at_ p -> Hover.move at_ e = Some next -> Hover.kept next (Hover.step p e).
Proof.
  intros I M. destruct e, at_; simpl in M; try discriminate; injection M as <-; simpl in *.
  - destruct I as [_ T]. split; [reflexivity|]. now apply hover_clear_tracked.
  - destruct I as [_ E]. rewrite E. simpl. split; [lia|].
    intros t ->%list_elem_of_singleton. reflexivity.
  - destruct I as [_ T]. now apply hover_clear_tracked.
  - rewrite I. simpl. split; [lia|].
    intros t ->%list_elem_of_singleton. reflexivity.
  - exact I.
  - exact I.
  - exact I.
  - destruct I as [L T]. destruct (Hover.isDue h p); [|now split]. simpl. split.
    + etransitivity; [apply length_filter|exact L].
    + intros t [_ ?]%list_elem_of_filter. now apply T.
  - destruct I as [O E]. unfold Hover.isDue. rewrite E. simpl. now split.
  - unfold Hover.isDue. rewrite I. simpl. exact I.
Qed.

(** For a pointer that is over the zone, over the panel or over neither,
    the handlers keep this: while the pointer is over the zone the panel
    is open and no timer is pending, so it stays open for as long as the
    pointer rests there; while it is over the panel no timer is pending
    either; and once it has left, at most one timer is pending, the one
    [closeTimer] names, which the next [mouseenter] clears. *)
Theorem hover_panel_follows_the_pointer (es : list Hover.Event) (at_ : Hover.Pointer) :
  Hover.moves Hover.Away es = Some at_ ->
  let p := Hover.run Hover.initial es in
  (at_ = Hover.OverZone -> Hover.isOpen p = true)
  /\ (at_ <> Hover.Away -> Hover.pending p = [])
  /\ length (Hover.pending p) <= 1
  /\ (forall t, t ∈ Hover.pending p -> Hover.closeTimer p = Some (fst t)).
Proof.
  intros M p.
  assert (I : Hover.kept at_ p).
  { unfold p. clear p. revert M.
    assert (I0 : Hover.kept Hover.Away Hover.initial).
    { simpl. split; [lia|]. intros t H. inversion H. }
    revert I0. generalize Hover.initial, Hover.Away.
    induction es as [|e r IH]; intros q a I0 M; simpl in *.
    - now injection M as <-.
    - destruct (Hover.move a e) as [next|] eqn:E; [|discriminate].
      apply (IH _ next); [|exact M]. now apply (hover_inv_step a). }
  destruct at_; simpl in I.
  - destruct I as [L T]. repeat split; try congruence; assumption.
  - destruct I as [O E]. rewrite E. simpl. repeat split; try congruence; try lia.
    intros t H. inversion H.
  - rewrite I. simpl. repeat split; try congruence; try lia.
    intros t H. inversion H.
Qed.

Lemma hover_now_run (es : list Hover.Event) : forall p,
  Forall Hover.idle es -> Hover.now (Hover.run p es) = (Hover.now p + Hover.elapsed es)%N.
Proof.
  induction es as [|e r IH]; intros p F; simpl.
  - lia.
  - inversion F as [|? ? I F']; subst. unfold Hover.run in IH. rewrite (IH _ F').
    destruct e; try contradiction; simpl.
    + lia.
    + now destruct (Hover.isDue h p).
Qed.

Lemma hover_waiting_run (es : list Hover.Event) : forall p n d,
  Hover.pending p = [(n, d)] -> Forall Hover.idle es ->
  let q := Hover.run p es in
  (Hover.pending q = [(n, d)] /\ Hover.isOpen q = Hover.isOpen p)
  \/ (Hover.isOpen q = false /\ Hover.pending q = [] /\ (d <= Hover.now q)%N).
Proof.
  induction es as [|e r IH]; intros p n d P F; simpl.
  - now left.
  - inversion F as [|? ? I F']; subst. destruct e; try contradiction; simpl.
    + destruct (IH (Hover.step p (Hover.Elapse ms)) n d P F') as [H|H]; [left|right]; exact H.
    + destruct (Hover.isDue h p) eqn:D.
      * right. unfold Hover.isDue in D. rewrite P in D. simpl in D.
        rewrite orb_false_r in D. apply andb_true_iff in D as [D1 D2].
        apply Nat.eqb_eq in D1. apply N.leb_le in D2. subst h.
        set (q := Hover.mkPanel _ _ _ _ _).
        assert (Q : Hover.pending q = []).
        { unfold q. simpl. rewrite P. rewrite filter_cons, filter_nil. simpl. destruct (decide (n <> n)) as [N|N]; [now elim N|reflexivity]. }
        assert (R : forall l x, Forall Hover.idle l -> Hover.pending x = [] ->
                    Hover.isOpen (Hover.run x l) = Hover.isOpen x
                    /\ Hover.pending (Hover.run x l) = []).
        { clear. induction l as [|e l IHl]; intros x Fl X; simpl; [now split|].
          inversion Fl as [|? ? I Fl']; subst.
          destruct (hover_quiet_idle x e X I) as [A B].
          destruct (IHl _ Fl' B) as [A' B']. split; [congruence|exact B']. }
        destruct (R r q F' Q) as [A B]. split; [exact A|]. split; [exact B|].
        fold (Hover.run q r). rewrite (hover_now_run r q F'). unfold q. simpl. lia.
      * destruct (IH p n d P F') as [H|H]; [left|right]; exact H.
Qed.

(** The panel outlives the pointer by 220 ms.  When the pointer leaves
    with no other timer pending, the panel stays as it is for as long as
    less than 220 ms have passed, and once 220 ms have passed the timer
    set by the leave closes it. *)
Theorem hover_panel_closes_220ms_after_leave (p : Hover.Panel) (es : list Hover.Event) :
  Hover.pending p = [] -> Forall Hover.idle es ->
  let q := Hover.run (Hover.close p) es in
  ((Hover.elapsed es < 220)%N -> Hover.isOpen q = Hover.isOpen p)
  /\ ((220 <= Hover.elapsed es)%N ->
      Hover.isOpen (Hover.step q (Hover.TimerFires (Hover.nextHandle p))) = false).
Proof.
  intros E F q.
  assert (P : Hover.pending (Hover.close p) = [(Hover.nextHandle p, (Hover.now p + 220)%N)]).
  { simpl. now rewrite E. }
  pose proof (hover_now_run es (Hover.close p) F) as T. simpl in T.
  destruct (hover_waiting_run es _ _ _ P F) as [[W O]|(O & W & D)]; fold q in T, W, O |- *.
  - split; [intros _; exact O|]. intros L. simpl. unfold Hover.isDue. rewrite W. simpl.
    rewrite Nat.eqb_refl. simpl.
    destruct (N.leb_spec (Hover.now p + 220) (Hover.now q)) as [_|G]; [reflexivity|lia].
  - fold q in D. split; [intros L; lia|]. intros _. simpl. unfold Hover.isDue. rewrite W. simpl.
    exact O.
Qed.

(** [close] sets a timer without clearing the one [closeTimer] names.
    Should two [mouseleave] events arrive with no [mouseenter] between
    them, the first timer is out of reach: a later [mouseenter] of the
    zone opens the panel and clears only the second timer, and the first
    closes the panel 220 ms after the leave, with the pointer over the
    zone. *)
Theorem hover_second_leave_orphans_the_first_timer (p : Hover.Panel) (first second : bool) :
  let leave (zone : bool) := if zone then Hover.ZoneLeave else Hover.PanelLeave in
  let q := Hover.run p [leave first; leave second; Hover.ZoneEnter] in
  Hover.isOpen q = true
  /\ (Hover.nextHandle p, (Hover.now p + 220)%N) ∈ Hover.pending q
  /\ forall ms, (220 <= ms)%N ->
       Hover.isOpen (Hover.run q [Hover.Elapse ms; Hover.TimerFires (Hover.nextHandle p)]) = false.
Proof.
  intros leave q.
  assert (Q : q = Hover.open (Hover.close (Hover.close p))) by (now destruct first, second).
  assert (M : (Hover.nextHandle p, (Hover.now p + 220)%N) ∈ Hover.pending q).
  { rewrite Q. simpl. apply list_elem_of_filter. split; [simpl; lia|].
    apply elem_of_app. left. apply elem_of_app. right. apply list_elem_of_here. }
  split; [now rewrite Q|]. split; [exact M|].
  intros ms L.
  assert (D : Hover.isDue (Hover.nextHandle p) (Hover.step q (Hover.Elapse ms)) = true).
  { unfold Hover.isDue. apply existsb_exists.
    exists (Hover.nextHandle p, (Hover.now p + 220)%N). split.
    - apply list_elem_of_In. exact M.
    - assert (N : Hover.now q = Hover.now p) by (now rewrite Q).
      cbn [fst snd Hover.step Hover.now]. rewrite Nat.eqb_refl, N. simpl.
      apply N.leb_le. lia. }
  change (Hover.run q [Hover.Elapse ms; Hover.TimerFires (Hover.nextHandle p)])
    with (Hover.step (Hover.step q (Hover.Elapse ms)) (Hover.TimerFires (Hover.nextHandle p))).
  generalize dependent (Hover.step q (Hover.Elapse ms)). intros q1 D.
  simpl. now rewrite D.
Qed.

(** ** The session properties on the sample data *)

Local Abbreviation someActions :=
  [Happens (OpenFile "b");
   CreateFile "Gamma" " Notes " "math" "k3x9q";
   Happens (EditorChanged "\documentclass{article} G");
   Happens (Elapse 1000);
   Happens AutoSaveTimerFires;
   Happens (OpenFile "a")].

Local Abbreviation performed :=
  (performAll Sample.stringify Sample.compile Sample.html started someActions).

(** After a session on the started page, the current id names a
    document. *)
Lemma current_document_always_exists_witness :
  legible Sample.parse Sample.storage
  /\ exists w, performed = Some w /\ attached w.
Proof.
  split; [reflexivity|].
  destruct performed as [w|] eqn:E; [|vm_compute in E; discriminate E].
  exists w. split; [reflexivity|].
  exact (current_document_always_exists Sample.stringify Sample.parse Sample.compile
           Sample.html Sample.storage someActions w eq_refl E).
Defined.

Lemma pending_timers_carry_the_editor_text_witness :
  legible Sample.parse Sample.storage
  /\ exists w, performed = Some w /\ carries w.
Proof.
  split; [reflexivity|].
  destruct performed as [w|] eqn:E; [|vm_compute in E; discriminate E].
  exists w. split; [reflexivity|].
  exact (pending_timers_carry_the_editor_text Sample.stringify Sample.parse Sample.compile
           Sample.html Sample.storage someActions w eq_refl E).
Defined.

Lemma documents_are_never_removed_witness :
  exists w, performed = Some w
    /\ exists created, map meta (files w) = (map meta (files started) ++ created)%list.
Proof.
  destruct performed as [w|] eqn:E; [|vm_compute in E; discriminate E].
  exists w. split; [reflexivity|].
  exact (documents_are_never_removed Sample.stringify Sample.compile Sample.html
           someActions started w E).
Defined.

Lemma storage_follows_memory_witness :
  accepting (localStorage started)
  /\ synced Sample.stringify started
  /\ exists w, performed = Some w
       /\ synced Sample.stringify w /\ accepting (localStorage w).
Proof.
  assert (A : accepting (localStorage started)) by (split; [reflexivity|intros; reflexivity]).
  assert (S : synced Sample.stringify started) by (split; reflexivity).
  split; [exact A|]. split; [exact S|].
  destruct performed as [w|] eqn:E; [|vm_compute in E; discriminate E].
  exists w. split; [reflexivity|].
  exact (storage_follows_memory Sample.stringify Sample.compile Sample.html
           someActions started w A S E).
Defined.

(** The started session is read back as it is. *)
Lemma reload_restores_the_session_witness :
  let w' := boot Sample.parse (localStorage started) in
  files w' = files started
  /\ currentFileId w' = orNull (currentFileId started)
  /\ (forall c, orNull (currentFileId started) = Some c ->
        Some (doc w') = JsString.normalise <$> contentOf c started)
  /\ (orNull (currentFileId started) = None -> doc w' = DEFAULT_DOC).
Proof.
  apply (reload_restores_the_session Sample.stringify Sample.parse started).
  - reflexivity.
  - split; reflexivity.
  - intros c [= <-]. eexists. reflexivity.
  - reflexivity.
  - discriminate.
Defined.

(** An edit of [a], half a second with a render in it, and the auto-save
    another half second later. *)
Lemma autosave_waits_a_quiet_second_witness :
  let T := "\documentclass{article} A, edited" in
  let w1 := run Sample.stringify Sample.compile Sample.html
              (step Sample.stringify Sample.compile Sample.html started (EditorChanged T))
              [Elapse 500; RenderTimerFires; AutoSaveTimerFires] in
  files w1 = files started
  /\ localStorage w1 = localStorage started
  /\ contentOf "a"
       (step Sample.stringify Sample.compile Sample.html
          (step Sample.stringify Sample.compile Sample.html w1 (Elapse 500))
          AutoSaveTimerFires) = Some T.
Proof.
  apply (autosave_waits_a_quiet_second Sample.stringify Sample.compile Sample.html
           started "\documentclass{article} A, edited"
           [Elapse 500; RenderTimerFires; AutoSaveTimerFires] 500 "a").
  - repeat constructor.
  - reflexivity.
  - discriminate.
  - reflexivity.
  - eexists. reflexivity.
Defined.

(** On the started page the compiler is not imported yet: the render of
    the change waits for the import. *)
Lemma a_change_reaches_the_preview_witness :
  let T := "no document class" in
  let w1 := run Sample.stringify Sample.compile Sample.html started
              [EditorChanged T; Elapse 450; RenderTimerFires] in
  liveResult (step Sample.stringify Sample.compile Sample.html w1 (ImportSettles 0 (Normal tt)))
    = Failure "no document class"
  /\ (latexModule started = true ->
      liveResult w1 = rendering Sample.compile Sample.html T (liveResult started)
      /\ suspended w1 = suspended started)
  /\ (latexModule started = false ->
      suspended w1 = (suspended started ++ [mkSuspended T (currentFileId started)])%list
      /\ liveResult (step Sample.stringify Sample.compile Sample.html w1
                       (ImportSettles (length (suspended started)) (Normal tt)))
         = rendering Sample.compile Sample.html T (liveResult started)
      /\ forall e, liveResult (step Sample.stringify Sample.compile Sample.html w1
                                 (ImportSettles (length (suspended started)) (Throw e)))
                   = reported e (liveResult started)).
Proof.
  split; [reflexivity|].
  apply (a_change_reaches_the_preview Sample.stringify Sample.compile Sample.html
           started "no document class" 450).
  discriminate.
Defined.

(** The first render of the started page imports the compiler; the
    session after it never waits again. *)
Lemma module_is_imported_once_witness :
  let w := run Sample.stringify Sample.compile Sample.html started
             [Elapse 450; RenderTimerFires] in
  suspended w = [mkSuspended (File.content Sample.docA) (Some "a")]
  /\ exists w',
       performAll Sample.stringify Sample.compile Sample.html
         (step Sample.stringify Sample.compile Sample.html w (ImportSettles 0 (Normal tt)))
         someActions = Some w'
       /\ latexModule w' = true
       /\ suspended w' `sublist_of` delete 0 (suspended w).
Proof.
  intros w. split; [reflexivity|].
  destruct (performAll Sample.stringify Sample.compile Sample.html
              (step Sample.stringify Sample.compile Sample.html w (ImportSettles 0 (Normal tt)))
              someActions) as [w'|] eqn:E; [|vm_compute in E; discriminate E].
  exists w'. split; [reflexivity|].
  exact (module_is_imported_once Sample.stringify Sample.compile Sample.html
           w 0 (mkSuspended (File.content Sample.docA) (Some "a")) someActions w'
           eq_refl E).
Defined.

Lemma reopening_the_current_document_witness :
  let w := step Sample.stringify Sample.compile Sample.html started
             (EditorChanged "\documentclass{article} A, edited") in
  let w' := step Sample.stringify Sample.compile Sample.html w (OpenFile "a") in
  doc w' = "\documentclass{article} A, edited"
  /\ doc w' = JsString.normalise (doc w)
  /\ (JsString.normalise (doc w) = doc w -> doc w' = doc w)
  /\ contentOf "a" w' = Some (doc w)
  /\ currentFileId w' = Some "a".
Proof.
  intros w. split; [reflexivity|].
  apply (reopening_the_current_document Sample.stringify Sample.compile Sample.html w "a").
  - discriminate.
  - reflexivity.
  - eexists. reflexivity.
Defined.

(** The startup code on the storage whose document has CR LF line
    breaks: the editor shows it with line feeds, and the render that is
    scheduled is for the text as it is stored. *)
Lemma startup_shows_the_current_document_witness :
  let w := boot Sample.parse Sample.carriageReturns in
  doc w = "\documentclass{article}" +:+ String "010"%char "C"
  /\ renderTimer w
     = Some (mkTimer 450 ("\documentclass{article}" +:+ Sample.crlf +:+ "C"))
  /\ legible Sample.parse Sample.carriageReturns
  /\ files w = loadedFiles Sample.parse Sample.carriageReturns
  /\ (forall c, currentFileId w = Some c ->
        c <> ""
        /\ exists f, find c (files w) = Some f
             /\ doc w = JsString.normalise (File.content f)
             /\ renderTimer w = Some (mkTimer 450 (File.content f)))
  /\ (currentFileId w = None ->
      doc w = DEFAULT_DOC /\ renderTimer w = Some (mkTimer 450 DEFAULT_DOC)).
Proof.
  split; [reflexivity|]. split; [reflexivity|]. split; [reflexivity|].
  apply (startup_shows_the_current_document Sample.parse Sample.carriageReturns).
  reflexivity.
Defined.

(** The startup code on the storage whose files record is [null]. *)
Lemma startup_on_a_foreign_record_witness :
  held Sample.parse Sample.foreign = Alien false
  /\ loadedCurrent Sample.foreign = Some "a"
  /\ fst (startup Sample.parse (initialPage Sample.foreign)) = Throw TypeError_find
  /\ currentFileId (boot Sample.parse Sample.foreign) = Some "a"
  /\ fileTree (boot Sample.parse Sample.foreign) = fileTree (initialPage Sample.foreign).
Proof.
  split; [reflexivity|]. split; [reflexivity|].
  apply (startup_on_a_foreign_record Sample.parse Sample.foreign "a"); reflexivity.
Defined.

(** The pointer enters the zone and rests there. *)
Lemma hover_panel_follows_the_pointer_witness :
  let p := Hover.run Hover.initial
             [Hover.ZoneEnter; Hover.ZoneLeave; Hover.Elapse 100; Hover.ZoneEnter;
              Hover.Elapse 1000; Hover.TimerFires 1] in
  (Hover.OverZone = Hover.OverZone -> Hover.isOpen p = true)
  /\ (Hover.OverZone <> Hover.Away -> Hover.pending p = [])
  /\ length (Hover.pending p) <= 1
  /\ (forall t, t ∈ Hover.pending p -> Hover.closeTimer p = Some (fst t)).
Proof.
  apply (hover_panel_follows_the_pointer
           [Hover.ZoneEnter; Hover.ZoneLeave; Hover.Elapse 100; Hover.ZoneEnter;
            Hover.Elapse 1000; Hover.TimerFires 1] Hover.OverZone).
  reflexivity.
Defined.

Lemma hover_panel_closes_220ms_after_leave_witness :
  let p := Hover.open Hover.initial in
  let es := [Hover.Elapse 100; Hover.TimerFires 1; Hover.Elapse 120] in
  let q := Hover.run (Hover.close p) es in
  ((Hover.elapsed es < 220)%N -> Hover.isOpen q = Hover.isOpen p)
  /\ ((220 <= Hover.elapsed es)%N ->
      Hover.isOpen (Hover.step q (Hover.TimerFires (Hover.nextHandle p))) = false).
Proof.
  apply (hover_panel_closes_220ms_after_leave (Hover.open Hover.initial)
           [Hover.Elapse 100; Hover.TimerFires 1; Hover.Elapse 120]).
  - reflexivity.
  - repeat constructor.
Defined.

(** The New button on a page that shows a broken source. *)
Lemma first_revision_keeps_the_last_good_render_witness :
  let p := Part000.run Sample.compile Sample.html Part000.initial
             [Part000.Elapse 450; Part000.RenderTimerFires;
              Part000.ImportSettles 0 (Normal tt); Part000.EditorChanged "broken"] in
  let p1 := Part000.run Sample.compile Sample.html p
              [Part000.NewClicked; Part000.Elapse 450; Part000.RenderTimerFires] in
  let shows (o : Completion unit) :=
    match o, Sample.compile DEFAULT_DOC with
    | Normal _, inr d => Part000.assemble Sample.html d
    | _, _ => Part000.srcdoc p
    end in
  Part000.latexModule p = true
  /\ Part000.doc p1 = DEFAULT_DOC
  /\ Part000.renderTimer p1 = None
  /\ (Part000.latexModule p = true -> Part000.srcdoc p1 = shows (Normal tt))
  /\ (Part000.latexModule p = false ->
      Part000.srcdoc p1 = Part000.srcdoc p
      /\ forall o,
           Part000.srcdoc
             (Part000.step Sample.compile Sample.html p1
                (Part000.ImportSettles (length (Part000.suspended p)) o))
           = shows o).
Proof.
  intros p. split; [reflexivity|].
  apply (first_revision_keeps_the_last_good_render Sample.compile Sample.html
           p Part000.NewClicked DEFAULT_DOC 450).
  - reflexivity.
  - discriminate.
Defined.
